(** * Shift management: shift lifecycle, rest-period check and payroll engine

    A shallow embedding of the business logic of [app.py]:
    [get_shift_duration], [calculate_pay], [calculate_payroll_for_user], the
    creation form of [admin_manage_shifts] (shift-type selection, 12-hour
    downtime check, record creation), [admin_approve_shifts], the accept and
    decline buttons of [employee_shifts], [manual_add_payroll_entry] and the
    demo-data generators.

    Modelling conventions.
    - A Python [str] is a [string] (ASCII alphabet).
    - A Python [float] is a binary64 [float] of the kernel ([PrimFloat]); the
      arithmetic of [get_shift_duration] and of the payroll sums is the IEEE
      arithmetic Python performs.
    - A [datetime.date] is a record of year, month and day; a [datetime] with
      zero seconds is the number of minutes since the start of ordinal day 0.
    - A JSON object read with [dict.get] or [dict[...]] is a record whose
      fields are of type [field]: the key is absent, maps to [null], or maps
      to a value.
    - A raised Python exception is the [Raise] branch of [result].
    - The shift store (the dict that [load_shifts] returns and [save_shifts]
      writes) is an association list in insertion order. *)

From Stdlib Require Import ZArith List ListSet String Ascii Bool Lia DecimalString DecimalNat.
From Stdlib Require Import Floats.PrimFloat Numbers.Cyclic.Int63.Uint63.
Import ListNotations.

Open Scope string_scope.
Open Scope Z_scope.

(** ** Exceptions *)

Inductive exn : Type :=
| KeyError
| TypeError
| ValueError
| AttributeError.

Inductive result (A : Type) : Type :=
| Ok (a : A)
| Raise (e : exn).

Arguments Ok {A} a.
Arguments Raise {A} e.

Definition bind {A B : Type} (r : result A) (k : A -> result B) : result B :=
  match r with
  | Ok a => k a
  | Raise e => Raise e
  end.

Notation "'let*' x ':=' r 'in' k" := (bind r (fun x => k))
  (at level 10, x name, r at level 100, k at level 200).

Definition is_ok {A : Type} (r : result A) : bool :=
  match r with Ok _ => true | Raise _ => false end.

(** ** JSON record fields *)

Inductive field (A : Type) : Type :=
| Absent
| Null
| Val (a : A).

Arguments Absent {A}.
Arguments Null {A}.
Arguments Val {A} a.

(** [d.get(k)] and [d.get(k, default)]: [None] stands for Python's [None]. *)
Definition get {A : Type} (f : field A) : option A :=
  match f with Val a => Some a | _ => None end.

Definition get_default {A : Type} (f : field A) (default : option A) : option A :=
  match f with
  | Absent => default
  | Null => None
  | Val a => Some a
  end.

(** [d[k]]: a missing key raises [KeyError]. *)
Definition subscript {A : Type} (f : field A) : result (option A) :=
  match f with
  | Absent => Raise KeyError
  | Null => Ok None
  | Val a => Ok (Some a)
  end.

(** [k in d]. *)
Definition has_key {A : Type} (f : field A) : bool :=
  match f with Absent => false | _ => true end.

(** ** Times of day and [datetime.strptime(_, "%H:%M")] *)

Record time_of_day : Type := mkTime { hour : Z; minute : Z }.

Definition digit_of (c : ascii) : option Z :=
  let n := Z.of_nat (nat_of_ascii c) in
  if (48 <=? n) && (n <=? 57) then Some (n - 48) else None.

(** The directive [%H] is the regular expression [2[0-3]|[0-1]\d|\d]: two
    digits when they read as 00..23, one digit otherwise.  The function
    returns the value and the rest of the input. *)
Definition parse_H (s : string) : option (Z * string) :=
  match s with
  | EmptyString => None
  | String a r =>
      match digit_of a with
      | None => None
      | Some x =>
          match r with
          | EmptyString => Some (x, r)
          | String b r' =>
              match digit_of b with
              | Some y => if 10 * x + y <=? 23 then Some (10 * x + y, r') else Some (x, r)
              | None => Some (x, r)
              end
          end
      end
  end.

(** The directive [%M] is [[0-5]\d|\d]. *)
Definition parse_M (s : string) : option (Z * string) :=
  match s with
  | EmptyString => None
  | String a r =>
      match digit_of a with
      | None => None
      | Some x =>
          match r with
          | EmptyString => Some (x, r)
          | String b r' =>
              match digit_of b with
              | Some y => if x <=? 5 then Some (10 * x + y, r') else Some (x, r)
              | None => Some (x, r)
              end
          end
      end
  end.

(** [datetime.strptime(s, "%H:%M")] on a string: hour, a colon, minute and
    nothing after it; [ValueError] otherwise. *)
Definition strptime_HM_str (s : string) : result time_of_day :=
  match parse_H s with
  | Some (h, String ":" r) =>
      match parse_M r with
      | Some (m, EmptyString) => Ok (mkTime h m)
      | _ => Raise ValueError
      end
  | _ => Raise ValueError
  end.

(** The argument of [strptime] may be [None] (a [null] read from the store):
    Python raises [TypeError] then. *)
Definition strptime_HM (v : option string) : result time_of_day :=
  match v with
  | None => Raise TypeError
  | Some s => strptime_HM_str s
  end.

Definition digit_char (d : Z) : ascii := ascii_of_nat (Z.to_nat (48 + d)).

Definition two_digits (n : Z) : string :=
  String (digit_char (n / 10)) (String (digit_char (n mod 10)) EmptyString).

(** [t.strftime("%H:%M")]. *)
Definition strftime_HM (t : time_of_day) : string :=
  two_digits (hour t) ++ ":" ++ two_digits (minute t).

(** A well-formed HH:MM string: two digits, a colon, two digits, as
    [strftime] prints a time of day. *)
Definition well_formed_HHMM (s : string) : bool :=
  match strptime_HM_str s with
  | Ok t => String.eqb (strftime_HM t) s
  | Raise _ => false
  end.

Definition minutes_of (t : time_of_day) : Z := 60 * hour t + minute t.

(** ** DurationCalculator: [get_shift_duration] *)

(** [timedelta.total_seconds()] of a whole number of seconds, as a float. *)
Definition float_of_Z (n : Z) : float := PrimFloat.of_uint63 (Uint63.of_Z n).

(** [duration.total_seconds() / 3600]. *)
Definition hours_of_seconds (secs : Z) : float :=
  PrimFloat.div (float_of_Z secs) 3600%float.

(** Elapsed seconds between two times of day on the reference date, the end
    moved to the next day when [end < start]. *)
Definition duration_seconds (start end_ : time_of_day) : Z :=
  let e := if minutes_of end_ <? minutes_of start
           then minutes_of end_ + 1440 else minutes_of end_ in
  60 * (e - minutes_of start).

Definition get_shift_duration (start_time_str end_time_str : option string)
  : result float :=
  let* start := strptime_HM start_time_str in
  let* end_ := strptime_HM end_time_str in
  Ok (hours_of_seconds (duration_seconds start end_)).

(** ** Calendar dates and [datetime.strptime(_, "%Y-%m-%d")] *)

Record calendar_date : Type := mkDate { year : Z; month : Z; day : Z }.

Definition is_leap (y : Z) : bool :=
  (y mod 4 =? 0) && (negb (y mod 100 =? 0) || (y mod 400 =? 0)).

Definition days_in_month (y m : Z) : Z :=
  if m =? 2 then (if is_leap y then 29 else 28)
  else if (m =? 4) || (m =? 6) || (m =? 9) || (m =? 11) then 30
  else 31.

Definition days_before_year (y : Z) : Z :=
  let p := y - 1 in p * 365 + p / 4 - p / 100 + p / 400.

Fixpoint days_before_month_aux (y : Z) (n : nat) : Z :=
  match n with
  | O => 0
  | S k => days_before_month_aux y k + days_in_month y (Z.of_nat n)
  end.

Definition days_before_month (y m : Z) : Z :=
  days_before_month_aux y (Z.to_nat (m - 1)).

(** [d.toordinal()]: 0001-01-01 is day 1. *)
Definition toordinal (d : calendar_date) : Z :=
  days_before_year (year d) + days_before_month (year d) (month d) + day d.

Definition valid_date (d : calendar_date) : bool :=
  (1 <=? year d) && (year d <=? 9999) &&
  (1 <=? month d) && (month d <=? 12) &&
  (1 <=? day d) && (day d <=? days_in_month (year d) (month d)).

(** [%Y] is [\d\d\d\d]. *)
Definition parse_Y (s : string) : option (Z * string) :=
  match s with
  | String a (String b (String c (String d r))) =>
      match digit_of a, digit_of b, digit_of c, digit_of d with
      | Some x, Some y, Some z, Some w => Some (1000 * x + 100 * y + 10 * z + w, r)
      | _, _, _, _ => None
      end
  | _ => None
  end.

(** [%m] is [1[0-2]|0[1-9]|[1-9]]. *)
Definition parse_m (s : string) : option (Z * string) :=
  match s with
  | EmptyString => None
  | String a r =>
      match digit_of a with
      | None => None
      | Some x =>
          let one := if 1 <=? x then Some (x, r) else None in
          match r with
          | EmptyString => one
          | String b r' =>
              match digit_of b with
              | Some y =>
                  if (x =? 1) && (y <=? 2) then Some (10 + y, r')
                  else if (x =? 0) && (1 <=? y) then Some (y, r')
                  else one
              | None => one
              end
          end
      end
  end.

(** [%d] is [3[0-1]|[1-2]\d|0[1-9]|[1-9]| [1-9]]. *)
Definition parse_d (s : string) : option (Z * string) :=
  match s with
  | EmptyString => None
  | String a r =>
      match digit_of a with
      | None =>
          if Ascii.eqb a " " then
            match r with
            | String b r' =>
                match digit_of b with
                | Some y => if 1 <=? y then Some (y, r') else None
                | None => None
                end
            | EmptyString => None
            end
          else None
      | Some x =>
          let one := if 1 <=? x then Some (x, r) else None in
          match r with
          | EmptyString => one
          | String b r' =>
              match digit_of b with
              | Some y =>
                  if (x =? 3) && (y <=? 1) then Some (30 + y, r')
                  else if (1 <=? x) && (x <=? 2) then Some (10 * x + y, r')
                  else if (x =? 0) && (1 <=? y) then Some (y, r')
                  else one
              | None => one
              end
          end
      end
  end.

Definition strptime_Ymd_str (s : string) : result calendar_date :=
  match parse_Y s with
  | Some (y, String "-" r1) =>
      match parse_m r1 with
      | Some (m, String "-" r2) =>
          match parse_d r2 with
          | Some (d, EmptyString) =>
              if valid_date (mkDate y m d) then Ok (mkDate y m d) else Raise ValueError
          | _ => Raise ValueError
          end
      | _ => Raise ValueError
      end
  | _ => Raise ValueError
  end.

Definition strptime_Ymd (v : option string) : result calendar_date :=
  match v with
  | None => Raise TypeError
  | Some s => strptime_Ymd_str s
  end.

Definition four_digits (n : Z) : string :=
  String (digit_char (n / 1000))
    (String (digit_char ((n / 100) mod 10)) (two_digits (n mod 100))).

(** [d.strftime('%Y-%m-%d')], for the four-digit years a date picker offers. *)
Definition strftime_Ymd (d : calendar_date) : string :=
  four_digits (year d) ++ "-" ++ two_digits (month d) ++ "-" ++ two_digits (day d).

(** A [datetime] with zero seconds, in minutes. [datetime.combine(d, t)]. *)
Definition datetime : Type := Z.

Definition combine (d : calendar_date) (t : time_of_day) : datetime :=
  1440 * toordinal d + minutes_of t.

(** [date1 <= date2]. *)
Definition date_leb (d1 d2 : calendar_date) : bool := toordinal d1 <=? toordinal d2.

(** ** ShiftCatalog *)

Record ShiftTypeDefinition : Type :=
  mkShiftType { st_start : string; st_end : string; weekday : bool }.

Definition SHIFT_TYPES : list (string * ShiftTypeDefinition) :=
  [ ("morning", mkShiftType "06:00" "14:00" true);
    ("late", mkShiftType "14:00" "22:00" true);
    ("night", mkShiftType "22:00" "06:00" true);
    ("weekend_morning", mkShiftType "06:00" "18:00" false);
    ("weekend_night", mkShiftType "18:00" "06:00" false) ].

Definition SHIFT_COMPATIBILITY : list (string * list string) :=
  [ ("morning", ["weekend_morning"]);
    ("late", ["weekend_night"]);
    ("night", ["weekend_night"]);
    ("weekend_morning", ["morning"]);
    ("weekend_night", ["late"; "night"]) ].

(** [d[k]] on a dict kept as an association list. *)
Fixpoint dict_get {V : Type} (d : list (string * V)) (k : string) : result V :=
  match d with
  | [] => Raise KeyError
  | (k', v) :: d' => if String.eqb k' k then Ok v else dict_get d' k
  end.

(** [k in d]. *)
Definition dict_mem {V : Type} (d : list (string * V)) (k : string) : bool :=
  existsb (fun kv => String.eqb (fst kv) k) d.

(** [d[k] = v]: the value of an existing key is replaced in place, a new key
    goes to the end. *)
Fixpoint dict_set {V : Type} (d : list (string * V)) (k : string) (v : V)
  : list (string * V) :=
  match d with
  | [] => [(k, v)]
  | (k', v') :: d' =>
      if String.eqb k' k then (k, v) :: d' else (k', v') :: dict_set d' k v
  end.

(** ** Users and shifts *)

Record User : Type := mkUser {
  username : string;
  role : string;
  name : string;
  primary_shift : string;
  secondary_shift : field string;
  hourly_rate : float
}.

Record Shift : Type := mkShift {
  id : field string;
  date : field string;
  shift_type : field string;
  planned_start : field string;
  planned_end : field string;
  assigned_employees : field (list string);
  assigned_admin : field string;
  status : field string;
  approved : field bool;
  actual_start : field string;
  actual_end : field string;
  manual_amount : field float;
  description : field string
}.

Definition store : Type := list (string * Shift).

(** Truth value of [s.get(k)] for a boolean and for a string. *)
Definition truthy_bool (f : field bool) : bool :=
  match f with Val true => true | _ => false end.

Definition truthy_str (f : field string) : bool :=
  match f with
  | Val s => negb (String.eqb s "")
  | _ => false
  end.

(** [s.get(k) == lit]. *)
Definition field_is (f : field string) (lit : string) : bool :=
  match f with Val s => String.eqb s lit | _ => false end.

(** [x in l] for a list of strings. *)
Definition mem (x : string) (l : list string) : bool :=
  existsb (String.eqb x) l.

(** [username in shift.get('assigned_employees', [])]: [in] on [None]
    raises [TypeError]. *)
Definition assigned_to (u : string) (s : Shift) : result bool :=
  match assigned_employees s with
  | Absent => Ok false
  | Null => Raise TypeError
  | Val l => Ok (mem u l)
  end.

(** ** PayrollEngine: [calculate_pay] and [calculate_payroll_for_user] *)

(** [calculate_pay]: the result is a float, or [None] when the stored manual
    amount is [null]; the final [return 0] is the float zero. The default
    argument of [dict.get] is evaluated before the call, so a missing
    planned time raises [KeyError] even when the actual time is stored. *)
Definition calculate_pay (shift_data : Shift) (rate : float) : result (option float) :=
  if truthy_bool (approved shift_data) then
    if field_is (shift_type shift_data) "manual_payroll" && has_key (manual_amount shift_data)
    then Ok (get (manual_amount shift_data))
    else
      let* ps := subscript (planned_start shift_data) in
      let start_time := get_default (actual_start shift_data) ps in
      let* pe := subscript (planned_end shift_data) in
      let end_time := get_default (actual_end shift_data) pe in
      let* hours := get_shift_duration start_time end_time in
      Ok (Some (PrimFloat.mul hours rate))
  else Ok (Some 0%float).

Definition is_upper (c : ascii) : bool :=
  let n := nat_of_ascii c in (65 <=? n)%nat && (n <=? 90)%nat.

Definition is_lower (c : ascii) : bool :=
  let n := nat_of_ascii c in (97 <=? n)%nat && (n <=? 122)%nat.

Definition to_upper (c : ascii) : ascii :=
  if is_lower c then ascii_of_nat (nat_of_ascii c - 32) else c.

Definition to_lower (c : ascii) : ascii :=
  if is_upper c then ascii_of_nat (nat_of_ascii c + 32) else c.

(** [s.replace('_', ' ')]. *)
Fixpoint replace_underscore (s : string) : string :=
  match s with
  | EmptyString => EmptyString
  | String c r => String (if Ascii.eqb c "_" then " "%char else c) (replace_underscore r)
  end.

(** [s.title()]: a letter that follows a letter is lowered, any other letter
    is raised. *)
Fixpoint title_from (prev_cased : bool) (s : string) : string :=
  match s with
  | EmptyString => EmptyString
  | String c r =>
      let cased := is_upper c || is_lower c in
      String (if prev_cased then to_lower c else to_upper c) (title_from cased r)
  end.

Definition title (s : string) : string := title_from false s.

(** One row of [detailed_shifts]. The cells ["Hours"] and ["Pay"] hold the
    number that the source prints with one and two decimals; [None] in
    [li_hours] is the text ["N/A"], [None] in a time cell is Python's [None]. *)
Record LineItem : Type := mkLineItem {
  li_date : option string;
  li_shift_type : string;
  li_planned_start : option string;
  li_planned_end : option string;
  li_actual_start : option string;
  li_actual_end : option string;
  li_hours : option float;
  li_pay : float;
  li_description : option string
}.

Record Totals : Type := mkTotals {
  total_hours : float;
  total_pay : float;
  detailed_shifts : list LineItem
}.

(** The body of the [for] loop of [calculate_payroll_for_user]. *)
Definition payroll_step (user : string) (rate : float)
    (start_date end_date : calendar_date) (shift : Shift) (acc : Totals)
  : result Totals :=
  let* ds := subscript (date shift) in
  let* shift_date := strptime_Ymd ds in
  let* assigned := assigned_to user shift in
  if assigned && truthy_bool (approved shift)
     && date_leb start_date shift_date && date_leb shift_date end_date
  then
    let* pay := calculate_pay shift rate in
    if field_is (shift_type shift) "manual_payroll" then
      let hours := 0%float in
      let description := get_default (description shift) (Some "Manual Adjustment") in
      match pay with
      | None => Raise TypeError
      | Some p =>
          let item := mkLineItem ds "Manual Entry" (Some "N/A") (Some "N/A")
                        (Some "N/A") (Some "N/A") None p description in
          Ok (mkTotals (PrimFloat.add (total_hours acc) hours)
                       (PrimFloat.add (total_pay acc) p)
                       (detailed_shifts acc ++ [item]))
      end
    else
      let* ps := subscript (planned_start shift) in
      let start_time := get_default (actual_start shift) ps in
      let* pe := subscript (planned_end shift) in
      let end_time := get_default (actual_end shift) pe in
      let* hours := get_shift_duration start_time end_time in
      let* ty := subscript (shift_type shift) in
      match ty, pay with
      | None, _ => Raise AttributeError
      | _, None => Raise TypeError
      | Some ty, Some p =>
          let item := mkLineItem ds (title (replace_underscore ty)) ps pe
                        (get_default (actual_start shift) (Some "N/A"))
                        (get_default (actual_end shift) (Some "N/A"))
                        (Some hours) p (Some "Regular Shift") in
          Ok (mkTotals (PrimFloat.add (total_hours acc) hours)
                       (PrimFloat.add (total_pay acc) p)
                       (detailed_shifts acc ++ [item]))
      end
  else Ok acc.

Fixpoint payroll_loop (user : string) (rate : float)
    (start_date end_date : calendar_date) (shifts : store) (acc : Totals)
  : result Totals :=
  match shifts with
  | [] => Ok acc
  | (_, shift) :: rest =>
      let* acc' := payroll_step user rate start_date end_date shift acc in
      payroll_loop user rate start_date end_date rest acc'
  end.

(** [calculate_payroll_for_user], on the store that [load_shifts] returns. *)
Definition calculate_payroll_for_user (shifts : store) (user : string)
    (rate : float) (start_date_str end_date_str : string) : result Totals :=
  let* start_date := strptime_Ymd_str start_date_str in
  let* end_date := strptime_Ymd_str end_date_str in
  payroll_loop user rate start_date end_date shifts (mkTotals 0%float 0%float []).

(** ** Shift creation: the form of [admin_manage_shifts] *)

(** The [users] dict, and [employees]: the users of role employee, keyed by
    their [username] field. *)
Definition user_store : Type := list (string * User).

Definition employees_of (users : user_store) : list (string * User) :=
  fold_left (fun acc kv =>
               if String.eqb (role (snd kv)) "employee"
               then dict_set acc (username (snd kv)) (snd kv) else acc)
            users [].

(** The set [allowed] of one employee: the primary shift type, and the
    secondary one when it is set and is not the text ['None']. *)
Definition allowed_of (emp : User) : set string :=
  let allowed := set_add string_dec (primary_shift emp) (empty_set string) in
  if truthy_str (secondary_shift emp) && negb (field_is (secondary_shift emp) "None")
  then match secondary_shift emp with
       | Val sec => set_add string_dec sec allowed
       | _ => allowed
       end
  else allowed.

Fixpoint allowed_shift_sets (employees : list (string * User))
    (selected : list string) : result (list (set string)) :=
  match selected with
  | [] => Ok []
  | emp_username :: rest =>
      let* emp := dict_get employees emp_username in
      let* sets := allowed_shift_sets employees rest in
      Ok (allowed_of emp :: sets)
  end.

(** [set.union( *sets )] of a non-empty list of sets. *)
Definition set_union_all (sets : list (set string)) : set string :=
  match sets with
  | [] => empty_set string
  | a :: rest => fold_left (set_union string_dec) rest a
  end.

(** The list offered by the shift-type select box. *)
Definition available_shift_types (employees : list (string * User))
    (selected : list string) : result (list string) :=
  match selected with
  | [] => Ok []
  | _ => let* sets := allowed_shift_sets employees selected in
         Ok (set_union_all sets)
  end.

(** What the administrator enters. *)
Record CreateForm : Type := mkCreateForm {
  shift_date : calendar_date;
  selected_employees : list string;
  shift_type_choice : string;
  planned_start_time : string;
  planned_end_time : string;
  selected_admin : string;
  initial_shift_status : string;
  create_clicked : bool
}.

(** A select box returns one of its options: the one picked, the first one
    when nothing was picked. *)
Definition selectbox (options : list string) (choice : string) : string :=
  if mem choice options then choice else hd "" options.

(** *** The 12-hour downtime check *)

(** The end instant of an existing shift: its date with its planned end,
    moved to the next day when that is at or before its planned start. *)
Definition shift_end_dt (s : Shift) : result datetime :=
  let* ds := subscript (date s) in
  let* shift_end_date := strptime_Ymd ds in
  let end_time := get_default (planned_end s) (Some "00:00") in
  let* et := strptime_HM end_time in
  let end_dt := combine shift_end_date et in
  let* stt := strptime_HM (get_default (planned_start s) (Some "00:00")) in
  Ok (if end_dt <=? combine shift_end_date stt then end_dt + 1440 else end_dt).

(** [emp_shifts]: the shifts of the store the employee is assigned to and
    that have a date. *)
Fixpoint emp_shifts_of (emp_username : string) (shifts : store) : result (list Shift) :=
  match shifts with
  | [] => Ok []
  | (_, s) :: rest =>
      let* a := assigned_to emp_username s in
      let* l := emp_shifts_of emp_username rest in
      Ok (if a && truthy_str (date s) then s :: l else l)
  end.

(** The loop that finds [latest_end_dt]. *)
Fixpoint latest_end_loop (planned_start_dt : datetime) (emp_shifts : list Shift)
    (latest_end_dt : option datetime) : result (option datetime) :=
  match emp_shifts with
  | [] => Ok latest_end_dt
  | s :: rest =>
      let* end_dt := shift_end_dt s in
      let latest' :=
        if end_dt <=? planned_start_dt then
          match latest_end_dt with
          | None => Some end_dt
          | Some l => if l <? end_dt then Some end_dt else latest_end_dt
          end
        else latest_end_dt in
      latest_end_loop planned_start_dt rest latest'
  end.

(** Whether the employee goes to [downtime_violations]. [hours_diff] is the
    elapsed seconds over 3600, compared with 12: the division is correctly
    rounded and 43200 / 3600 is exactly 12, so the comparison is the one of
    the seconds with 12 * 3600. *)
Definition downtime_violation (shifts : store) (planned_start_dt : datetime)
    (emp_username : string) : result bool :=
  let* emp_shifts := emp_shifts_of emp_username shifts in
  let* latest_end_dt := latest_end_loop planned_start_dt emp_shifts None in
  match latest_end_dt with
  | None => Ok false
  | Some l => Ok (60 * (planned_start_dt - l) <? 12 * 3600)
  end.

Fixpoint downtime_violations (shifts : store) (planned_start_dt : datetime)
    (selected : list string) : result (list string) :=
  match selected with
  | [] => Ok []
  | emp_username :: rest =>
      let* v := downtime_violation shifts planned_start_dt emp_username in
      let* vs := downtime_violations shifts planned_start_dt rest in
      Ok (if v then emp_username :: vs else vs)
  end.

(** *** The record and the outcome *)

Definition string_of_nat (n : nat) : string := NilZero.string_of_uint (Nat.to_uint n).

Definition new_shift (new_shift_id : string) (shift_type : string) (f : CreateForm) : Shift :=
  let is_approved := String.eqb (initial_shift_status f) "approved" in
  {| id := Val new_shift_id;
     date := Val (strftime_Ymd (shift_date f));
     shift_type := Val shift_type;
     planned_start := Val (planned_start_time f);
     planned_end := Val (planned_end_time f);
     assigned_employees := Val (selected_employees f);
     assigned_admin := if String.eqb (selected_admin f) "None" then Null
                       else Val (selected_admin f);
     status := Val (initial_shift_status f);
     approved := Val is_approved;
     actual_start := if is_approved then Val (planned_start_time f) else Null;
     actual_end := if is_approved then Val (planned_end_time f) else Null;
     manual_amount := Absent;
     description := Absent |}.

Inductive outcome : Type :=
| NoShiftTypes
| Idle
| NoEmployeeAssigned
| DowntimeRefused (violations : list string)
| Created (new_shift_id : string).

(** One run of the creation form on the stored shifts. The result is the
    outcome shown and the store as it is saved afterwards; an exception ends
    the run before anything is saved. *)
Definition admin_manage_shifts (users : user_store) (shifts : store) (f : CreateForm)
  : result (outcome * store) :=
  let employees := employees_of users in
  let* available := available_shift_types employees (selected_employees f) in
  match available with
  | [] => Ok (NoShiftTypes, shifts)
  | _ =>
      let shift_type := selectbox available (shift_type_choice f) in
      let* _ := dict_get SHIFT_TYPES shift_type in
      let time_format_valid :=
        is_ok (strptime_HM_str (planned_start_time f))
        && is_ok (strptime_HM_str (planned_end_time f)) in
      let* pst := strptime_HM_str (planned_start_time f) in
      let planned_start_dt := combine (shift_date f) pst in
      let* violations := downtime_violations shifts planned_start_dt (selected_employees f) in
      if create_clicked f && time_format_valid then
        match selected_employees f, violations with
        | [], _ => Ok (NoEmployeeAssigned, shifts)
        | _, _ :: _ => Ok (DowntimeRefused violations, shifts)
        | _, [] =>
            let new_shift_id := "shift_" ++ string_of_nat (List.length shifts + 1) in
            Ok (Created new_shift_id,
                dict_set shifts new_shift_id (new_shift new_shift_id shift_type f))
        end
      else Ok (Idle, shifts)
  end.

(** The store on disk after a run. *)
Definition store_after {O : Type} (before : store) (r : result (O * store)) : store :=
  match r with
  | Ok (_, after) => after
  | Raise _ => before
  end.

(** ** Approval: [admin_approve_shifts] *)

Definition field_of_option {A : Type} (o : option A) : field A :=
  match o with Some a => Val a | None => Null end.

Inductive approval : Type :=
| FullApproval
| PartialApproval (actual_start_time actual_end_time : string).

(** [pending_approval_shifts]: status accepted or pending, not approved, not
    a manual payroll entry. *)
Definition awaits_approval (s : Shift) : bool :=
  (field_is (status s) "accepted" || field_is (status s) "pending")
  && negb (truthy_bool (approved s))
  && negb (field_is (shift_type s) "manual_payroll").

(** What the page reads of a shift before it draws the buttons; the result
    is the planned start and end. *)
Definition render_shift (s : Shift) : result (option string * option string) :=
  let* _ := match assigned_employees s with
            | Null => Raise TypeError
            | _ => Ok tt
            end in
  let* _ := subscript (date s) in
  let* ty := subscript (shift_type s) in
  let* _ := match ty with
            | None => Raise AttributeError
            | Some _ => Ok tt
            end in
  let* ps := subscript (planned_start s) in
  let* pe := subscript (planned_end s) in
  Ok (ps, pe).

Definition approve_record (s : Shift) (a_start a_end : option string) : Shift :=
  {| id := id s;
     date := date s;
     shift_type := shift_type s;
     planned_start := planned_start s;
     planned_end := planned_end s;
     assigned_employees := assigned_employees s;
     assigned_admin := assigned_admin s;
     status := Val "approved";
     approved := Val true;
     actual_start := field_of_option a_start;
     actual_end := field_of_option a_end;
     manual_amount := manual_amount s;
     description := description s |}.

Inductive approve_outcome : Type :=
| NoButton
| InvalidActualTimes
| Approved.

(** The loop over [pending_approval_shifts] with the approve button of
    [clicked] pressed. *)
Fixpoint approve_loop (shifts : store) (pending : list (string * Shift))
    (clicked : string) (a : approval) : result (approve_outcome * store) :=
  match pending with
  | [] => Ok (NoButton, shifts)
  | (shift_id, shift) :: rest =>
      let* planned := render_shift shift in
      if String.eqb shift_id clicked then
        match a with
        | FullApproval =>
            Ok (Approved,
                dict_set shifts shift_id (approve_record shift (fst planned) (snd planned)))
        | PartialApproval a_start a_end =>
            if is_ok (strptime_HM_str a_start) && is_ok (strptime_HM_str a_end)
            then Ok (Approved,
                     dict_set shifts shift_id (approve_record shift (Some a_start) (Some a_end)))
            else Ok (InvalidActualTimes, shifts)
        end
      else approve_loop shifts rest clicked a
  end.

(** [admin_approve_shifts], on the store as the page reloads it after it has
    topped up the dummy shifts (a write of its own, see [step]). *)
Definition admin_approve_shifts (shifts : store) (clicked : string) (a : approval)
  : result (approve_outcome * store) :=
  approve_loop shifts (filter (fun kv => awaits_approval (snd kv)) shifts) clicked a.

(** ** Accept and decline: [employee_shifts] *)

Inductive response : Type := Accept | Decline.

Definition response_status (r : response) : string :=
  match r with Accept => "accepted" | Decline => "declined" end.

Definition set_status (s : Shift) (new_status : string) : Shift :=
  {| id := id s;
     date := date s;
     shift_type := shift_type s;
     planned_start := planned_start s;
     planned_end := planned_end s;
     assigned_employees := assigned_employees s;
     assigned_admin := assigned_admin s;
     status := Val new_status;
     approved := approved s;
     actual_start := actual_start s;
     actual_end := actual_end s;
     manual_amount := manual_amount s;
     description := description s |}.

(** [user_shifts]: the entries of the store assigned to the user. *)
Fixpoint user_shifts_of (user : string) (shifts : store) : result (list (string * Shift)) :=
  match shifts with
  | [] => Ok []
  | (k, s) :: rest =>
      let* a := assigned_to user s in
      let* l := user_shifts_of user rest in
      Ok (if a then (k, s) :: l else l)
  end.

Definition is_pending (s : Shift) : bool :=
  field_is (status s) "pending" && negb (field_is (shift_type s) "manual_payroll").

Fixpoint respond_loop (shifts : store) (pending : list (string * Shift))
    (clicked : string) (r : response) : result (bool * store) :=
  match pending with
  | [] => Ok (false, shifts)
  | (shift_id, shift) :: rest =>
      let* _ := render_shift shift in
      if String.eqb shift_id clicked
      then Ok (true, dict_set shifts shift_id (set_status shift (response_status r)))
      else respond_loop shifts rest clicked r
  end.

Definition employee_shifts (shifts : store) (user : string) (clicked : string)
    (r : response) : result (bool * store) :=
  let* user_shifts := user_shifts_of user shifts in
  respond_loop shifts (filter (fun kv => is_pending (snd kv)) user_shifts) clicked r.

(** ** Manual payroll entries: [manual_add_payroll_entry] *)

Record ManualForm : Type := mkManualForm {
  selected_user : string;
  entry_date : calendar_date;
  entry_description : string;
  amount : float;
  payroll_submitted : bool
}.

Definition manual_entry (manual_entry_id admin : string) (f : ManualForm) : Shift :=
  {| id := Val manual_entry_id;
     date := Val (strftime_Ymd (entry_date f));
     shift_type := Val "manual_payroll";
     planned_start := Val "00:00";
     planned_end := Val "00:00";
     assigned_employees := Val [selected_user f];
     assigned_admin := Val admin;
     status := Val "approved";
     approved := Val true;
     actual_start := Val "00:00";
     actual_end := Val "00:00";
     manual_amount := Val (amount f);
     description := Val (entry_description f) |}.

(** The identifier carries the clock and a random number: it is an input. *)
Definition manual_add_payroll_entry (shifts : store) (manual_entry_id admin : string)
    (f : ManualForm) : bool * store :=
  if payroll_submitted f then
    if String.eqb (selected_user f) "" || String.eqb (entry_description f) ""
    then (false, shifts)
    else if PrimFloat.eqb (amount f) 0%float then (false, shifts)
    else (true, dict_set shifts manual_entry_id (manual_entry manual_entry_id admin f))
  else (false, shifts).

(** ** Demo data *)

(** The generators draw dates, employees and minutes at random. Each is
    modelled by the shape of the records it writes, for any draw. *)

(** A record of [add_dummy_shift_data]. *)
Inductive dummy_shift : Shift -> Prop :=
| dummy_shift_intro shift_id d ty def emp adm st :
    In (ty, def) SHIFT_TYPES ->
    st = "pending" \/ st = "accepted" ->
    dummy_shift
      {| id := Val shift_id;
         date := Val (strftime_Ymd d);
         shift_type := Val ty;
         planned_start := Val (st_start def);
         planned_end := Val (st_end def);
         assigned_employees := Val [emp];
         assigned_admin := Val adm;
         status := Val st;
         approved := Val false;
         actual_start := Null;
         actual_end := Null;
         manual_amount := Absent;
         description := Absent |}.

(** A record of [generate_yearly_shifts_for_all_employees]. *)
Inductive yearly_shift : Shift -> Prop :=
| yearly_shift_intro shift_id d ty def emp adm start_dt end_dt :
    In (ty, def) SHIFT_TYPES ->
    yearly_shift
      {| id := Val shift_id;
         date := Val (strftime_Ymd d);
         shift_type := Val ty;
         planned_start := Val (st_start def);
         planned_end := Val (st_end def);
         assigned_employees := Val [emp];
         assigned_admin := field_of_option adm;
         status := Val "approved";
         approved := Val true;
         actual_start := Val (strftime_HM start_dt);
         actual_end := Val (strftime_HM end_dt);
         manual_amount := Absent;
         description := Absent |}.

(** A record of the dummy payroll section of [admin_employee_payroll]. *)
Inductive dummy_payroll : Shift -> Prop :=
| dummy_payroll_intro dummy_id d user adm amt descr :
    dummy_payroll
      {| id := Val dummy_id;
         date := Val (strftime_Ymd d);
         shift_type := Val "manual_payroll";
         planned_start := Val "00:00";
         planned_end := Val "00:00";
         assigned_employees := Val [user];
         assigned_admin := Val adm;
         status := Val "approved";
         approved := Val true;
         actual_start := Val "00:00";
         actual_end := Val "00:00";
         manual_amount := Val amt;
         description := Val descr |}.

(** ** Reachable stores *)

(** One write of the store. [main] generates the yearly shifts when the
    store is empty; every other write is one of the operations above. *)
Inductive step : store -> store -> Prop :=
| step_generate after :
    Forall (fun kv => yearly_shift (snd kv)) after ->
    step [] after
| step_dummy_shift shifts k s :
    dummy_shift s ->
    step shifts (dict_set shifts k s)
| step_dummy_payroll shifts k s :
    dummy_payroll s ->
    dict_mem shifts k = false ->
    step shifts (dict_set shifts k s)
| step_create users shifts f o after :
    admin_manage_shifts users shifts f = Ok (o, after) ->
    step shifts after
| step_approve shifts clicked a o after :
    admin_approve_shifts shifts clicked a = Ok (o, after) ->
    step shifts after
| step_respond shifts user clicked r b after :
    employee_shifts shifts user clicked r = Ok (b, after) ->
    step shifts after
| step_manual shifts manual_entry_id admin f b after :
    manual_add_payroll_entry shifts manual_entry_id admin f = (b, after) ->
    step shifts after.

Inductive reachable : store -> Prop :=
| reachable_empty : reachable []
| reachable_step shifts after :
    reachable shifts -> step shifts after -> reachable after.

(** ** The rest-period rule in the specification's words *)

(** [x] is the end instant of an existing shift of the employee (a shift of
    the store the employee is assigned to and that has a date) and is at or
    before the proposed start. *)
Definition prior_end (shifts : store) (emp : string) (proposed : datetime)
    (x : datetime) : Prop :=
  exists k s, In (k, s) shifts /\ assigned_to emp s = Ok true /\
              truthy_str (date s) = true /\ shift_end_dt s = Ok x /\ x <= proposed.

(** The check can be run: no shift has a [null] list of employees, and the
    date and planned times of the employee's dated shifts can be read. *)
Definition readable_for (emp : string) (shifts : store) : Prop :=
  forall k s, In (k, s) shifts ->
    assigned_employees s <> Null /\
    (assigned_to emp s = Ok true -> truthy_str (date s) = true ->
     is_ok (shift_end_dt s) = true).

(** The rule: there is no prior end, or the latest one is at least 12 hours
    (720 minutes) before the proposed start. *)
Definition rest_satisfied (shifts : store) (emp : string) (proposed : datetime) : Prop :=
  (forall x, ~ prior_end shifts emp proposed x) \/
  (exists l, prior_end shifts emp proposed l /\
             (forall x, prior_end shifts emp proposed x -> x <= l) /\
             720 <= proposed - l).

Definition is_latest (cands : datetime -> Prop) (r : option datetime) : Prop :=
  match r with
  | None => forall x, ~ cands x
  | Some l => cands l /\ forall x, cands x -> x <= l
  end.

(** ** Sample data *)

(** Two of the employees that [initialize_default_users] creates. *)
Definition emp1 : User :=
  {| username := "emp1"; role := "employee"; name := "Employee 1";
     primary_shift := "late"; secondary_shift := Val "weekend_night";
     hourly_rate := 20%float |}.

Definition emp5 : User :=
  {| username := "emp5"; role := "employee"; name := "Employee 5";
     primary_shift := "morning"; secondary_shift := Val "weekend_morning";
     hourly_rate := 20%float |}.

Definition sample_users : user_store := [("emp1", emp1); ("emp5", emp5)].

(** A night shift of emp1 on 2024-03-04, from 22:00 to 06:00 of the next
    day, with a given status. *)
Definition night_shift (st : string) : Shift :=
  {| id := Val "shift_1";
     date := Val "2024-03-04";
     shift_type := Val "night";
     planned_start := Val "22:00";
     planned_end := Val "06:00";
     assigned_employees := Val ["emp1"];
     assigned_admin := Null;
     status := Val st;
     approved := Val false;
     actual_start := Null;
     actual_end := Null;
     manual_amount := Absent;
     description := Absent |}.

Definition march_5 : calendar_date := mkDate 2024 3 5.

(** A creation form for emp1 and emp5 together, type late. *)
Definition joint_form : CreateForm :=
  {| shift_date := march_5;
     selected_employees := ["emp1"; "emp5"];
     shift_type_choice := "late";
     planned_start_time := "14:00";
     planned_end_time := "22:00";
     selected_admin := "None";
     initial_shift_status := "accepted";
     create_clicked := true |}.

(** A creation form for emp1 alone at 14:00 of 2024-03-05. *)
Definition late_form : CreateForm :=
  {| shift_date := march_5;
     selected_employees := ["emp1"];
     shift_type_choice := "late";
     planned_start_time := "14:00";
     planned_end_time := "22:00";
     selected_admin := "None";
     initial_shift_status := "accepted";
     create_clicked := true |}.

(** The guard of the claim: no employee is selected, or a selected employee
    fails the downtime check at the proposed planned start. *)
Definition creation_guard_fails (shifts : store) (f : CreateForm) : Prop :=
  selected_employees f = [] \/
  exists pst emp,
    strptime_HM_str (planned_start_time f) = Ok pst /\
    In emp (selected_employees f) /\
    downtime_violation shifts (combine (shift_date f) pst) emp = Ok true.

(** ** The payroll rule in the specification's words *)

(** The running sum of a list of floats, from 0.0, left to right. *)
Definition sum_floats (l : list float) : float := fold_left PrimFloat.add l 0%float.

Definition shift_date_of (s : Shift) : option calendar_date :=
  match date s with
  | Val ds => match strptime_Ymd_str ds with Ok d => Some d | Raise _ => None end
  | _ => None
  end.

(** A shift is counted: the employee is among the assigned employees, the
    shift is approved, and its date lies in the inclusive range. *)
Definition counted (user : string) (start_date end_date : calendar_date) (s : Shift) : bool :=
  match shift_date_of s with
  | Some d =>
      mem user (match assigned_employees s with Val l => l | _ => [] end)
      && truthy_bool (approved s)
      && date_leb start_date d && date_leb d end_date
  | None => false
  end.

(** The date of the shift can be read and its list of employees is not
    [null]. *)
Definition readable (s : Shift) : Prop :=
  shift_date_of s <> None /\ assigned_employees s <> Null.

(** The actual time when the key is present, the planned time otherwise. *)
Definition worked_start (s : Shift) : option string :=
  match actual_start s with
  | Absent => get (planned_start s)
  | f => get f
  end.

Definition worked_end (s : Shift) : option string :=
  match actual_end s with
  | Absent => get (planned_end s)
  | f => get f
  end.

Definition is_manual (s : Shift) : bool := field_is (shift_type s) "manual_payroll".

(** Hours and pay of a counted shift: 0 hours and the fixed amount for a
    manual entry, the duration of the worked times and the duration times
    the rate for a regular shift. *)
Definition entry (rate : float) (s : Shift) : option (float * float) :=
  if is_manual s then
    match manual_amount s with
    | Val a => Some (0%float, a)
    | _ => None
    end
  else
    match shift_type s with
    | Val _ =>
        if has_key (planned_start s) && has_key (planned_end s) then
          match get_shift_duration (worked_start s) (worked_end s) with
          | Ok h => Some (h, PrimFloat.mul h rate)
          | Raise _ => None
          end
        else None
    | _ => None
    end.

Definition entries (user : string) (rate : float) (start_date end_date : calendar_date)
    (shifts : store) : list (float * float) :=
  flat_map (fun kv =>
              if counted user start_date end_date (snd kv)
              then match entry rate (snd kv) with Some e => [e] | None => [] end
              else [])
           shifts.

(** Every shift can be read and every counted one has hours and pay. *)
Definition payable (user : string) (rate : float) (start_date end_date : calendar_date)
    (shifts : store) : Prop :=
  forall k s, In (k, s) shifts ->
    readable s /\
    (counted user start_date end_date s = true -> entry rate s <> None).

Definition counted_shifts (user : string) (start_date end_date : calendar_date)
    (shifts : store) : list Shift :=
  filter (counted user start_date end_date) (map snd shifts).

(** The line item of a counted shift: the pay of the shift; for a manual
    entry no hours and no time range but the description, for a regular
    shift the hours. *)
Definition item_for (rate : float) (s : Shift) (it : LineItem) : Prop :=
  exists h p,
    entry rate s = Some (h, p) /\ li_pay it = p /\
    (is_manual s = true ->
     li_hours it = None /\ li_planned_start it = Some "N/A" /\
     li_planned_end it = Some "N/A" /\ li_actual_start it = Some "N/A" /\
     li_actual_end it = Some "N/A" /\
     li_description it = get_default (description s) (Some "Manual Adjustment")) /\
    (is_manual s = false -> li_hours it = Some h).

Definition manual_amounts (l : list Shift) : list float :=
  flat_map (fun s => match manual_amount s with Val a => [a] | _ => [] end) l.

(** Every shift can be read and the counted ones are manual entries with an
    amount. *)
Definition manual_only (user : string) (start_date end_date : calendar_date)
    (shifts : store) : Prop :=
  forall k s, In (k, s) shifts ->
    readable s /\
    (counted user start_date end_date s = true ->
     is_manual s = true /\ exists a, manual_amount s = Val a).

(** The line item of a manual entry: the amount as pay, no hours, no time
    range, and the description. *)
Definition manual_item (s : Shift) (it : LineItem) : Prop :=
  manual_amount s = Val (li_pay it) /\
  li_hours it = None /\ li_planned_start it = Some "N/A" /\
  li_planned_end it = Some "N/A" /\ li_actual_start it = Some "N/A" /\
  li_actual_end it = Some "N/A" /\
  li_description it = get_default (description s) (Some "Manual Adjustment").

(** A night shift of emp1 on 2024-03-04, approved with its planned times. *)
Definition approved_night : Shift :=
  {| id := Val "shift_2";
     date := Val "2024-03-04";
     shift_type := Val "night";
     planned_start := Val "22:00";
     planned_end := Val "06:00";
     assigned_employees := Val ["emp1"];
     assigned_admin := Null;
     status := Val "approved";
     approved := Val true;
     actual_start := Val "22:00";
     actual_end := Val "06:00";
     manual_amount := Absent;
     description := Absent |}.

(** A bonus of 150.0 for emp1 on 2024-03-10. *)
Definition bonus : Shift :=
  {| id := Val "manual_payroll_20240310120000_1234";
     date := Val "2024-03-10";
     shift_type := Val "manual_payroll";
     planned_start := Val "00:00";
     planned_end := Val "00:00";
     assigned_employees := Val ["emp1"];
     assigned_admin := Val "admin1";
     status := Val "approved";
     approved := Val true;
     actual_start := Val "00:00";
     actual_end := Val "00:00";
     manual_amount := Val 150%float;
     description := Val "Bonus" |}.

Definition march : calendar_date * calendar_date := (mkDate 2024 3 1, mkDate 2024 3 31).

(** ** The invariant of approved records *)

Definition has_actual_times (s : Shift) : Prop :=
  exists a b, actual_start s = Val a /\ actual_end s = Val b.

Definition has_amount (s : Shift) : Prop :=
  is_manual s = true /\ exists amt, manual_amount s = Val amt.

(** The invariant of the data model: an approved record has actual start
    and end, or is a manual entry with an amount. *)
Definition approved_ok (s : Shift) : Prop :=
  truthy_bool (approved s) = true -> has_actual_times s \/ has_amount s.

(** What the operations keep: the planned times are stored, and an approved
    record has its actual times. *)
Definition well_kept (s : Shift) : Prop :=
  (exists ps pe, planned_start s = Val ps /\ planned_end s = Val pe) /\
  (truthy_bool (approved s) = true -> has_actual_times s).

Definition store_inv (shifts : store) : Prop :=
  forall k s, In (k, s) shifts -> well_kept s.

(** All the fields but the status are the same. *)
Definition same_but_status (s s' : Shift) : Prop :=
  id s' = id s /\ date s' = date s /\ shift_type s' = shift_type s /\
  planned_start s' = planned_start s /\ planned_end s' = planned_end s /\
  assigned_employees s' = assigned_employees s /\
  assigned_admin s' = assigned_admin s /\ approved s' = approved s /\
  actual_start s' = actual_start s /\ actual_end s' = actual_end s /\
  manual_amount s' = manual_amount s /\ description s' = description s.

(** A creation form for emp1 with initial status approved. *)
Definition approved_form : CreateForm :=
  {| shift_date := march_5;
     selected_employees := ["emp1"];
     shift_type_choice := "late";
     planned_start_time := "14:00";
     planned_end_time := "22:00";
     selected_admin := "admin1";
     initial_shift_status := "approved";
     create_clicked := true |}.

(** An approved regular record whose actual times are [null]. *)
Definition approved_without_times : Shift :=
  {| id := Val "shift_3";
     date := Val "2024-03-04";
     shift_type := Val "night";
     planned_start := Val "22:00";
     planned_end := Val "06:00";
     assigned_employees := Val ["emp1"];
     assigned_admin := Null;
     status := Val "approved";
     approved := Val true;
     actual_start := Null;
     actual_end := Null;
     manual_amount := Absent;
     description := Absent |}.

(** ** The proposed planned end of the creation form *)

(** The time of day of a [datetime] given in minutes. *)
Definition time_of_minutes (m : Z) : time_of_day :=
  mkTime ((m mod 1440) / 60) (m mod 60).

(** The text the form proposes as planned end: the entered start plus the
    length of the shift type, whose end is moved to the next day when it is
    at or before its start; the end of the shift type when a time cannot be
    read. *)
Definition default_planned_end (default_start_time_str default_end_time_str
    planned_start_time : string) : string :=
  match
    (let* default_start := strptime_HM_str default_start_time_str in
     let* default_end := strptime_HM_str default_end_time_str in
     let default_end_m :=
       if minutes_of default_end <=? minutes_of default_start
       then minutes_of default_end + 1440 else minutes_of default_end in
     let default_duration := default_end_m - minutes_of default_start in
     let* user_start := strptime_HM_str planned_start_time in
     let user_end := minutes_of user_start + default_duration in
     Ok (strftime_HM (time_of_minutes user_end)))
  with
  | Ok s => s
  | Raise _ => default_end_time_str
  end.

(** The length of a shift type in minutes, as the form computes it. *)
Definition type_minutes (ds de : time_of_day) : Z :=
  (if minutes_of de <=? minutes_of ds then minutes_of de + 1440 else minutes_of de)
  - minutes_of ds.

(** A late shift of emp1 on 2024-03-05, from 14:00 to 22:00. *)
Definition late_shift : Shift :=
  {| id := Val "shift_1";
     date := Val "2024-03-05";
     shift_type := Val "late";
     planned_start := Val "14:00";
     planned_end := Val "22:00";
     assigned_employees := Val ["emp1"];
     assigned_admin := Null;
     status := Val "accepted";
     approved := Val false;
     actual_start := Null;
     actual_end := Null;
     manual_amount := Absent;
     description := Absent |}.

(** A manual payroll form: a bonus of 150.0 for emp1 on 2024-03-04. *)
Definition bonus_form : ManualForm :=
  {| selected_user := "emp1";
     entry_date := mkDate 2024 3 4;
     entry_description := "Bonus";
     amount := 150%float;
     payroll_submitted := true |}.

(** A record of emp5 whose date key is missing. *)
Definition undated_shift : Shift :=
  {| id := Val "shift_9";
     date := Absent;
     shift_type := Val "morning";
     planned_start := Val "06:00";
     planned_end := Val "14:00";
     assigned_employees := Val ["emp5"];
     assigned_admin := Null;
     status := Val "pending";
     approved := Val false;
     actual_start := Null;
     actual_end := Null;
     manual_amount := Absent;
     description := Absent |}.


(** Every stored key of the form shift_N has N at most the number of
    stored records. *)
Definition shift_keys_bounded (shifts : store) : Prop :=
  forall n, dict_mem shifts ("shift_" ++ string_of_nat n) = true ->
            (n <= List.length shifts)%nat.

(** ** User accounts *)

(** A stored user: the fields of [User] with the password hash and the
    e-mail address. [hash_password] is SHA-256; it is a parameter [hash] of
    the functions below. *)
Record Account : Type := mkAccount {
  account_user : User;
  password : string;
  email : string
}.

Definition account_store : Type := list (string * Account).

Definition account_role (a : Account) : string := role (account_user a).

(** [authenticate]: the stored account when the user name is known and the
    hash of the password is the stored one, [None] otherwise. *)
Definition authenticate (hash : string -> string) (users : account_store)
    (user pass : string) : option Account :=
  match dict_get users user with
  | Ok a => if String.eqb (password a) (hash pass) then Some a else None
  | Raise _ => None
  end.

(** [list(SHIFT_TYPES.keys())] and [SHIFT_COMPATIBILITY.get(k, [])]. *)
Definition shift_type_keys : list string := map fst SHIFT_TYPES.

Definition compatible_with (primary : string) : list string :=
  match dict_get SHIFT_COMPATIBILITY primary with
  | Ok l => l
  | Raise _ => []
  end.

(** A select box with a preselected option: the option picked when it is
    among the options, the preselected one otherwise. *)
Definition selectbox_default (options : list string) (default choice : string) : string :=
  if mem choice options then choice else default.

(** The secondary shift select box: ['None'] and the types compatible with
    the primary one, or the text ['None'] when there is none. *)
Definition secondary_selectbox (primary default choice : string) : string :=
  match compatible_with primary with
  | [] => "None"
  | options => selectbox_default ("None" :: options) default choice
  end.

(** The stored secondary shift: [null] for the text ['None']. *)
Definition secondary_field (secondary : string) : field string :=
  if String.eqb secondary "None" then Null else Val secondary.

(** The forms "Create New Employee Account" and "Add New User". *)
Record UserForm : Type := mkUserForm {
  new_username : string;
  new_password : string;
  new_name : string;
  new_email : string;
  primary_choice : string;
  secondary_choice : string;
  new_hourly_rate : float;
  role_choice : string;
  submitted : bool
}.

Definition new_account (hash : string -> string) (new_role : string) (f : UserForm)
  : Account :=
  let new_primary_shift := selectbox shift_type_keys (primary_choice f) in
  let new_secondary_shift :=
    secondary_selectbox new_primary_shift "None" (secondary_choice f) in
  {| account_user :=
       {| username := new_username f;
          role := new_role;
          name := new_name f;
          primary_shift := new_primary_shift;
          secondary_shift := secondary_field new_secondary_shift;
          hourly_rate := new_hourly_rate f |};
     password := hash (new_password f);
     email := new_email f |}.

Definition add_account (hash : string -> string) (users : account_store)
    (new_role : string) (f : UserForm) : bool * account_store :=
  if submitted f then
    if String.eqb (new_username f) "" || String.eqb (new_password f) ""
       || String.eqb (new_name f) "" || String.eqb (new_email f) ""
    then (false, users)
    else if dict_mem users (new_username f) then (false, users)
    else (true, dict_set users (new_username f) (new_account hash new_role f))
  else (false, users).

(** [admin_create_employee]: the role is employee. *)
Definition admin_create_employee (hash : string -> string) (users : account_store)
    (f : UserForm) : bool * account_store :=
  add_account hash users "employee" f.

(** The "Add New User" form of [head_admin_manage_users]: the role is one
    of the two options admin and employee, so the branch that stores shift
    types and rate, taken for every role but head_admin, is always taken. *)
Definition head_admin_add_user (hash : string -> string) (users : account_store)
    (f : UserForm) : bool * account_store :=
  add_account hash users (selectbox ["admin"; "employee"] (role_choice f)) f.

(** [[u for u in users if users[u]['role'] != 'head_admin']]. *)
Definition editable_users (users : account_store) : list string :=
  filter (fun u => match dict_get users u with
                   | Ok a => negb (String.eqb (account_role a) "head_admin")
                   | Raise _ => false
                   end)
         (map fst users).

(** [del d[k]]. *)
Definition dict_del {V : Type} (d : list (string * V)) (k : string) : list (string * V) :=
  filter (fun kv => negb (String.eqb (fst kv) k)) d.

(** The "Delete User" part of [head_admin_manage_users]. *)
Definition head_admin_delete_user (users : account_store) (delete_choice : string)
    (confirmed : bool) : result (bool * account_store) :=
  let delete_username := selectbox_default ("" :: editable_users users) "" delete_choice in
  if String.eqb delete_username "" then Ok (false, users)
  else
    let* _ := dict_get users delete_username in
    if confirmed then Ok (true, dict_del users delete_username) else Ok (false, users).

(** The "Update User" form of [head_admin_manage_users]. A choice that is
    not among the options of its select box stands for a box left as it was
    preselected. *)
Record UpdateForm : Type := mkUpdateForm {
  update_choice : string;
  updated_name : string;
  updated_email : string;
  updated_role_choice : string;
  updated_primary_choice : string;
  updated_secondary_choice : string;
  updated_hourly_rate : float;
  update_submitted : bool
}.

(** [l.index(x)]: [ValueError] when [x] is not in the list. *)
Definition index_check (l : list string) (x : string) : result unit :=
  if mem x l then Ok tt else Raise ValueError.

Definition head_admin_update_user (users : account_store) (f : UpdateForm)
  : result (bool * account_store) :=
  let update_username :=
    selectbox_default ("" :: editable_users users) "" (update_choice f) in
  if String.eqb update_username "" then Ok (false, users)
  else
    let* user_to_update := dict_get users update_username in
    let u := account_user user_to_update in
    let* _ := index_check ["admin"; "employee"] (role u) in
    let updated_role :=
      selectbox_default ["admin"; "employee"] (role u) (updated_role_choice f) in
    let* _ := index_check shift_type_keys (primary_shift u) in
    let updated_primary_shift :=
      selectbox_default shift_type_keys (primary_shift u) (updated_primary_choice f) in
    let current_secondary :=
      match secondary_shift u with
      | Val c => if mem c (compatible_with updated_primary_shift) then c else "None"
      | _ => "None"
      end in
    let updated_secondary_shift :=
      secondary_selectbox updated_primary_shift current_secondary
        (updated_secondary_choice f) in
    if update_submitted f then
      Ok (true,
          dict_set users update_username
            {| account_user :=
                 {| username := username u;
                    role := updated_role;
                    name := updated_name f;
                    primary_shift := updated_primary_shift;
                    secondary_shift := secondary_field updated_secondary_shift;
                    hourly_rate := updated_hourly_rate f |};
               password := password user_to_update;
               email := updated_email f |})
    else Ok (false, users).

(** [initialize_default_users]: on an empty user file the head
    administrator, five admins and twenty-five employees. Every catalog
    type has an entry in [SHIFT_COMPATIBILITY], so the subscripts of the
    source do not fail. *)
Definition nth_key (i : nat) : string :=
  nth (i mod List.length shift_type_keys) shift_type_keys "".

Definition default_account (hash : string -> string) (user_name role_ full_name mail pass : string)
    (primary secondary : string) (rate : float) : Account :=
  {| account_user :=
       {| username := user_name; role := role_; name := full_name;
          primary_shift := primary; secondary_shift := Val secondary;
          hourly_rate := rate |};
     password := hash pass;
     email := mail |}.

Definition default_admin (hash : string -> string) (i : nat) : string * Account :=
  let n := string_of_nat i in
  ("admin" ++ n,
   default_account hash ("admin" ++ n) "admin" ("Admin " ++ n)
     ("admin" ++ n ++ "@company.com") "admin123"
     (nth_key i) (hd "" (compatible_with (nth_key i))) 25%float).

Definition default_employee (hash : string -> string) (i : nat) : string * Account :=
  let n := string_of_nat i in
  ("emp" ++ n,
   default_account hash ("emp" ++ n) "employee" ("Employee " ++ n)
     ("emp" ++ n ++ "@company.com") "emp123"
     (nth_key i)
     (match compatible_with (nth_key i) with [] => "morning" | c :: _ => c end)
     20%float).

Definition initialize_default_users (hash : string -> string) (users : account_store)
  : account_store :=
  match users with
  | [] =>
      let head :=
        ("head_admin",
         default_account hash "head_admin" "head_admin" "Head Administrator"
           "head@company.com" "admin123" "morning" "weekend_morning" 30%float) in
      let with_admins :=
        fold_left (fun us i => dict_set us (fst (default_admin hash i))
                                 (snd (default_admin hash i)))
                  (seq 1 5) [head] in
      fold_left (fun us i => dict_set us (fst (default_employee hash i))
                               (snd (default_employee hash i)))
                (seq 1 25) with_admins
  | _ => users
  end.

(** *** What the user forms keep *)

(** The primary type is a catalog type and the secondary type is [null] or
    compatible with the primary one. *)
Definition compatible_types (u : User) : bool :=
  mem (primary_shift u) shift_type_keys
  && match secondary_shift u with
     | Val c => mem c (compatible_with (primary_shift u))
     | Null => true
     | Absent => false
     end.

(** An account under key [k]: its username is the key, its role is one of
    the three roles, it is the head administrator exactly under the key
    head_admin, and its shift types are compatible. *)
Definition account_ok (k : string) (a : Account) : bool :=
  String.eqb (username (account_user a)) k
  && mem (account_role a) ["head_admin"; "admin"; "employee"]
  && Bool.eqb (String.eqb (account_role a) "head_admin") (String.eqb k "head_admin")
  && compatible_types (account_user a).

Definition accounts_inv (users : account_store) : Prop :=
  dict_mem users "head_admin" = true /\
  forall k a, In (k, a) users -> account_ok k a = true.

(** One write of the user file by a form. *)
Inductive account_step (hash : string -> string) : account_store -> account_store -> Prop :=
| step_create_employee users f b after :
    admin_create_employee hash users f = (b, after) ->
    account_step hash users after
| step_add_user users f b after :
    head_admin_add_user hash users f = (b, after) ->
    account_step hash users after
| step_update_user users f b after :
    head_admin_update_user users f = Ok (b, after) ->
    account_step hash users after
| step_delete_user users delete_choice confirmed b after :
    head_admin_delete_user users delete_choice confirmed = Ok (b, after) ->
    account_step hash users after.

(** The user files that can arise from the default users. *)
Inductive reachable_accounts (hash : string -> string) : account_store -> Prop :=
| reachable_default :
    reachable_accounts hash (initialize_default_users hash [])
| reachable_account_step users after :
    reachable_accounts hash users -> account_step hash users after ->
    reachable_accounts hash after.

(** A form for a new employee carol. *)
Definition carol_form : UserForm :=
  {| new_username := "carol";
     new_password := "s3cret";
     new_name := "Carol";
     new_email := "carol@company.com";
     primary_choice := "night";
     secondary_choice := "weekend_night";
     new_hourly_rate := 21%float;
     role_choice := "employee";
     submitted := true |}.

(** A stand-in for the hash function in the examples. *)
Definition sample_hash (p : string) : string := "hash(" ++ p ++ ")".

(** * Properties *)

(** ** Parsing *)

Lemma digit_of_range (c : ascii) (x : Z) :
  digit_of c = Some x -> 0 <= x <= 9.
Proof.
  unfold digit_of.
  destruct (_ && _) eqn:E; [|discriminate].
  intros [= <-].
  apply andb_true_iff in E as [E1 E2].
  apply Z.leb_le in E1, E2. lia.
Qed.

Lemma parse_H_range (s r : string) (h : Z) :
  parse_H s = Some (h, r) -> 0 <= h <= 23.
Proof.
  unfold parse_H.
  destruct s as [|a s]; [discriminate|].
  destruct (digit_of a) as [x|] eqn:Ea; [|discriminate].
  apply digit_of_range in Ea.
  destruct s as [|b s]; [intros H; assert (h = x) by congruence; lia|].
  destruct (digit_of b) as [y|] eqn:Eb.
  - apply digit_of_range in Eb.
    destruct (10 * x + y <=? 23) eqn:E; intros H.
    + assert (h = 10 * x + y) by congruence. apply Z.leb_le in E. lia.
    + assert (h = x) by congruence. lia.
  - intros H; assert (h = x) by congruence; lia.
Qed.

Lemma parse_M_range (s r : string) (m : Z) :
  parse_M s = Some (m, r) -> 0 <= m <= 59.
Proof.
  unfold parse_M.
  destruct s as [|a s]; [discriminate|].
  destruct (digit_of a) as [x|] eqn:Ea; [|discriminate].
  apply digit_of_range in Ea.
  destruct s as [|b s]; [intros H; assert (m = x) by congruence; lia|].
  destruct (digit_of b) as [y|] eqn:Eb.
  - apply digit_of_range in Eb.
    destruct (x <=? 5) eqn:E; intros H.
    + assert (m = 10 * x + y) by congruence. apply Z.leb_le in E. lia.
    + assert (m = x) by congruence. lia.
  - intros H; assert (m = x) by congruence; lia.
Qed.

Lemma strptime_HM_range (s : string) (t : time_of_day) :
  strptime_HM_str s = Ok t ->
  0 <= hour t <= 23 /\ 0 <= minute t <= 59.
Proof.
  unfold strptime_HM_str.
  destruct (parse_H s) as [[h r]|] eqn:EH; [|discriminate].
  destruct r as [|c r]; [discriminate|].
  destruct (Ascii.eqb c ":") eqn:Ec.
  - apply Ascii.eqb_eq in Ec; subst c.
    destruct (parse_M r) as [[m r']|] eqn:EM; [|discriminate].
    destruct r'; [|discriminate].
    intros [= <-]; cbn.
    split; [eapply parse_H_range|eapply parse_M_range]; eassumption.
  - destruct c as [[] [] [] [] [] [] [] []]; try discriminate.
Qed.

Lemma minutes_of_range (s : string) (t : time_of_day) :
  strptime_HM_str s = Ok t -> 0 <= minutes_of t < 1440.
Proof.
  intros H. apply strptime_HM_range in H. unfold minutes_of. lia.
Qed.

Lemma minutes_of_inj (s e : string) (ts te : time_of_day) :
  strptime_HM_str s = Ok ts -> strptime_HM_str e = Ok te ->
  minutes_of ts = minutes_of te -> ts = te.
Proof.
  intros Hs He Hm.
  apply strptime_HM_range in Hs, He.
  destruct ts as [h1 m1], te as [h2 m2]; unfold minutes_of in Hm; cbn [hour minute] in *.
  f_equal; lia.
Qed.

Lemma well_formed_parses (s : string) :
  well_formed_HHMM s = true ->
  exists t, strptime_HM_str s = Ok t /\ strftime_HM t = s.
Proof.
  unfold well_formed_HHMM.
  destruct (strptime_HM_str s) as [t|]; [|discriminate].
  intros H. apply String.eqb_eq in H. eauto.
Qed.

(** ** Durations *)

Lemma duration_seconds_range (s e : string) (ts te : time_of_day) :
  strptime_HM_str s = Ok ts -> strptime_HM_str e = Ok te ->
  exists d, duration_seconds ts te = 60 * d /\ 0 <= d < 1440.
Proof.
  intros Hs He.
  apply minutes_of_range in Hs, He.
  unfold duration_seconds.
  destruct (minutes_of te <? minutes_of ts) eqn:E;
    [apply Z.ltb_lt in E|apply Z.ltb_ge in E]; eexists; split; try reflexivity; lia.
Qed.

Lemma in_minutes_of_day (d : Z) :
  0 <= d < 1440 -> In d (map Z.of_nat (seq 0 1440)).
Proof.
  intros H. apply in_map_iff. exists (Z.to_nat d). split; [lia|].
  apply in_seq. lia.
Qed.

Lemma hours_nonneg (d : Z) :
  0 <= d < 1440 -> PrimFloat.leb 0%float (hours_of_seconds (60 * d)) = true.
Proof.
  intros H.
  assert (A : forallb (fun d => PrimFloat.leb 0%float (hours_of_seconds (60 * d)))
                (map Z.of_nat (seq 0 1440)) = true) by (vm_compute; reflexivity).
  rewrite forallb_forall in A. apply A, in_minutes_of_day, H.
Qed.

Lemma quarter_hours_symmetric (d : Z) :
  0 < d < 1440 -> d mod 15 = 0 ->
  PrimFloat.eqb (hours_of_seconds (60 * d))
    (PrimFloat.sub 24%float (hours_of_seconds (60 * (1440 - d)))) = true.
Proof.
  intros H Hq.
  assert (A : forallb (fun d => implb ((0 <? d) && (d mod 15 =? 0))
                  (PrimFloat.eqb (hours_of_seconds (60 * d))
                     (PrimFloat.sub 24%float (hours_of_seconds (60 * (1440 - d))))))
                (map Z.of_nat (seq 0 1440)) = true) by (vm_compute; reflexivity).
  rewrite forallb_forall in A.
  specialize (A d (in_minutes_of_day d ltac:(lia))). cbv beta in A.
  replace (0 <? d) with true in A by (symmetry; apply Z.ltb_lt; lia).
  replace (d mod 15 =? 0) with true in A by (symmetry; apply Z.eqb_eq; exact Hq).
  exact A.
Qed.

Lemma get_shift_duration_eq (s e : string) (ts te : time_of_day) :
  strptime_HM_str s = Ok ts -> strptime_HM_str e = Ok te ->
  get_shift_duration (Some s) (Some e) = Ok (hours_of_seconds (duration_seconds ts te)).
Proof.
  intros Hs He. unfold get_shift_duration; cbn. rewrite Hs; cbn. rewrite He. reflexivity.
Qed.

Lemma duration_seconds_wrap (s e : string) (ts te : time_of_day) :
  strptime_HM_str s = Ok ts -> strptime_HM_str e = Ok te ->
  minutes_of ts <> minutes_of te ->
  exists d, 0 < d < 1440 /\
    duration_seconds ts te = 60 * d /\
    duration_seconds te ts = 60 * (1440 - d) /\
    d mod 15 = (minutes_of te - minutes_of ts) mod 15.
Proof.
  intros Hs He Hne.
  apply minutes_of_range in Hs, He.
  unfold duration_seconds.
  destruct (minutes_of te <? minutes_of ts) eqn:E1;
    destruct (minutes_of ts <? minutes_of te) eqn:E2;
    try apply Z.ltb_lt in E1; try apply Z.ltb_ge in E1;
    try apply Z.ltb_lt in E2; try apply Z.ltb_ge in E2; try lia.
  - exists (minutes_of te + 1440 - minutes_of ts).
    repeat split; try lia.
    replace (minutes_of te + 1440 - minutes_of ts)
      with (minutes_of te - minutes_of ts + 96 * 15) by lia.
    apply Z.mod_add. lia.
  - exists (minutes_of te - minutes_of ts). repeat split; lia.
Qed.

(** C3, the code at the failing input. For equal start and end the code
    returns 0.0 hours, not the 24.0 hours of the claim: [get_shift_duration]
    compares [end < start], where the downtime check ([shift_end_dt]) moves
    an end that is at or before the start to the next day. *)
Lemma equal_times_give_zero_hours :
  get_shift_duration (Some "08:00") (Some "08:00") = Ok 0%float /\
  get_shift_duration (Some "08:00") (Some "08:00") <> Ok 24%float.
Proof.
  split; [vm_compute; reflexivity|].
  intros H.
  assert (E : match get_shift_duration (Some "08:00") (Some "08:00") with
              | Ok h => PrimFloat.eqb h 24%float
              | Raise _ => false
              end = true) by (rewrite H; vm_compute; reflexivity).
  vm_compute in E. discriminate E.
Qed.

(** What the code does: [get_shift_duration] parses both arguments as times
    of day and adds 24 hours to the end exactly when the end is strictly
    before the start; when the end is at or after the start nothing is
    added, so equal inputs give 0.0 hours. *)
Theorem midnight_rule_is_strict (s e : string) (ts te : time_of_day) :
  strptime_HM_str s = Ok ts -> strptime_HM_str e = Ok te ->
  (minutes_of te < minutes_of ts ->
   get_shift_duration (Some s) (Some e)
   = Ok (hours_of_seconds (60 * (minutes_of te + 1440 - minutes_of ts)))) /\
  (minutes_of ts <= minutes_of te ->
   get_shift_duration (Some s) (Some e)
   = Ok (hours_of_seconds (60 * (minutes_of te - minutes_of ts)))) /\
  (minutes_of te = minutes_of ts ->
   get_shift_duration (Some s) (Some e) = Ok 0%float).
Proof.
  intros Hs He.
  rewrite (get_shift_duration_eq s e ts te Hs He). unfold duration_seconds.
  repeat split; intros H.
  - apply Z.ltb_lt in H. rewrite H. reflexivity.
  - apply Z.ltb_ge in H. rewrite H. reflexivity.
  - rewrite H, Z.ltb_irrefl, Z.sub_diag. vm_compute. reflexivity.
Qed.

Lemma midnight_rule_is_strict_witness :
  strptime_HM_str "22:00" = Ok (mkTime 22 0) /\
  strptime_HM_str "06:00" = Ok (mkTime 6 0) /\
  get_shift_duration (Some "22:00") (Some "06:00") = Ok 8%float /\
  get_shift_duration (Some "06:00") (Some "06:00") = Ok 0%float.
Proof.
  split; [reflexivity|]. split; [reflexivity|]. split.
  - destruct (midnight_rule_is_strict "22:00" "06:00" (mkTime 22 0) (mkTime 6 0)
                eq_refl eq_refl) as [H _].
    rewrite H; [vm_compute; reflexivity|vm_compute; reflexivity].
  - destruct (midnight_rule_is_strict "06:00" "06:00" (mkTime 6 0) (mkTime 6 0)
                eq_refl eq_refl) as [_ [_ H]].
    apply H. reflexivity.
Defined.

(** C9, counterexample. One minute after midnight: the two float results are
    1/60 and 1439/60, each correctly rounded, and 24 minus the second is not
    the first. *)
Lemma wrap_symmetry_fails_in_floats :
  exists h h',
    well_formed_HHMM "00:00" = true /\ well_formed_HHMM "00:01" = true /\
    get_shift_duration (Some "00:00") (Some "00:01") = Ok h /\
    get_shift_duration (Some "00:01") (Some "00:00") = Ok h' /\
    PrimFloat.eqb h (PrimFloat.sub 24%float h') = false.
Proof.
  exists (hours_of_seconds 60), (hours_of_seconds 86340).
  repeat split; vm_compute; reflexivity.
Qed.

(** C9, amended. For all well-formed HH:MM pairs the duration is a float
    that is at least 0; whenever the two strings differ the elapsed seconds
    of the two orders add up to 24 hours exactly, and the float results
    satisfy [h(s,e) == 24 - h(e,s)] whenever the two times are a multiple of
    a quarter of an hour apart. From 22:00 to 06:00 the duration is 8.0. *)
Theorem duration_nonneg_and_wrap (s e : string) :
  well_formed_HHMM s = true -> well_formed_HHMM e = true ->
  exists ts te h h',
    strptime_HM_str s = Ok ts /\ strptime_HM_str e = Ok te /\
    get_shift_duration (Some s) (Some e) = Ok h /\
    get_shift_duration (Some e) (Some s) = Ok h' /\
    PrimFloat.leb 0%float h = true /\
    (s <> e ->
     duration_seconds ts te = 86400 - duration_seconds te ts /\
     ((minutes_of te - minutes_of ts) mod 15 = 0 ->
      PrimFloat.eqb h (PrimFloat.sub 24%float h') = true)) /\
    get_shift_duration (Some "22:00") (Some "06:00") = Ok 8%float.
Proof.
  intros Ws We.
  destruct (well_formed_parses s Ws) as [ts [Hs Fs]].
  destruct (well_formed_parses e We) as [te [He Fe]].
  exists ts, te, (hours_of_seconds (duration_seconds ts te)),
    (hours_of_seconds (duration_seconds te ts)).
  split; [exact Hs|]. split; [exact He|].
  split; [apply get_shift_duration_eq; assumption|].
  split; [apply get_shift_duration_eq; assumption|].
  split.
  - destruct (duration_seconds_range s e ts te Hs He) as [d [-> Hd]].
    apply hours_nonneg, Hd.
  - split; [|vm_compute; reflexivity].
    intros Hne.
    assert (Hm : minutes_of ts <> minutes_of te).
    { intros Hm. apply Hne. rewrite <- Fs, <- Fe.
      f_equal. eapply minutes_of_inj; eassumption. }
    destruct (duration_seconds_wrap s e ts te Hs He Hm) as [d [Hd [E1 [E2 E3]]]].
    rewrite E1, E2. split; [lia|].
    intros Hq. apply quarter_hours_symmetric; [exact Hd|congruence].
Qed.

Lemma duration_nonneg_and_wrap_witness :
  well_formed_HHMM "14:00" = true /\ well_formed_HHMM "22:00" = true /\
  exists ts te h h',
    strptime_HM_str "14:00" = Ok ts /\ strptime_HM_str "22:00" = Ok te /\
    get_shift_duration (Some "14:00") (Some "22:00") = Ok h /\
    get_shift_duration (Some "22:00") (Some "14:00") = Ok h' /\
    PrimFloat.leb 0%float h = true /\
    ("14:00" <> "22:00" ->
     duration_seconds ts te = 86400 - duration_seconds te ts /\
     ((minutes_of te - minutes_of ts) mod 15 = 0 ->
      PrimFloat.eqb h (PrimFloat.sub 24%float h') = true)) /\
    get_shift_duration (Some "22:00") (Some "06:00") = Ok 8%float.
Proof.
  split; [reflexivity|]. split; [reflexivity|].
  apply (duration_nonneg_and_wrap "14:00" "22:00"); reflexivity.
Defined.

(** ** The downtime check *)

Lemma assigned_to_ok (emp : string) (s : Shift) :
  assigned_employees s <> Null -> exists b, assigned_to emp s = Ok b.
Proof.
  unfold assigned_to. destruct (assigned_employees s); eauto. congruence.
Qed.

Lemma emp_shifts_of_spec (emp : string) (shifts : store) :
  (forall k s, In (k, s) shifts -> assigned_employees s <> Null) ->
  exists es, emp_shifts_of emp shifts = Ok es /\
    forall s, In s es <->
      exists k, In (k, s) shifts /\ assigned_to emp s = Ok true /\
                truthy_str (date s) = true.
Proof.
  induction shifts as [|[k s] rest IH]; intros Hn.
  - exists []. split; [reflexivity|]. intros s; split; [intros []|intros [k [[] _]]].
  - destruct IH as [es [E Hes]].
    { intros k' s' Hin. eapply Hn. right. exact Hin. }
    destruct (assigned_to_ok emp s (Hn k s (or_introl eq_refl))) as [b Hb].
    cbn [emp_shifts_of]. rewrite Hb; cbn [bind]. rewrite E; cbn [bind].
    eexists. split; [reflexivity|].
    intros s'. destruct (b && truthy_str (date s)) eqn:Eb.
    + apply andb_true_iff in Eb as [-> Ed]. split.
      * intros [<-|Hin]; [exists k; auto with datatypes|].
        apply Hes in Hin as [k' [H1 H2]]. exists k'. auto with datatypes.
      * intros [k' [[[= <- <-]|Hin] H2]]; [left; reflexivity|].
        right. apply Hes. eauto.
    + rewrite Hes. split.
      * intros [k' [H1 H2]]. exists k'. auto with datatypes.
      * intros [k' [[[= <- <-]|Hin] [H2 H3]]]; [|eauto].
        rewrite H2 in Hb. injection Hb as <-. rewrite H3 in Eb. discriminate.
Qed.

Lemma is_latest_ext (C C' : datetime -> Prop) (r : option datetime) :
  (forall x, C x <-> C' x) -> is_latest C r -> is_latest C' r.
Proof.
  intros H. destruct r as [l|]; cbn.
  - intros [H1 H2]. split; [apply H, H1|]. intros x Hx. apply H2, H, Hx.
  - intros H1 x Hx. apply (H1 x), H, Hx.
Qed.

Lemma latest_end_loop_spec (proposed : datetime) (es : list Shift) :
  forall (acc : option datetime) (C0 : datetime -> Prop),
    is_latest C0 acc ->
    (forall s, In s es -> is_ok (shift_end_dt s) = true) ->
    exists r, latest_end_loop proposed es acc = Ok r /\
      is_latest (fun x => C0 x \/
                   exists s, In s es /\ shift_end_dt s = Ok x /\ x <= proposed) r.
Proof.
  induction es as [|s rest IH]; intros acc C0 Hacc Hok.
  - exists acc. split; [reflexivity|].
    eapply is_latest_ext; [|exact Hacc].
    intros x; split; [auto|]. intros [H|[s [[] _]]]. exact H.
  - cbn [latest_end_loop].
    destruct (shift_end_dt s) as [e|] eqn:Ee;
      [|specialize (Hok s (or_introl eq_refl)); rewrite Ee in Hok; discriminate].
    cbn [bind].
    set (C1 := fun x => C0 x \/ (x = e /\ e <= proposed)).
    match goal with |- exists r, latest_end_loop _ _ ?a = _ /\ _ => set (acc' := a) end.
    assert (H1 : is_latest C1 acc').
    { subst acc' C1. destruct (e <=? proposed) eqn:El.
      - apply Z.leb_le in El. destruct acc as [l|]; cbn in Hacc.
        + destruct Hacc as [Hl Hmax]. destruct (l <? e) eqn:Elt.
          * apply Z.ltb_lt in Elt. split; [right; auto|].
            intros x [Hx|[-> _]]; [apply Hmax in Hx|]; lia.
          * apply Z.ltb_ge in Elt. split; [left; exact Hl|].
            intros x [Hx|[-> _]]; [apply Hmax, Hx|lia].
        + split; [right; auto|]. intros x [Hx|[-> _]]; [destruct (Hacc x Hx)|lia].
      - apply Z.leb_gt in El.
        eapply is_latest_ext; [|exact Hacc].
        intros x; split; [auto|]. intros [H|[_ H]]; [exact H|lia]. }
    destruct (IH acc' C1 H1) as [r [Er Hr]].
    { intros s' Hin. apply Hok. right. exact Hin. }
    exists r. split; [exact Er|].
    eapply is_latest_ext; [|exact Hr].
    intros x. subst C1. cbn. split.
    + intros [[H|[-> Hle]]|[s' [Hin H]]]; [left; exact H| |right; exists s'; auto with datatypes].
      right. exists s. auto with datatypes.
    + intros [H|[s' [[<-|Hin] [Hs' Hle]]]]; [auto| |right; eauto].
      left. right. split; [congruence|]. rewrite Ee in Hs'. injection Hs' as <-. exact Hle.
Qed.

Lemma latest_prior_end (shifts : store) (emp : string) (proposed : datetime) :
  readable_for emp shifts ->
  exists es r, emp_shifts_of emp shifts = Ok es /\
    latest_end_loop proposed es None = Ok r /\
    is_latest (prior_end shifts emp proposed) r.
Proof.
  intros Hr.
  destruct (emp_shifts_of_spec emp shifts) as [es [Ees Hes]].
  { intros k s Hin. apply (Hr k s Hin). }
  destruct (latest_end_loop_spec proposed es None (fun _ => False)) as [r [Er Hl]].
  { intros x []. }
  { intros s Hin. apply Hes in Hin as [k [Hin [Ha Hd]]]. apply (Hr k s Hin); assumption. }
  exists es, r. split; [exact Ees|]. split; [exact Er|].
  eapply is_latest_ext; [|exact Hl].
  intros x. unfold prior_end. split.
  - intros [[]|[s [Hin [He Hle]]]]. apply Hes in Hin as [k [Hin [Ha Hd]]].
    exists k, s. auto.
  - intros [k [s [Hin [Ha [Hd [He Hle]]]]]]. right. exists s.
    split; [apply Hes; eauto|auto].
Qed.

Lemma downtime_violation_spec (shifts : store) (emp : string) (proposed : datetime) :
  readable_for emp shifts ->
  exists v, downtime_violation shifts proposed emp = Ok v /\
            (v = false <-> rest_satisfied shifts emp proposed).
Proof.
  intros Hr.
  destruct (latest_prior_end shifts emp proposed Hr) as [es [r [Ees [Er Hl]]]].
  unfold downtime_violation. rewrite Ees; cbn [bind]. rewrite Er; cbn [bind].
  destruct r as [l|]; cbn in Hl.
  - eexists. split; [reflexivity|]. destruct Hl as [Hl Hmax].
    unfold rest_satisfied. rewrite Z.ltb_ge. split.
    + intros H. right. exists l. repeat split; [exact Hl|exact Hmax|lia].
    + intros [H|[l' [Hl' [Hmax' Hgap]]]]; [destruct (H l Hl)|].
      specialize (Hmax l' Hl'). specialize (Hmax' l Hl). lia.
  - exists false. split; [reflexivity|]. split; [|reflexivity].
    intros _. left. exact Hl.
Qed.

(** C4. The downtime check accepts a proposal (does not list the employee
    as a violation) exactly when the employee has no existing shift whose
    end instant, moved to the next day when the planned end is at or before
    the planned start, is at or before the proposed start, or the latest
    such end instant is at least 12 hours before the proposed start. After a
    night shift that ends on 2024-03-05 at 06:00, a start at 14:00 (8 hours)
    is rejected and a start at 18:00 (12 hours) is accepted. *)
Theorem rest_check_accepts_iff (shifts : store) (emp : string) (proposed : datetime) :
  readable_for emp shifts ->
  (exists v, downtime_violation shifts proposed emp = Ok v /\
             (v = false <-> rest_satisfied shifts emp proposed)) /\
  (forall s ds d ps pe ts te,
     date s = Val ds -> strptime_Ymd_str ds = Ok d ->
     planned_start s = Val ps -> planned_end s = Val pe ->
     strptime_HM_str ps = Ok ts -> strptime_HM_str pe = Ok te ->
     shift_end_dt s
     = Ok (combine d te + if minutes_of te <=? minutes_of ts then 1440 else 0)) /\
  shift_end_dt (night_shift "accepted") = Ok (combine march_5 (mkTime 6 0)) /\
  downtime_violation [("shift_1", night_shift "accepted")]
    (combine march_5 (mkTime 14 0)) "emp1" = Ok true /\
  downtime_violation [("shift_1", night_shift "accepted")]
    (combine march_5 (mkTime 18 0)) "emp1" = Ok false.
Proof.
  intros Hr. split; [apply downtime_violation_spec, Hr|]. split.
  - intros s ds d ps pe ts te Hd Hds Hps Hpe Hts Hte.
    unfold shift_end_dt. rewrite Hd, Hps, Hpe; cbn [subscript bind get_default strptime_Ymd strptime_HM].
    rewrite Hds; cbn [bind]. rewrite Hte; cbn [bind]. rewrite Hts; cbn [bind].
    unfold combine.
    destruct (minutes_of te <=? minutes_of ts) eqn:E.
    + apply Z.leb_le in E.
      replace (_ <=? _) with true by (symmetry; apply Z.leb_le; lia). reflexivity.
    + apply Z.leb_gt in E.
      replace (_ <=? _) with false by (symmetry; apply Z.leb_gt; lia).
      f_equal. lia.
  - repeat split; vm_compute; reflexivity.
Qed.

Lemma rest_check_accepts_iff_witness :
  readable_for "emp1" [("shift_1", night_shift "accepted")] /\
  exists v, downtime_violation [("shift_1", night_shift "accepted")]
              (combine march_5 (mkTime 18 0)) "emp1" = Ok v /\
            (v = false <->
             rest_satisfied [("shift_1", night_shift "accepted")] "emp1"
               (combine march_5 (mkTime 18 0))).
Proof.
  assert (Hr : readable_for "emp1" [("shift_1", night_shift "accepted")]).
  { intros k s [H|[]]. injection H as <- <-. split; [discriminate|].
    intros _ _. reflexivity. }
  split; [exact Hr|].
  exact (proj1 (rest_check_accepts_iff [("shift_1", night_shift "accepted")] "emp1"
                  (combine march_5 (mkTime 18 0)) Hr)).
Defined.

(** *** The check does not read the status *)

Lemma latest_end_loop_ext (proposed : datetime) (es es' : list Shift) :
  map shift_end_dt es = map shift_end_dt es' ->
  forall acc, latest_end_loop proposed es acc = latest_end_loop proposed es' acc.
Proof.
  revert es'. induction es as [|s rest IH]; intros [|s' rest'] H acc;
    try discriminate; [reflexivity|].
  injection H as Hs Hrest. cbn [latest_end_loop]. rewrite Hs.
  destruct (shift_end_dt s'); cbn [bind]; [|reflexivity].
  apply IH, Hrest.
Qed.

Lemma emp_shifts_of_restatus (emp : string) (g : string * Shift -> string)
    (shifts : store) :
  match emp_shifts_of emp shifts,
        emp_shifts_of emp (map (fun kv => (fst kv, set_status (snd kv) (g kv))) shifts) with
  | Ok es, Ok es' => map shift_end_dt es = map shift_end_dt es'
  | Raise e, Raise e' => e = e'
  | _, _ => False
  end.
Proof.
  induction shifts as [|[k s] rest IH]; [reflexivity|].
  cbn [map emp_shifts_of fst snd].
  change (assigned_to emp (set_status s (g (k, s)))) with (assigned_to emp s).
  change (date (set_status s (g (k, s)))) with (date s).
  destruct (assigned_to emp s) as [a|]; cbn [bind]; [|reflexivity].
  destruct (emp_shifts_of emp rest) as [es|];
    destruct (emp_shifts_of emp (map _ rest)) as [es'|]; cbn [bind]; try exact IH.
  destruct (a && truthy_str (date s)); [|exact IH].
  cbn [map]. f_equal. exact IH.
Qed.

(** C2, counterexample. A declined night shift that ends on 2024-03-05 at
    06:00 makes a proposal for 14:00 of that day a downtime violation;
    without the declined shift there is none. *)
Lemma declined_shift_counts_for_rest :
  status (night_shift "declined") = Val "declined" /\
  downtime_violation [("shift_1", night_shift "declined")]
    (combine march_5 (mkTime 14 0)) "emp1" = Ok true /\
  downtime_violation [] (combine march_5 (mkTime 14 0)) "emp1" = Ok false.
Proof.
  repeat split; vm_compute; reflexivity.
Qed.

(** C2, amended. The rest-period check does not read the status of a shift:
    every dated shift the employee is assigned to counts when the latest
    prior end is determined, a declined one included, so giving the stored
    shifts any other status leaves the result of the check unchanged. *)
Theorem rest_check_ignores_status (shifts : store) (emp : string)
    (proposed : datetime) (g : string * Shift -> string) :
  downtime_violation (map (fun kv => (fst kv, set_status (snd kv) (g kv))) shifts)
    proposed emp
  = downtime_violation shifts proposed emp.
Proof.
  unfold downtime_violation.
  pose proof (emp_shifts_of_restatus emp g shifts) as H.
  destruct (emp_shifts_of emp shifts) as [es|];
    destruct (emp_shifts_of emp (map _ shifts)) as [es'|]; cbn [bind];
    try contradiction; [|congruence].
  rewrite (latest_end_loop_ext proposed es es' H). reflexivity.
Qed.

(** ** Creation guards *)

Lemma downtime_violations_mem (shifts : store) (proposed : datetime) (emp : string) :
  forall selected vs,
    downtime_violations shifts proposed selected = Ok vs ->
    In emp selected ->
    downtime_violation shifts proposed emp = Ok true ->
    In emp vs.
Proof.
  induction selected as [|e rest IH]; intros vs H Hin Hv; [destruct Hin|].
  cbn [downtime_violations] in H.
  destruct (downtime_violation shifts proposed e) as [v|] eqn:Ev; [|discriminate].
  cbn [bind] in H.
  destruct (downtime_violations shifts proposed rest) as [vs'|]; [|discriminate].
  cbn [bind] in H. injection H as <-.
  destruct Hin as [->|Hin].
  - rewrite Hv in Ev. injection Ev as <-. left. reflexivity.
  - specialize (IH vs' eq_refl Hin Hv). destruct v; [right|]; exact IH.
Qed.

(** C8. When no employee is assigned, or an assigned employee fails the
    12-hour rest check at the proposed planned start, the creation form
    creates no record and the shift store stays as it was. *)
Theorem creation_refused_leaves_store (users : user_store) (shifts : store)
    (f : CreateForm) :
  creation_guard_fails shifts f ->
  store_after shifts (admin_manage_shifts users shifts f) = shifts /\
  forall new_shift_id after,
    admin_manage_shifts users shifts f <> Ok (Created new_shift_id, after).
Proof.
  intros [Hsel|[pst [emp [Hp [Hin Hv]]]]]; unfold admin_manage_shifts.
  - rewrite Hsel. cbn. split; [reflexivity|discriminate].
  - destruct (available_shift_types _ _) as [[|ty tys]|]; cbn [bind store_after];
      [split; [reflexivity|discriminate]| |split; [reflexivity|discriminate]].
    destruct (dict_get SHIFT_TYPES _); cbn [bind store_after];
      [|split; [reflexivity|discriminate]].
    rewrite Hp; cbn [bind].
    destruct (downtime_violations _ _ _) as [vs|] eqn:Evs; cbn [bind store_after];
      [|split; [reflexivity|discriminate]].
    pose proof (downtime_violations_mem _ _ _ _ _ Evs Hin Hv) as Hvs.
    destruct (create_clicked f && _); [|split; [reflexivity|discriminate]].
    destruct (selected_employees f) as [|e es]; [destruct Hin|].
    destruct vs as [|v vs]; [destruct Hvs|].
    split; [reflexivity|discriminate].
Qed.

Lemma creation_refused_leaves_store_witness :
  creation_guard_fails [("shift_1", night_shift "accepted")] late_form /\
  store_after [("shift_1", night_shift "accepted")]
    (admin_manage_shifts sample_users [("shift_1", night_shift "accepted")] late_form)
  = [("shift_1", night_shift "accepted")].
Proof.
  assert (G : creation_guard_fails [("shift_1", night_shift "accepted")] late_form).
  { right. exists (mkTime 14 0), "emp1".
    split; [reflexivity|]. split; [left; reflexivity|]. vm_compute. reflexivity. }
  split; [exact G|].
  exact (proj1 (creation_refused_leaves_store sample_users
                  [("shift_1", night_shift "accepted")] late_form G)).
Defined.

(** ** Payroll *)

Lemma payroll_guard (user : string) (start_date end_date : calendar_date) (s : Shift) :
  readable s ->
  exists ds d a,
    date s = Val ds /\ strptime_Ymd_str ds = Ok d /\
    assigned_to user s = Ok a /\
    counted user start_date end_date s
    = a && truthy_bool (approved s) && date_leb start_date d && date_leb d end_date.
Proof.
  intros [Hd Ha]. unfold counted, shift_date_of in *.
  destruct (date s) as [| |ds]; try congruence.
  destruct (strptime_Ymd_str ds) as [d|] eqn:Ed; try congruence.
  unfold assigned_to.
  destruct (assigned_employees s) as [| |l]; try congruence.
  - exists ds, d, false. repeat split; auto.
  - exists ds, d, (mem user l). repeat split; auto.
Qed.

Lemma payroll_step_skip (user : string) (rate : float)
    (start_date end_date : calendar_date) (s : Shift) (acc : Totals) :
  readable s -> counted user start_date end_date s = false ->
  payroll_step user rate start_date end_date s acc = Ok acc.
Proof.
  intros Hr Hc.
  destruct (payroll_guard user start_date end_date s Hr) as [ds [d [a [E1 [E2 [E3 E4]]]]]].
  unfold payroll_step. rewrite E1; cbn [subscript bind strptime_Ymd].
  rewrite E2; cbn [bind]. rewrite E3; cbn [bind].
  rewrite <- E4, Hc. reflexivity.
Qed.

Lemma payroll_step_count (user : string) (rate : float)
    (start_date end_date : calendar_date) (s : Shift) (acc : Totals) (h p : float) :
  readable s -> counted user start_date end_date s = true ->
  entry rate s = Some (h, p) ->
  exists it,
    payroll_step user rate start_date end_date s acc
    = Ok (mkTotals (PrimFloat.add (total_hours acc) h)
                   (PrimFloat.add (total_pay acc) p)
                   (detailed_shifts acc ++ [it])) /\
    li_pay it = p /\
    (is_manual s = true ->
     li_hours it = None /\ li_planned_start it = Some "N/A" /\
     li_planned_end it = Some "N/A" /\ li_actual_start it = Some "N/A" /\
     li_actual_end it = Some "N/A" /\
     li_description it = get_default (description s) (Some "Manual Adjustment")) /\
    (is_manual s = false -> li_hours it = Some h).
Proof.
  intros Hr Hc He.
  destruct (payroll_guard user start_date end_date s Hr) as [ds [d [a [E1 [E2 [E3 E4]]]]]].
  assert (Happ : truthy_bool (approved s) = true).
  { rewrite Hc in E4. symmetry in E4.
    repeat (apply andb_true_iff in E4 as [E4 ?]). assumption. }
  unfold payroll_step. rewrite E1; cbn [subscript bind strptime_Ymd].
  rewrite E2; cbn [bind]. rewrite E3; cbn [bind].
  rewrite <- E4, Hc. unfold calculate_pay. rewrite Happ.
  unfold entry, is_manual in *.
  destruct (field_is (shift_type s) "manual_payroll") eqn:Em.
  - destruct (manual_amount s) as [| |amt] eqn:Ea; try discriminate.
    injection He as <- <-. cbn.
    eexists. split; [reflexivity|]. cbn. repeat split; auto. discriminate.
  - cbn [andb].
    destruct (shift_type s) as [| |ty] eqn:Et; try discriminate.
    unfold worked_start, worked_end in He.
    destruct (planned_start s) as [| |ps] eqn:Eps; try discriminate;
      destruct (planned_end s) as [| |pe] eqn:Epe; try discriminate;
      destruct (actual_start s) as [| |a_s] eqn:Eas;
      destruct (actual_end s) as [| |a_e] eqn:Eae;
      cbn [has_key andb subscript bind get get_default] in *;
      (destruct (get_shift_duration _ _) as [h'|] eqn:Eg; [|discriminate]);
      injection He as <- <-; cbn [bind];
      eexists; (split; [reflexivity|]); cbn; repeat split; auto; discriminate.
Qed.

Lemma payroll_loop_spec (user : string) (rate : float)
    (start_date end_date : calendar_date) (shifts : store) :
  payable user rate start_date end_date shifts ->
  forall acc, exists its,
    payroll_loop user rate start_date end_date shifts acc
    = Ok (mkTotals
            (fold_left PrimFloat.add
               (map fst (entries user rate start_date end_date shifts)) (total_hours acc))
            (fold_left PrimFloat.add
               (map snd (entries user rate start_date end_date shifts)) (total_pay acc))
            (detailed_shifts acc ++ its)) /\
    Forall2 (item_for rate) (counted_shifts user start_date end_date shifts) its.
Proof.
  unfold counted_shifts, entries.
  induction shifts as [|[k s] rest IH]; intros Hp acc.
  - exists []. cbn. rewrite app_nil_r. destruct acc. split; [reflexivity|constructor].
  - destruct (Hp k s (or_introl eq_refl)) as [Hr He].
    assert (Hp' : payable user rate start_date end_date rest)
      by (intros k' s' Hin; apply (Hp k' s'); right; exact Hin).
    cbn [payroll_loop map filter flat_map snd].
    destruct (counted user start_date end_date s) eqn:Hc.
    + destruct (entry rate s) as [[h p]|] eqn:Ee; [|destruct (He eq_refl eq_refl)].
      destruct (payroll_step_count user rate start_date end_date s acc h p Hr Hc Ee)
        as [it [Es [Hpay [Hman Hreg]]]].
      rewrite Es; cbn [bind].
      destruct (IH Hp' (mkTotals (PrimFloat.add (total_hours acc) h)
                                 (PrimFloat.add (total_pay acc) p)
                                 (detailed_shifts acc ++ [it]))) as [its [El Hits]].
      exists (it :: its). split.
      * rewrite El. cbn. rewrite <- app_assoc. reflexivity.
      * constructor; [|exact Hits]. exists h, p. auto.
    + rewrite (payroll_step_skip user rate start_date end_date s acc Hr Hc); cbn [bind app].
      apply IH, Hp'.
Qed.

Lemma counted_is_approved (user : string) (start_date end_date : calendar_date) (s : Shift) :
  counted user start_date end_date s = true -> truthy_bool (approved s) = true.
Proof.
  unfold counted. destruct (shift_date_of s); [|discriminate].
  intros H. repeat (apply andb_true_iff in H as [H ?]). assumption.
Qed.

Lemma payroll_loop_unapproved (user : string) (rate : float)
    (start_date end_date : calendar_date) (shifts : store) :
  (forall k s, In (k, s) shifts -> readable s) ->
  forall acc,
    payroll_loop user rate start_date end_date
      (filter (fun kv => truthy_bool (approved (snd kv))) shifts) acc
    = payroll_loop user rate start_date end_date shifts acc.
Proof.
  induction shifts as [|[k s] rest IH]; intros Hr acc; [reflexivity|].
  assert (Hr' : forall k' s', In (k', s') rest -> readable s')
    by (intros k' s' Hin; apply (Hr k' s'); right; exact Hin).
  cbn [filter snd]. destruct (truthy_bool (approved s)) eqn:Ha.
  - cbn [payroll_loop].
    destruct (payroll_step user rate start_date end_date s acc); cbn [bind]; [|reflexivity].
    apply IH, Hr'.
  - cbn [payroll_loop].
    rewrite payroll_step_skip; [cbn [bind]; apply IH, Hr'|apply (Hr k s); left; reflexivity|].
    destruct (counted user start_date end_date s) eqn:Hc; [|reflexivity].
    apply counted_is_approved in Hc. congruence.
Qed.

Lemma entry_regular (rate : float) (s : Shift) (h p : float) :
  is_manual s = false -> entry rate s = Some (h, p) ->
  get_shift_duration (worked_start s) (worked_end s) = Ok h /\ p = PrimFloat.mul h rate.
Proof.
  unfold entry. intros ->.
  destruct (shift_type s); try discriminate.
  destruct (has_key (planned_start s) && has_key (planned_end s)); try discriminate.
  destruct (get_shift_duration _ _); try discriminate.
  intros [= <- <-]. auto.
Qed.

(** C5. Payroll counts exactly the shifts where the employee is among the
    assigned employees, approved is true and the date lies in the inclusive
    range: the totals are the running sums of the hours and the pay of the
    counted shifts and there is one line item per counted shift. For a
    counted regular shift the hours are the duration between the actual
    times when their keys are present and the planned times otherwise, and
    the pay is the hours times the rate. Shifts that are not approved
    contribute nothing, whatever their status: removing them from the store
    gives the same result. *)
Theorem payroll_counts_approved_in_range (shifts : store) (user : string)
    (rate : float) (start_date_str end_date_str : string)
    (start_date end_date : calendar_date) :
  strptime_Ymd_str start_date_str = Ok start_date ->
  strptime_Ymd_str end_date_str = Ok end_date ->
  payable user rate start_date end_date shifts ->
  exists t,
    calculate_payroll_for_user shifts user rate start_date_str end_date_str = Ok t /\
    total_hours t = sum_floats (map fst (entries user rate start_date end_date shifts)) /\
    total_pay t = sum_floats (map snd (entries user rate start_date end_date shifts)) /\
    Forall2 (item_for rate) (counted_shifts user start_date end_date shifts)
      (detailed_shifts t) /\
    (forall s h p,
       In s (counted_shifts user start_date end_date shifts) ->
       is_manual s = false -> entry rate s = Some (h, p) ->
       get_shift_duration (worked_start s) (worked_end s) = Ok h /\
       p = PrimFloat.mul h rate) /\
    calculate_payroll_for_user
      (filter (fun kv => truthy_bool (approved (snd kv))) shifts)
      user rate start_date_str end_date_str = Ok t.
Proof.
  intros Hs He Hp.
  destruct (payroll_loop_spec user rate start_date end_date shifts Hp
              (mkTotals 0%float 0%float [])) as [its [El Hits]].
  eexists. unfold calculate_payroll_for_user.
  rewrite Hs, He; cbn [bind]. rewrite payroll_loop_unapproved.
  - split; [exact El|]. cbn [total_hours total_pay detailed_shifts app].
    split; [reflexivity|]. split; [reflexivity|]. split; [exact Hits|].
    split; [|exact El].
    intros s h p _ Hm Hen. apply (entry_regular rate s h p Hm Hen).
  - intros k s Hin. apply (Hp k s Hin).
Qed.

Lemma payroll_counts_approved_in_range_witness :
  strptime_Ymd_str "2024-03-01" = Ok (fst march) /\
  strptime_Ymd_str "2024-03-31" = Ok (snd march) /\
  payable "emp1" 20%float (fst march) (snd march)
    [("shift_1", night_shift "accepted"); ("shift_2", approved_night)] /\
  exists t,
    calculate_payroll_for_user
      [("shift_1", night_shift "accepted"); ("shift_2", approved_night)]
      "emp1" 20%float "2024-03-01" "2024-03-31" = Ok t /\
    total_hours t = 8%float /\ total_pay t = 160%float.
Proof.
  assert (Hp : payable "emp1" 20%float (fst march) (snd march)
                 [("shift_1", night_shift "accepted"); ("shift_2", approved_night)]).
  { intros k s [H|[H|[]]]; injection H as <- <-;
      (split; [split; vm_compute; discriminate|]);
      intros Hc; first [vm_compute in Hc; discriminate Hc|vm_compute; discriminate]. }
  split; [reflexivity|]. split; [reflexivity|]. split; [exact Hp|].
  destruct (payroll_counts_approved_in_range
              [("shift_1", night_shift "accepted"); ("shift_2", approved_night)]
              "emp1" 20%float "2024-03-01" "2024-03-31" (fst march) (snd march)
              eq_refl eq_refl Hp) as [t [Ht [Hh [Hpay _]]]].
  exists t. split; [exact Ht|]. split.
  - rewrite Hh. vm_compute. reflexivity.
  - rewrite Hpay. vm_compute. reflexivity.
Defined.

(** *** Manual entries *)

Lemma sum_zero_hours (l : list float) :
  fold_left PrimFloat.add (map fst (map (fun a => (0%float, a)) l)) 0%float = 0%float.
Proof.
  induction l as [|a l IH]; [reflexivity|]. cbn [map fst fold_left].
  change (PrimFloat.add 0%float 0%float) with 0%float. exact IH.
Qed.

Lemma manual_only_payable (user : string) (rate : float)
    (start_date end_date : calendar_date) (shifts : store) :
  manual_only user start_date end_date shifts ->
  payable user rate start_date end_date shifts.
Proof.
  intros H k s Hin. destruct (H k s Hin) as [Hr Hm]. split; [exact Hr|].
  intros Hc. destruct (Hm Hc) as [Hman [a Ha]].
  unfold entry. rewrite Hman, Ha. discriminate.
Qed.

Lemma manual_only_entries (user : string) (rate : float)
    (start_date end_date : calendar_date) (shifts : store) :
  manual_only user start_date end_date shifts ->
  entries user rate start_date end_date shifts
  = map (fun a => (0%float, a))
        (manual_amounts (counted_shifts user start_date end_date shifts)).
Proof.
  unfold entries, counted_shifts, manual_amounts.
  induction shifts as [|[k s] rest IH]; intros H; [reflexivity|].
  assert (H' : manual_only user start_date end_date rest)
    by (intros k' s' Hin; apply (H k' s'); right; exact Hin).
  cbn [flat_map map filter snd].
  destruct (counted user start_date end_date s) eqn:Hc; [|apply IH, H'].
  destruct (H k s (or_introl eq_refl)) as [_ Hm].
  destruct (Hm Hc) as [Hman [a Ha]].
  unfold entry. rewrite Hman, Ha. cbn [flat_map app map]. rewrite Ha.
  cbn [app map]. f_equal. apply IH, H'.
Qed.

Lemma calculate_pay_manual (s : Shift) (rate : float) (a : float) :
  is_manual s = true -> manual_amount s = Val a ->
  calculate_pay s rate
  = if truthy_bool (approved s) then Ok (Some a) else Ok (Some 0%float).
Proof.
  unfold calculate_pay, is_manual. intros -> ->. reflexivity.
Qed.

Lemma payroll_loop_manual_rate (user : string) (rate rate' : float)
    (start_date end_date : calendar_date) (shifts : store) :
  manual_only user start_date end_date shifts ->
  forall acc,
    payroll_loop user rate' start_date end_date shifts acc
    = payroll_loop user rate start_date end_date shifts acc.
Proof.
  induction shifts as [|[k s] rest IH]; intros H acc; [reflexivity|].
  assert (H' : manual_only user start_date end_date rest)
    by (intros k' s' Hin; apply (H k' s'); right; exact Hin).
  destruct (H k s (or_introl eq_refl)) as [Hr Hm].
  cbn [payroll_loop].
  assert (E : payroll_step user rate' start_date end_date s acc
              = payroll_step user rate start_date end_date s acc).
  { destruct (counted user start_date end_date s) eqn:Hc.
    - destruct (Hm eq_refl) as [Hman [a Ha]].
      unfold payroll_step.
      rewrite !(calculate_pay_manual s _ a Hman Ha). reflexivity.
    - rewrite !payroll_step_skip by assumption. reflexivity. }
  rewrite E.
  destruct (payroll_step user rate start_date end_date s acc); cbn [bind]; [|reflexivity].
  apply IH, H'.
Qed.

Lemma manual_items (user : string) (rate : float)
    (start_date end_date : calendar_date) (shifts : store) (its : list LineItem) :
  manual_only user start_date end_date shifts ->
  Forall2 (item_for rate) (counted_shifts user start_date end_date shifts) its ->
  Forall2 manual_item (counted_shifts user start_date end_date shifts) its.
Proof.
  intros H. unfold counted_shifts.
  assert (Hall : forall s, In s (filter (counted user start_date end_date) (map snd shifts)) ->
                   is_manual s = true /\ exists a, manual_amount s = Val a).
  { intros s Hin. apply filter_In in Hin as [Hin Hc].
    apply in_map_iff in Hin as [[k s'] [<- Hin]]. apply (H k s' Hin), Hc. }
  revert Hall. generalize (filter (counted user start_date end_date) (map snd shifts)).
  intros l Hall F. induction F as [|s it l its' Hit F IH]; constructor.
  - destruct (Hall s (or_introl eq_refl)) as [Hman [a Ha]].
    destruct Hit as [h [p [He [Hp [Hm _]]]]].
    unfold entry in He. rewrite Hman, Ha in He. injection He as <- <-.
    unfold manual_item. rewrite Ha, Hp. split; [reflexivity|]. apply Hm, Hman.
  - apply IH. intros s' Hin. apply Hall. right. exact Hin.
Qed.

(** C6. A manual payroll entry that is counted adds 0 to the total hours
    and its fixed amount, as stored, to the total pay, whatever the hourly
    rate, and its line item carries the description and no time range. When
    the counted records of a user are manual entries only, the total hours
    are 0 and the total pay is the running sum of their amounts. *)
Theorem manual_entries_pay_amount_verbatim (shifts : store) (user : string)
    (rate : float) (start_date_str end_date_str : string)
    (start_date end_date : calendar_date) :
  strptime_Ymd_str start_date_str = Ok start_date ->
  strptime_Ymd_str end_date_str = Ok end_date ->
  manual_only user start_date end_date shifts ->
  (exists t,
     calculate_payroll_for_user shifts user rate start_date_str end_date_str = Ok t /\
     total_hours t = 0%float /\
     total_pay t
     = sum_floats (manual_amounts (counted_shifts user start_date end_date shifts)) /\
     Forall2 manual_item (counted_shifts user start_date end_date shifts)
       (detailed_shifts t) /\
     forall rate',
       calculate_payroll_for_user shifts user rate' start_date_str end_date_str = Ok t) /\
  (forall (s : Shift) (acc : Totals) (a rate0 : float),
     readable s -> counted user start_date end_date s = true ->
     is_manual s = true -> manual_amount s = Val a ->
     exists it,
       payroll_step user rate0 start_date end_date s acc
       = Ok (mkTotals (PrimFloat.add (total_hours acc) 0%float)
                      (PrimFloat.add (total_pay acc) a)
                      (detailed_shifts acc ++ [it])) /\
       manual_item s it).
Proof.
  intros Hs He Hm. split.
  - destruct (payroll_loop_spec user rate start_date end_date shifts
                (manual_only_payable user rate start_date end_date shifts Hm)
                (mkTotals 0%float 0%float [])) as [its [El Hits]].
    rewrite (manual_only_entries user rate start_date end_date shifts Hm) in El.
    cbn [total_hours total_pay detailed_shifts app] in El.
    rewrite sum_zero_hours in El.
    rewrite map_map in El. cbn [snd] in El. rewrite map_id in El.
    eexists. unfold calculate_payroll_for_user. rewrite Hs, He; cbn [bind].
    split; [exact El|]. cbn [total_hours total_pay detailed_shifts].
    split; [reflexivity|]. split; [reflexivity|].
    split; [eapply manual_items; eassumption|].
    intros rate'. rewrite (payroll_loop_manual_rate user rate rate'); assumption.
  - intros s acc a rate0 Hr Hc Hman Ha.
    destruct (payroll_step_count user rate0 start_date end_date s acc 0%float a Hr Hc)
      as [it [Es [Hp [Hmi _]]]].
    { unfold entry. rewrite Hman, Ha. reflexivity. }
    exists it. split; [exact Es|].
    unfold manual_item. rewrite Ha, Hp. split; [reflexivity|]. apply Hmi, Hman.
Qed.

Lemma manual_entries_pay_amount_verbatim_witness :
  strptime_Ymd_str "2024-03-01" = Ok (fst march) /\
  strptime_Ymd_str "2024-03-31" = Ok (snd march) /\
  manual_only "emp1" (fst march) (snd march)
    [("shift_1", night_shift "accepted"); ("bonus", bonus)] /\
  exists t,
    calculate_payroll_for_user [("shift_1", night_shift "accepted"); ("bonus", bonus)]
      "emp1" 20%float "2024-03-01" "2024-03-31" = Ok t /\
    total_hours t = 0%float /\ total_pay t = 150%float.
Proof.
  assert (Hm : manual_only "emp1" (fst march) (snd march)
                 [("shift_1", night_shift "accepted"); ("bonus", bonus)]).
  { intros k s [H|[H|[]]]; injection H as <- <-;
      (split; [split; vm_compute; discriminate|]).
    - vm_compute. discriminate.
    - intros _. split; [reflexivity|]. eexists. reflexivity. }
  split; [reflexivity|]. split; [reflexivity|]. split; [exact Hm|].
  destruct (manual_entries_pay_amount_verbatim
              [("shift_1", night_shift "accepted"); ("bonus", bonus)]
              "emp1" 20%float "2024-03-01" "2024-03-31" (fst march) (snd march)
              eq_refl eq_refl Hm) as [[t [Ht [Hh [Hpay _]]]] _].
  exists t. split; [exact Ht|]. split; [exact Hh|].
  rewrite Hpay. vm_compute. reflexivity.
Defined.

(** ** The invariant of approved records *)

Lemma in_dict_set {V : Type} (d : list (string * V)) (k k' : string) (v v' : V) :
  In (k', v') (dict_set d k v) -> (k', v') = (k, v) \/ In (k', v') d.
Proof.
  induction d as [|[k0 v0] d IH]; cbn [dict_set].
  - intros [H|[]]. left. congruence.
  - destruct (String.eqb k0 k).
    + intros [H|H]; [left; congruence|right; right; exact H].
    + intros [H|H]; [right; left; exact H|].
      destruct (IH H) as [E|E]; [left; exact E|right; right; exact E].
Qed.

Lemma store_inv_set (shifts : store) (k : string) (s : Shift) :
  store_inv shifts -> well_kept s -> store_inv (dict_set shifts k s).
Proof.
  intros Hi Hs k' s' Hin.
  apply in_dict_set in Hin as [E|Hin]; [congruence|eapply Hi, Hin].
Qed.

Lemma well_kept_new_shift (new_shift_id ty : string) (f : CreateForm) :
  well_kept (new_shift new_shift_id ty f).
Proof.
  split; [cbn; eauto|].
  unfold new_shift; cbn.
  destruct (String.eqb (initial_shift_status f) "approved"); [|discriminate].
  intros _. red; cbn. eauto.
Qed.

Lemma well_kept_manual_entry (manual_entry_id admin : string) (f : ManualForm) :
  well_kept (manual_entry manual_entry_id admin f).
Proof.
  split; [cbn; eauto|]. intros _. red; cbn. eauto.
Qed.

Lemma well_kept_set_status (s : Shift) (st : string) :
  well_kept s -> well_kept (set_status s st).
Proof.
  intros [Hp Ha]. split; [exact Hp|exact Ha].
Qed.

Lemma well_kept_approve_record (s : Shift) (a b : string) :
  well_kept s -> well_kept (approve_record s (Some a) (Some b)).
Proof.
  intros [Hp _]. split; [exact Hp|]. intros _. red; cbn. eauto.
Qed.

Lemma well_kept_dummy_shift (s : Shift) : dummy_shift s -> well_kept s.
Proof.
  intros []. split; [cbn; eauto|]. cbn. discriminate.
Qed.

Lemma well_kept_yearly_shift (s : Shift) : yearly_shift s -> well_kept s.
Proof.
  intros []. split; [cbn; eauto|]. intros _. red; cbn. eauto.
Qed.

Lemma well_kept_dummy_payroll (s : Shift) : dummy_payroll s -> well_kept s.
Proof.
  intros []. split; [cbn; eauto|]. intros _. red; cbn. eauto.
Qed.

Lemma render_shift_planned (s : Shift) (ps pe : option string) :
  well_kept s -> render_shift s = Ok (ps, pe) ->
  exists a b, ps = Some a /\ pe = Some b.
Proof.
  intros [[a [b [Ha Hb]]] _]. unfold render_shift. rewrite Ha, Hb.
  destruct (assigned_employees s); cbn [bind]; try discriminate;
    destruct (subscript (date s)); cbn [bind]; try discriminate;
    destruct (subscript (shift_type s)) as [[ty|]|]; cbn [bind subscript];
    try discriminate; intros [= <- <-]; eauto.
Qed.

(** A successful approval replaces the clicked pending record by its
    approved copy. *)
Lemma approve_loop_result (shifts : store) (clicked : string) (a : approval) :
  forall pending o after,
    approve_loop shifts pending clicked a = Ok (o, after) ->
    (o <> Approved /\ after = shifts) \/
    exists s ps pe,
      In (clicked, s) pending /\ render_shift s = Ok (ps, pe) /\
      after = dict_set shifts clicked
                (approve_record s
                   (match a with FullApproval => ps | PartialApproval x _ => Some x end)
                   (match a with FullApproval => pe | PartialApproval _ y => Some y end)).
Proof.
  induction pending as [|[k s] rest IH]; intros o after; cbn [approve_loop].
  - intros [= <- <-]. left. split; [discriminate|reflexivity].
  - destruct (render_shift s) as [[ps pe]|] eqn:Er; cbn [bind]; [|discriminate].
    destruct (String.eqb k clicked) eqn:Ek.
    + apply String.eqb_eq in Ek. subst k.
      destruct a as [|x y]; cbn [fst snd].
      * intros [= _ <-]. right. exists s, ps, pe. auto with datatypes.
      * destruct (is_ok (strptime_HM_str x) && is_ok (strptime_HM_str y));
          intros [= <- <-]; [right|left; split; [discriminate|reflexivity]].
        exists s, ps, pe. auto with datatypes.
    + intros H. destruct (IH o after H) as [E|[s' [ps' [pe' [Hin E]]]]]; [left; exact E|].
      right. exists s', ps', pe'. split; [right; exact Hin|exact E].
Qed.

Lemma admin_approve_shifts_result (shifts : store) (clicked : string) (a : approval)
    (o : approve_outcome) (after : store) :
  store_inv shifts ->
  admin_approve_shifts shifts clicked a = Ok (o, after) ->
  (o <> Approved /\ after = shifts) \/
  exists s x y,
    In (clicked, s) shifts /\
    after = dict_set shifts clicked (approve_record s (Some x) (Some y)).
Proof.
  intros Hi H. unfold admin_approve_shifts in H.
  apply approve_loop_result in H as [E|[s [ps [pe [Hin [Er ->]]]]]]; [left; exact E|].
  apply filter_In in Hin as [Hin _].
  destruct (render_shift_planned s ps pe (Hi _ _ Hin) Er) as [x [y [-> ->]]].
  right. destruct a as [|x' y']; eauto.
Qed.

Lemma admin_approve_shifts_inv (shifts : store) (clicked : string) (a : approval)
    (o : approve_outcome) (after : store) :
  store_inv shifts ->
  admin_approve_shifts shifts clicked a = Ok (o, after) ->
  store_inv after.
Proof.
  intros Hi H.
  apply (admin_approve_shifts_result _ _ _ _ _ Hi) in H
    as [[_ ->]|[s [x [y [Hin ->]]]]]; [exact Hi|].
  apply store_inv_set; [exact Hi|]. apply well_kept_approve_record, (Hi _ _ Hin).
Qed.

Lemma user_shifts_of_incl (user : string) (shifts : store) :
  forall l, user_shifts_of user shifts = Ok l -> incl l shifts.
Proof.
  induction shifts as [|[k s] rest IH]; intros l; cbn [user_shifts_of].
  - intros [= <-]. intros x [].
  - destruct (assigned_to user s) as [b|]; cbn [bind]; [|discriminate].
    destruct (user_shifts_of user rest) as [l'|]; cbn [bind]; [|discriminate].
    specialize (IH l' eq_refl).
    intros [= <-]. destruct b; intros x Hx.
    + destruct Hx as [<-|Hx]; [left; reflexivity|right; apply IH, Hx].
    + right. apply IH, Hx.
Qed.

(** A successful accept or decline replaces the clicked pending record by a
    copy with the new status. *)
Lemma respond_loop_result (shifts : store) (clicked : string) (r : response) :
  forall pending b after,
    respond_loop shifts pending clicked r = Ok (b, after) ->
    (b = false /\ after = shifts) \/
    exists s, In (clicked, s) pending /\ b = true /\
              after = dict_set shifts clicked (set_status s (response_status r)).
Proof.
  induction pending as [|[k s] rest IH]; intros b after; cbn [respond_loop].
  - intros [= <- <-]. left. auto.
  - destruct (render_shift s); cbn [bind]; [|discriminate].
    destruct (String.eqb k clicked) eqn:Ek.
    + apply String.eqb_eq in Ek. subst k.
      intros [= <- <-]. right. exists s. auto with datatypes.
    + intros H. destruct (IH b after H) as [E|[s' [Hin E]]]; [left; exact E|].
      right. exists s'. split; [right; exact Hin|exact E].
Qed.

Lemma employee_shifts_result (shifts : store) (user clicked : string) (r : response)
    (b : bool) (after : store) :
  employee_shifts shifts user clicked r = Ok (b, after) ->
  (b = false /\ after = shifts) \/
  exists s, In (clicked, s) shifts /\ b = true /\
            after = dict_set shifts clicked (set_status s (response_status r)).
Proof.
  unfold employee_shifts.
  destruct (user_shifts_of user shifts) as [l|] eqn:El; cbn [bind]; [|discriminate].
  intros H. apply respond_loop_result in H as [E|[s [Hin E]]]; [left; exact E|].
  right. exists s. split; [|exact E].
  apply filter_In in Hin as [Hin _]. eapply user_shifts_of_incl; eassumption.
Qed.

Lemma admin_manage_shifts_result (users : user_store) (shifts : store) (f : CreateForm)
    (o : outcome) (after : store) :
  admin_manage_shifts users shifts f = Ok (o, after) ->
  after = shifts \/
  exists new_shift_id ty,
    o = Created new_shift_id /\
    after = dict_set shifts new_shift_id (new_shift new_shift_id ty f).
Proof.
  unfold admin_manage_shifts.
  destruct (available_shift_types _ _) as [[|ty tys]|]; cbn [bind];
    [intros [= _ <-]; left; reflexivity| |discriminate].
  destruct (dict_get SHIFT_TYPES _); cbn [bind]; [|discriminate].
  destruct (strptime_HM_str (planned_start_time f)); cbn [bind]; [|discriminate].
  destruct (downtime_violations _ _ _) as [vs|]; cbn [bind]; [|discriminate].
  destruct (create_clicked f && _); [|intros [= _ <-]; left; reflexivity].
  destruct (selected_employees f); [intros [= _ <-]; left; reflexivity|].
  destruct vs; intros [= <- <-]; [|left; reflexivity].
  right. eauto.
Qed.

Lemma step_inv (shifts after : store) :
  step shifts after -> store_inv shifts -> store_inv after.
Proof.
  intros H Hi. destruct H as [after Hall|shifts k s Hs|shifts k s Hs _
                              |users shifts f o after Hc|shifts clicked a o after Ha
                              |shifts user clicked r b after Hr
                              |shifts mid adm f b after Hm].
  - intros k s Hin. rewrite Forall_forall in Hall.
    apply well_kept_yearly_shift, (Hall (k, s) Hin).
  - apply store_inv_set; [exact Hi|apply well_kept_dummy_shift, Hs].
  - apply store_inv_set; [exact Hi|apply well_kept_dummy_payroll, Hs].
  - apply admin_manage_shifts_result in Hc as [->|[nid [ty [_ ->]]]]; [exact Hi|].
    apply store_inv_set; [exact Hi|apply well_kept_new_shift].
  - eapply admin_approve_shifts_inv; eassumption.
  - apply employee_shifts_result in Hr as [[_ ->]|[s [Hin [_ ->]]]]; [exact Hi|].
    apply store_inv_set; [exact Hi|]. apply well_kept_set_status, (Hi _ _ Hin).
  - unfold manual_add_payroll_entry in Hm.
    destruct (payroll_submitted f); [|injection Hm as _ <-; exact Hi].
    destruct (_ || _); [injection Hm as _ <-; exact Hi|].
    destruct (PrimFloat.eqb _ _); injection Hm as _ <-; [exact Hi|].
    apply store_inv_set; [exact Hi|apply well_kept_manual_entry].
Qed.

Lemma reachable_inv (shifts : store) : reachable shifts -> store_inv shifts.
Proof.
  induction 1 as [|shifts after _ IH Hs]; [intros k s []|].
  eapply step_inv; eassumption.
Qed.

(** C7. In every reachable store a record with approved = true has actual
    start and end (or is a manual entry with an amount). The operations keep
    it so: a shift created with initial status approved has its actual times
    equal to the planned ones; an approval replaces a stored record by a copy
    that is approved and carries actual start and end; a manual entry stores
    its amount together with approved = true; accept and decline replace a
    stored record by a copy that differs in the status only. *)
Theorem approved_records_have_actual_times (shifts : store) :
  reachable shifts ->
  (forall k s, In (k, s) shifts -> approved_ok s) /\
  (forall new_shift_id ty f,
     initial_shift_status f = "approved" ->
     approved (new_shift new_shift_id ty f) = Val true /\
     actual_start (new_shift new_shift_id ty f) = Val (planned_start_time f) /\
     actual_end (new_shift new_shift_id ty f) = Val (planned_end_time f)) /\
  (forall clicked a after,
     admin_approve_shifts shifts clicked a = Ok (Approved, after) ->
     exists s x y,
       In (clicked, s) shifts /\
       after = dict_set shifts clicked (approve_record s (Some x) (Some y)) /\
       approved (approve_record s (Some x) (Some y)) = Val true /\
       actual_start (approve_record s (Some x) (Some y)) = Val x /\
       actual_end (approve_record s (Some x) (Some y)) = Val y) /\
  (forall manual_entry_id admin f,
     approved (manual_entry manual_entry_id admin f) = Val true /\
     manual_amount (manual_entry manual_entry_id admin f) = Val (amount f) /\
     is_manual (manual_entry manual_entry_id admin f) = true) /\
  (forall user clicked r after,
     employee_shifts shifts user clicked r = Ok (true, after) ->
     exists s,
       In (clicked, s) shifts /\
       after = dict_set shifts clicked (set_status s (response_status r)) /\
       same_but_status s (set_status s (response_status r))).
Proof.
  intros Hr. pose proof (reachable_inv shifts Hr) as Hi.
  split; [|split; [|split; [|split]]].
  - intros k s Hin Ha. left. apply (Hi k s Hin), Ha.
  - intros nid ty f Hst. unfold new_shift; cbn. rewrite Hst. cbn. auto.
  - intros clicked a after H.
    apply (admin_approve_shifts_result _ _ _ _ _ Hi) in H
      as [[Hne _]|[s [x [y [Hin ->]]]]]; [destruct (Hne eq_refl)|].
    exists s, x, y. cbn. auto.
  - intros mid adm f. cbn. auto.
  - intros user clicked r after H.
    apply employee_shifts_result in H as [[Hb _]|[s [Hin [_ ->]]]]; [discriminate|].
    exists s. split; [exact Hin|]. split; [reflexivity|].
    unfold same_but_status; cbn. repeat split.
Qed.

Lemma approved_records_have_actual_times_witness :
  reachable [("shift_1", new_shift "shift_1" "late" approved_form)] /\
  forall k s, In (k, s) [("shift_1", new_shift "shift_1" "late" approved_form)] ->
              approved_ok s.
Proof.
  assert (R : reachable [("shift_1", new_shift "shift_1" "late" approved_form)]).
  { eapply reachable_step; [apply reachable_empty|].
    eapply (step_create sample_users [] approved_form (Created "shift_1")).
    vm_compute. reflexivity. }
  split; [exact R|].
  exact (proj1 (approved_records_have_actual_times _ R)).
Defined.

(** ** Null actual times *)

Lemma strptime_HM_str_error (s : string) (e : exn) :
  strptime_HM_str s = Raise e -> e = ValueError.
Proof.
  unfold strptime_HM_str.
  repeat match goal with
    | |- context [match ?p with _ => _ end] => destruct p
    end; congruence.
Qed.

Lemma calculate_pay_null_raises (s : Shift) (rate : float) :
  truthy_bool (approved s) = true -> is_manual s = false ->
  actual_start s = Null \/ actual_end s = Null ->
  exists e, calculate_pay s rate = Raise e /\
    (has_key (planned_start s) = true -> has_key (planned_end s) = true ->
     e = TypeError \/ e = ValueError).
Proof.
  intros Ha Hm Hn. unfold calculate_pay. unfold is_manual in Hm. rewrite Ha, Hm.
  cbn [andb]. unfold get_shift_duration.
  destruct (planned_start s) as [| |ps]; cbn [subscript bind has_key];
    [eexists; split; [reflexivity|discriminate]| |];
    (destruct (planned_end s) as [| |pe]; cbn [subscript bind has_key];
     [eexists; split; [reflexivity|discriminate]| |]).
  all: destruct Hn as [Hn|Hn]; rewrite Hn; cbn [get_default strptime_HM bind]; eauto.
  all: destruct (actual_start s) as [| |x]; cbn [get_default strptime_HM bind]; eauto.
  all: match goal with
       | |- context [strptime_HM_str ?x] =>
           destruct (strptime_HM_str x) as [t|e] eqn:E; cbn [bind];
           [|apply strptime_HM_str_error in E; subst e]
       end; eauto.
Qed.

(** C10. For an approved regular shift the payroll falls back to the planned
    times only when the keys of the actual times are absent. When the actual
    start or the actual end is stored as null, computing the pay raises an
    exception (a TypeError or ValueError of the time parsing when the planned
    keys are there; so does the payroll loop on a counted shift) instead of
    using the planned times, and no reachable store holds such a record. *)
Theorem null_actual_times_are_no_fallback (s : Shift) (rate : float) :
  truthy_bool (approved s) = true -> is_manual s = false ->
  (actual_start s = Absent -> actual_end s = Absent ->
   calculate_pay s rate
   = (let* ps := subscript (planned_start s) in
      let* pe := subscript (planned_end s) in
      let* hours := get_shift_duration ps pe in
      Ok (Some (PrimFloat.mul hours rate)))) /\
  (actual_start s = Null \/ actual_end s = Null ->
   (exists e, calculate_pay s rate = Raise e /\
      (has_key (planned_start s) = true -> has_key (planned_end s) = true ->
       e = TypeError \/ e = ValueError)) /\
   (forall user start_date end_date acc,
      readable s -> counted user start_date end_date s = true ->
      exists e, payroll_step user rate start_date end_date s acc = Raise e) /\
   (forall shifts k, reachable shifts -> ~ In (k, s) shifts)).
Proof.
  intros Ha Hm. split.
  - intros Hs He. unfold calculate_pay. unfold is_manual in Hm.
    rewrite Ha, Hm, Hs, He. reflexivity.
  - intros Hn. split; [apply calculate_pay_null_raises; assumption|]. split.
    + intros user sd ed acc Hr Hc.
      destruct (payroll_guard user sd ed s Hr) as [ds [d [a [E1 [E2 [E3 E4]]]]]].
      destruct (calculate_pay_null_raises s rate Ha Hm Hn) as [e [He _]].
      exists e. unfold payroll_step. rewrite E1; cbn [subscript bind strptime_Ymd].
      rewrite E2; cbn [bind]. rewrite E3; cbn [bind].
      rewrite <- E4, Hc, He. reflexivity.
    + intros shifts k Hr Hin.
      destruct (proj2 (reachable_inv shifts Hr k s Hin) Ha) as [x [y [Hx Hy]]].
      destruct Hn; congruence.
Qed.

Lemma null_actual_times_are_no_fallback_witness :
  truthy_bool (approved approved_without_times) = true /\
  is_manual approved_without_times = false /\
  actual_start approved_without_times = Null /\
  (exists e, calculate_pay approved_without_times 20%float = Raise e /\
     (has_key (planned_start approved_without_times) = true ->
      has_key (planned_end approved_without_times) = true ->
      e = TypeError \/ e = ValueError)) /\
  calculate_pay approved_without_times 20%float = Raise TypeError.
Proof.
  split; [reflexivity|]. split; [reflexivity|]. split; [reflexivity|]. split.
  - exact (proj1 (proj2 (null_actual_times_are_no_fallback approved_without_times
                           20%float eq_refl eq_refl) (or_introl eq_refl))).
  - vm_compute. reflexivity.
Defined.

(** ** Shift-type selection *)

Lemma set_union_all_In (x : string) (sets : list (set string)) :
  In x (set_union_all sets) <-> exists a, In a sets /\ In x a.
Proof.
  destruct sets as [|a rest]; cbn [set_union_all].
  - split; [intros []|intros [a [[] _]]].
  - assert (G : forall l acc, In x (fold_left (set_union string_dec) l acc) <->
                              In x acc \/ exists b, In b l /\ In x b).
    { induction l as [|b l IH]; intros acc; cbn [fold_left].
      - split; [auto|]. intros [H|[b [[] _]]]. exact H.
      - rewrite IH, set_union_iff. split.
        + intros [[H|H]|[c [Hc Hx]]]; [auto|right; exists b; auto with datatypes|].
          right. exists c. auto with datatypes.
        + intros [H|[c [[<-|Hc] Hx]]]; [auto|auto|]. right. exists c. auto. }
    rewrite G. split.
    + intros [H|[b [Hb Hx]]]; [exists a; auto with datatypes|exists b; auto with datatypes].
    + intros [b [[<-|Hb] Hx]]; [auto|right; eauto].
Qed.

(** C1, the code at the failing input. emp1 (late, weekend_night) and emp5
    (morning, weekend_morning) have no shift type in common, yet the form
    offers the four types of the union, and a late shift for both of them is
    created. *)
Lemma union_offers_unshared_types :
  set_inter string_dec (allowed_of emp1) (allowed_of emp5) = [] /\
  (exists l,
     available_shift_types (employees_of sample_users) ["emp1"; "emp5"] = Ok l /\
     In "late" l /\ In "weekend_night" l /\ In "morning" l /\ In "weekend_morning" l) /\
  admin_manage_shifts sample_users [] joint_form
  = Ok (Created "shift_1", [("shift_1", new_shift "shift_1" "late" joint_form)]).
Proof.
  split; [vm_compute; reflexivity|]. split; [|vm_compute; reflexivity].
  eexists. split; [vm_compute; reflexivity|]. cbn. tauto.
Qed.

(** The offered types are the union of the employees' sets, for any
    selection. *)
Lemma available_is_union (employees : list (string * User)) (selected : list string)
    (sets : list (set string)) (ty : string) :
  selected <> [] ->
  allowed_shift_sets employees selected = Ok sets ->
  exists l, available_shift_types employees selected = Ok l /\
            (In ty l <-> exists a, In a sets /\ In ty a).
Proof.
  intros Hne Hs. unfold available_shift_types.
  destruct selected; [congruence|]. rewrite Hs; cbn [bind].
  eexists. split; [reflexivity|apply set_union_all_In].
Qed.

(** * Further properties of the code *)

(** ** Times of day *)

Lemma strptime_strftime_HM (h m : Z) :
  0 <= h <= 23 -> 0 <= m <= 59 ->
  strptime_HM_str (strftime_HM (mkTime h m)) = Ok (mkTime h m).
Proof.
  intros Hh Hm.
  assert (A : forallb (fun d =>
                match strptime_HM_str (strftime_HM (mkTime (d / 60) (d mod 60))) with
                | Ok t => (hour t =? d / 60) && (minute t =? d mod 60)
                | Raise _ => false
                end) (map Z.of_nat (seq 0 1440)) = true) by (vm_compute; reflexivity).
  rewrite forallb_forall in A.
  specialize (A (60 * h + m) (in_minutes_of_day (60 * h + m) ltac:(lia))). cbv beta in A.
  replace ((60 * h + m) / 60) with h in A by (apply Z.div_unique with m; lia).
  replace ((60 * h + m) mod 60) with m in A by (apply Z.mod_unique with h; lia).
  destruct (strptime_HM_str _) as [[h' m']|]; [|discriminate].
  cbn [hour minute] in A. apply andb_true_iff in A as [A1 A2].
  apply Z.eqb_eq in A1, A2. congruence.
Qed.

Lemma time_of_minutes_spec (x : Z) :
  0 <= hour (time_of_minutes x) <= 23 /\ 0 <= minute (time_of_minutes x) <= 59 /\
  minutes_of (time_of_minutes x) = x mod 1440.
Proof.
  unfold time_of_minutes, minutes_of; cbn [hour minute].
  pose proof (Z.mod_pos_bound x 1440 ltac:(lia)) as B.
  pose proof (Z.mod_pos_bound x 60 ltac:(lia)) as B'.
  assert (E : x mod 60 = (x mod 1440) mod 60).
  { rewrite (Z.div_mod x 1440) at 1 by lia.
    replace (1440 * (x / 1440) + x mod 1440)
      with (x mod 1440 + (24 * (x / 1440)) * 60) by lia.
    apply Z.mod_add. lia. }
  rewrite E.
  pose proof (Z.div_mod (x mod 1440) 60 ltac:(lia)) as D.
  split; [|split; [|lia]].
  - split; [apply Z.div_pos; lia|]. apply Z.lt_succ_r, Z.div_lt_upper_bound; lia.
  - pose proof (Z.mod_pos_bound (x mod 1440) 60 ltac:(lia)). lia.
Qed.

(** X1. The planned end that the creation form proposes is a well-formed
    HH:MM time; it lies the length of the shift type after the entered start
    (modulo 24 hours), so the proposed shift has the length of its type, but
    for a type whose start and end coincide (24 hours) [get_shift_duration]
    of the proposal is 0 seconds long. When a time cannot be read the
    proposal is the end of the shift type. *)
Theorem default_end_keeps_length (ds de ps : string) (tds tde tps : time_of_day) :
  strptime_HM_str ds = Ok tds -> strptime_HM_str de = Ok tde ->
  strptime_HM_str ps = Ok tps ->
  exists te,
    strptime_HM_str (default_planned_end ds de ps) = Ok te /\
    well_formed_HHMM (default_planned_end ds de ps) = true /\
    minutes_of te = (minutes_of tps + type_minutes tds tde) mod 1440 /\
    0 < type_minutes tds tde <= 1440 /\
    (type_minutes tds tde < 1440 ->
     duration_seconds tps te = 60 * type_minutes tds tde) /\
    (type_minutes tds tde = 1440 -> duration_seconds tps te = 0) /\
    (forall bad, is_ok (strptime_HM_str bad) = false ->
                 default_planned_end ds de bad = de).
Proof.
  intros Hds Hde Hps.
  set (te := time_of_minutes (minutes_of tps + type_minutes tds tde)).
  destruct (time_of_minutes_spec (minutes_of tps + type_minutes tds tde))
    as [Hh [Hm Hmin]]. fold te in Hh, Hm, Hmin.
  assert (E : default_planned_end ds de ps = strftime_HM te).
  { unfold default_planned_end. rewrite Hds, Hde, Hps. reflexivity. }
  assert (P : strptime_HM_str (strftime_HM te) = Ok te).
  { destruct te as [h m]. apply strptime_strftime_HM; assumption. }
  pose proof (minutes_of_range _ _ Hds) as Rds.
  pose proof (minutes_of_range _ _ Hde) as Rde.
  pose proof (minutes_of_range _ _ Hps) as Rps.
  assert (Rt : 0 < type_minutes tds tde <= 1440).
  { unfold type_minutes. destruct (minutes_of tde <=? minutes_of tds) eqn:C;
      [apply Z.leb_le in C|apply Z.leb_gt in C]; lia. }
  exists te. rewrite E. split; [exact P|]. split.
  { unfold well_formed_HHMM. rewrite P. apply String.eqb_refl. }
  split; [exact Hmin|]. split; [exact Rt|].
  assert (Rte : 0 <= minutes_of te < 1440) by (rewrite Hmin; apply Z.mod_pos_bound; lia).
  assert (Cases : (minutes_of tps + type_minutes tds tde < 1440 /\
                   minutes_of te = minutes_of tps + type_minutes tds tde) \/
                  (1440 <= minutes_of tps + type_minutes tds tde /\
                   minutes_of te = minutes_of tps + type_minutes tds tde - 1440)).
  { rewrite Hmin.
    destruct (Z_lt_ge_dec (minutes_of tps + type_minutes tds tde) 1440) as [L|G].
    - left. split; [exact L|]. apply Z.mod_small. lia.
    - right. split; [lia|]. symmetry.
      apply Z.mod_unique with 1; lia. }
  split; [|split].
  - intros Hlt. unfold duration_seconds.
    destruct Cases as [[_ C]|[_ C]]; rewrite C.
    + replace (_ <? _) with false by (symmetry; apply Z.ltb_ge; lia). lia.
    + replace (_ <? _) with true by (symmetry; apply Z.ltb_lt; lia). lia.
  - intros Heq. unfold duration_seconds.
    destruct Cases as [[C' C]|[_ C]]; [lia|]. rewrite C, Heq.
    replace (_ <? _) with false by (symmetry; apply Z.ltb_ge; lia). lia.
  - intros bad Hbad. unfold default_planned_end. rewrite Hds, Hde. cbn [bind].
    destruct (strptime_HM_str bad); [discriminate|reflexivity].
Qed.

Lemma default_end_keeps_length_witness :
  strptime_HM_str "22:00" = Ok (mkTime 22 0) /\
  strptime_HM_str "06:00" = Ok (mkTime 6 0) /\
  strptime_HM_str "23:30" = Ok (mkTime 23 30) /\
  default_planned_end "22:00" "06:00" "23:30" = "07:30" /\
  exists te, strptime_HM_str (default_planned_end "22:00" "06:00" "23:30") = Ok te /\
             duration_seconds (mkTime 23 30) te = 60 * 480.
Proof.
  split; [reflexivity|]. split; [reflexivity|]. split; [reflexivity|].
  split; [vm_compute; reflexivity|].
  destruct (default_end_keeps_length "22:00" "06:00" "23:30"
              (mkTime 22 0) (mkTime 6 0) (mkTime 23 30) eq_refl eq_refl eq_refl)
    as [te [H1 [_ [_ [_ [H2 _]]]]]].
  exists te. split; [exact H1|]. apply H2. vm_compute. reflexivity.
Defined.

Lemma hours_below_24 (d : Z) :
  0 <= d < 1440 ->
  PrimFloat.ltb (hours_of_seconds (60 * d)) 24%float = true /\
  PrimFloat.eqb (hours_of_seconds (60 * d)) 0%float = (d =? 0).
Proof.
  intros H.
  assert (A : forallb (fun d =>
                PrimFloat.ltb (hours_of_seconds (60 * d)) 24%float
                && Bool.eqb (PrimFloat.eqb (hours_of_seconds (60 * d)) 0%float) (d =? 0))
                (map Z.of_nat (seq 0 1440)) = true) by (vm_compute; reflexivity).
  rewrite forallb_forall in A.
  specialize (A d (in_minutes_of_day d H)). cbv beta in A.
  apply andb_true_iff in A as [A1 A2]. apply Bool.eqb_prop in A2. auto.
Qed.

(** X2. [get_shift_duration] returns a number exactly when both arguments
    are strings that can be read as times of day; the number is at least 0
    and below 24 hours, and it is 0 exactly when the two times are the same
    minute of the day. *)
Theorem duration_total_and_bounded (a b : option string) :
  (is_ok (get_shift_duration a b) = true <->
   exists s e, a = Some s /\ b = Some e /\
               is_ok (strptime_HM_str s) = true /\ is_ok (strptime_HM_str e) = true) /\
  (forall h, get_shift_duration a b = Ok h ->
             PrimFloat.leb 0%float h = true /\ PrimFloat.ltb h 24%float = true) /\
  (forall s e ts te h,
     a = Some s -> b = Some e ->
     strptime_HM_str s = Ok ts -> strptime_HM_str e = Ok te ->
     get_shift_duration a b = Ok h ->
     (PrimFloat.eqb h 0%float = true <-> minutes_of ts = minutes_of te)).
Proof.
  split; [|split].
  - unfold get_shift_duration. split.
    + destruct a as [s|]; [|discriminate]. destruct b as [e|];
        cbn [strptime_HM]; destruct (strptime_HM_str s) eqn:Es; cbn [bind]; try discriminate.
      destruct (strptime_HM_str e) eqn:Ee; cbn [bind]; try discriminate.
      intros _. exists s, e. rewrite Es, Ee. auto.
    + intros [s [e [-> [-> [Hs He]]]]]. cbn [strptime_HM].
      destruct (strptime_HM_str s); [|discriminate].
      destruct (strptime_HM_str e); [|discriminate]. reflexivity.
  - intros h H. unfold get_shift_duration in H.
    destruct a as [s|]; [|discriminate]. destruct b as [e|];
      cbn [strptime_HM] in H; destruct (strptime_HM_str s) as [ts|] eqn:Es;
      cbn [bind] in H; try discriminate.
    destruct (strptime_HM_str e) as [te|] eqn:Ee; cbn [bind] in H; try discriminate.
    injection H as <-.
    destruct (duration_seconds_range s e ts te Es Ee) as [d [-> Hd]].
    split; [apply hours_nonneg, Hd|apply hours_below_24, Hd].
  - intros s e ts te h -> -> Hs He H.
    rewrite (get_shift_duration_eq s e ts te Hs He) in H. injection H as <-.
    pose proof (minutes_of_range _ _ Hs) as Rs. pose proof (minutes_of_range _ _ He) as Re.
    unfold duration_seconds.
    destruct (minutes_of te <? minutes_of ts) eqn:C;
      [apply Z.ltb_lt in C|apply Z.ltb_ge in C].
    + rewrite (proj2 (hours_below_24 (minutes_of te + 1440 - minutes_of ts) ltac:(lia))).
      rewrite Z.eqb_eq. lia.
    + rewrite (proj2 (hours_below_24 (minutes_of te - minutes_of ts) ltac:(lia))).
      rewrite Z.eqb_eq. lia.
Qed.

Lemma duration_total_and_bounded_witness :
  get_shift_duration (Some "18:00") (Some "06:00") = Ok 12%float /\
  PrimFloat.leb 0%float 12%float = true /\ PrimFloat.ltb 12%float 24%float = true.
Proof.
  assert (E : get_shift_duration (Some "18:00") (Some "06:00") = Ok 12%float)
    by (vm_compute; reflexivity).
  split; [exact E|].
  exact (proj1 (proj2 (duration_total_and_bounded (Some "18:00") (Some "06:00"))) _ E).
Defined.

(** ** Dates *)

Lemma digit_of_digit_char (k : Z) :
  0 <= k <= 9 -> digit_of (digit_char k) = Some k.
Proof.
  intros H.
  assert (A : forallb (fun k => match digit_of (digit_char k) with
                                | Some x => x =? k
                                | None => false
                                end) (map Z.of_nat (seq 0 10)) = true)
    by (vm_compute; reflexivity).
  rewrite forallb_forall in A.
  assert (I : In k (map Z.of_nat (seq 0 10))).
  { apply in_map_iff. exists (Z.to_nat k). split; [lia|]. apply in_seq. lia. }
  specialize (A k I). cbv beta in A.
  destruct (digit_of (digit_char k)); [|discriminate].
  apply Z.eqb_eq in A. congruence.
Qed.

Lemma parse_Y_four_digits (y : Z) (rest : string) :
  0 <= y <= 9999 -> parse_Y (four_digits y ++ rest) = Some (y, rest).
Proof.
  intros H. unfold four_digits, two_digits. cbn [append]. unfold parse_Y.
  rewrite !digit_of_digit_char.
  - f_equal. f_equal.
    pose proof (Z.div_mod y 1000 ltac:(lia)).
    pose proof (Z.div_mod y 100 ltac:(lia)).
    pose proof (Z.div_mod (y / 100) 10 ltac:(lia)).
    pose proof (Z.div_mod (y mod 100) 10 ltac:(lia)).
    assert (y / 100 / 10 = y / 1000) by (rewrite Z.div_div by lia; reflexivity).
    lia.
  - pose proof (Z.mod_pos_bound (y mod 100) 10 ltac:(lia)). lia.
  - pose proof (Z.mod_pos_bound y 100 ltac:(lia)).
    split; [apply Z.div_pos; lia|]. apply Z.lt_succ_r, Z.div_lt_upper_bound; lia.
  - pose proof (Z.mod_pos_bound (y / 100) 10 ltac:(lia)). lia.
  - split; [apply Z.div_pos; lia|]. apply Z.lt_succ_r, Z.div_lt_upper_bound; lia.
Qed.

Lemma parse_m_two_digits (m : Z) (rest : string) :
  1 <= m <= 12 -> parse_m (two_digits m ++ rest) = Some (m, rest).
Proof.
  intros H.
  assert (A : Forall (fun m => forall rest, parse_m (two_digits m ++ rest) = Some (m, rest))
                (map Z.of_nat (seq 1 12))) by (repeat constructor).
  rewrite Forall_forall in A. apply A.
  apply in_map_iff. exists (Z.to_nat m). split; [lia|]. apply in_seq. lia.
Qed.

Lemma parse_d_two_digits (d : Z) :
  1 <= d <= 31 -> parse_d (two_digits d) = Some (d, EmptyString).
Proof.
  intros H.
  assert (A : forallb (fun d => match parse_d (two_digits d) with
                                | Some (x, EmptyString) => x =? d
                                | _ => false
                                end) (map Z.of_nat (seq 1 31)) = true)
    by (vm_compute; reflexivity).
  rewrite forallb_forall in A.
  assert (I : In d (map Z.of_nat (seq 1 31))).
  { apply in_map_iff. exists (Z.to_nat d). split; [lia|]. apply in_seq. lia. }
  specialize (A d I). cbv beta in A.
  destruct (parse_d (two_digits d)) as [[x [|c r]]|]; try discriminate.
  apply Z.eqb_eq in A. congruence.
Qed.

Lemma days_in_month_le_31 (y m : Z) : days_in_month y m <= 31.
Proof.
  unfold days_in_month.
  destruct (m =? 2); [destruct (is_leap y); lia|].
  destruct (_ || _); lia.
Qed.

Lemma read_back_date (d : calendar_date) :
  valid_date d = true -> 1000 <= year d ->
  strptime_Ymd_str (strftime_Ymd d) = Ok d.
Proof.
  intros Hv Hy. pose proof Hv as Hv'. unfold valid_date in Hv'.
  repeat (apply andb_true_iff in Hv' as [Hv' ?]).
  repeat match goal with H : (_ <=? _) = true |- _ => apply Z.leb_le in H end.
  pose proof (days_in_month_le_31 (year d) (month d)).
  unfold strptime_Ymd_str, strftime_Ymd.
  rewrite parse_Y_four_digits by lia. cbn [append].
  rewrite parse_m_two_digits by lia. cbn [append].
  rewrite parse_d_two_digits by lia.
  destruct d as [y m dd]; cbn [year month day] in *. rewrite Hv. reflexivity.
Qed.

(** X3. A date of a four-digit year that a form writes with
    [strftime('%Y-%m-%d')] is read back unchanged by the
    [strptime(_, '%Y-%m-%d')] of the payroll and of the downtime check: the
    date read from a created shift is the date of the creation form, and the
    date read from a manual entry is the date of its form. *)
Theorem written_dates_are_read_back (d : calendar_date) :
  valid_date d = true -> 1000 <= year d ->
  strptime_Ymd_str (strftime_Ymd d) = Ok d /\
  (forall new_shift_id ty f,
     shift_date f = d -> shift_date_of (new_shift new_shift_id ty f) = Some d) /\
  (forall manual_entry_id admin f,
     entry_date f = d ->
     shift_date_of (manual_entry manual_entry_id admin f) = Some d).
Proof.
  intros Hv Hy. pose proof (read_back_date d Hv Hy) as R.
  split; [exact R|]. split.
  - intros nid ty f <-. unfold shift_date_of, new_shift; cbn [date]. rewrite R. reflexivity.
  - intros mid adm f <-. unfold shift_date_of, manual_entry; cbn [date].
    rewrite R. reflexivity.
Qed.

Lemma written_dates_are_read_back_witness :
  valid_date march_5 = true /\ 1000 <= year march_5 /\
  strftime_Ymd march_5 = "2024-03-05" /\
  strptime_Ymd_str (strftime_Ymd march_5) = Ok march_5.
Proof.
  split; [reflexivity|]. split; [cbn; lia|]. split; [reflexivity|].
  apply (written_dates_are_read_back march_5); [reflexivity|cbn; lia].
Defined.

(** ** More on the downtime check *)

Lemma prior_end_blocks (shifts : store) (emp : string) (proposed x : datetime) :
  readable_for emp shifts ->
  prior_end shifts emp proposed x -> proposed < x + 720 ->
  downtime_violation shifts proposed emp = Ok true.
Proof.
  intros Hr P Hgap.
  destruct (downtime_violation_spec shifts emp proposed Hr) as [v [Ev Hv]].
  rewrite Ev. destruct v; [reflexivity|].
  destruct (proj1 Hv eq_refl) as [H|[l [_ [Hmax Hl]]]]; [destruct (H x P)|].
  specialize (Hmax x P). lia.
Qed.

(** X4. An existing shift of the employee that ends at or before the
    proposed start and less than 12 hours before it makes the employee a
    downtime violation, whatever else the store holds. *)
Theorem recent_shift_blocks (shifts : store) (emp : string) (proposed : datetime)
    (k : string) (s : Shift) (x : datetime) :
  readable_for emp shifts ->
  In (k, s) shifts -> assigned_to emp s = Ok true -> truthy_str (date s) = true ->
  shift_end_dt s = Ok x -> x <= proposed < x + 720 ->
  downtime_violation shifts proposed emp = Ok true.
Proof.
  intros Hr Hin Ha Hd Hx Hgap.
  apply (prior_end_blocks shifts emp proposed x Hr); [|lia].
  exists k, s. repeat split; try assumption. lia.
Qed.

Lemma recent_shift_blocks_witness :
  readable_for "emp1" [("shift_1", night_shift "pending")] /\
  downtime_violation [("shift_1", night_shift "pending")]
    (combine march_5 (mkTime 17 59)) "emp1" = Ok true.
Proof.
  assert (Hr : readable_for "emp1" [("shift_1", night_shift "pending")]).
  { intros k s [H|[]]. injection H as <- <-. split; [discriminate|].
    intros _ _. reflexivity. }
  split; [exact Hr|].
  apply (recent_shift_blocks _ "emp1" _ "shift_1" (night_shift "pending")
           (combine march_5 (mkTime 6 0)) Hr).
  - left. reflexivity.
  - reflexivity.
  - reflexivity.
  - vm_compute. reflexivity.
  - split; [apply Z.leb_le|apply Z.ltb_lt]; vm_compute; reflexivity.
Defined.

Lemma emp_shifts_of_app (emp : string) (l1 l2 : store) :
  emp_shifts_of emp (l1 ++ l2)%list
  = (let* a := emp_shifts_of emp l1 in
     let* b := emp_shifts_of emp l2 in
     Ok (a ++ b)%list).
Proof.
  induction l1 as [|[k s] l1 IH]; cbn [app emp_shifts_of bind].
  - destruct (emp_shifts_of emp l2); reflexivity.
  - destruct (assigned_to emp s) as [c|]; cbn [bind]; [|reflexivity].
    rewrite IH.
    destruct (emp_shifts_of emp l1); cbn [bind]; [|reflexivity].
    destruct (emp_shifts_of emp l2); cbn [bind]; [|reflexivity].
    destruct (c && truthy_str (date s)); reflexivity.
Qed.

Lemma latest_end_loop_skip (proposed : datetime) (s : Shift) (x : datetime)
    (a b : list Shift) :
  shift_end_dt s = Ok x -> proposed < x ->
  forall acc, latest_end_loop proposed (a ++ s :: b)%list acc
              = latest_end_loop proposed (a ++ b)%list acc.
Proof.
  intros Hx Hlt. induction a as [|s' a IH]; intros acc; cbn [app latest_end_loop].
  - rewrite Hx; cbn [bind].
    replace (x <=? proposed) with false by (symmetry; apply Z.leb_gt; exact Hlt).
    reflexivity.
  - destruct (shift_end_dt s'); cbn [bind]; [apply IH|reflexivity].
Qed.

(** X5. The downtime check looks backward only: a shift that ends after the
    proposed start (one that overlaps the proposal or lies after it), and a
    shift of another employee, can be added to or taken from the store
    without changing the result of the check. *)
Theorem later_shifts_are_ignored (l1 l2 : store) (k : string) (s : Shift)
    (emp : string) (proposed : datetime) :
  assigned_employees s <> Null ->
  (assigned_to emp s = Ok true -> truthy_str (date s) = true ->
   exists x, shift_end_dt s = Ok x /\ proposed < x) ->
  downtime_violation (l1 ++ (k, s) :: l2)%list proposed emp
  = downtime_violation (l1 ++ l2)%list proposed emp.
Proof.
  intros Hn Hlate. unfold downtime_violation.
  rewrite !emp_shifts_of_app. cbn [emp_shifts_of].
  destruct (assigned_to_ok emp s Hn) as [c Hc]. rewrite Hc; cbn [bind].
  destruct (emp_shifts_of emp l1) as [a|]; cbn [bind]; [|reflexivity].
  destruct (emp_shifts_of emp l2) as [b|]; cbn [bind]; [|reflexivity].
  destruct (c && truthy_str (date s)) eqn:E; [|reflexivity].
  apply andb_true_iff in E as [-> Hd].
  destruct (Hlate Hc Hd) as [x [Hx Hlt]].
  rewrite (latest_end_loop_skip proposed s x a b Hx Hlt). reflexivity.
Qed.

Lemma later_shifts_are_ignored_witness :
  assigned_employees late_shift <> Null /\
  shift_end_dt late_shift = Ok (combine march_5 (mkTime 22 0)) /\
  downtime_violation ([] ++ ("shift_1", late_shift) :: [])%list
    (combine march_5 (mkTime 14 0)) "emp1" = Ok false /\
  admin_manage_shifts sample_users [("shift_1", late_shift)] late_form
  = Ok (Created "shift_2",
        [("shift_1", late_shift); ("shift_2", new_shift "shift_2" "late" late_form)]).
Proof.
  split; [discriminate|]. split; [vm_compute; reflexivity|]. split.
  - rewrite (later_shifts_are_ignored [] [] "shift_1" late_shift "emp1"
               (combine march_5 (mkTime 14 0))).
    + reflexivity.
    + discriminate.
    + intros _ _. eexists. split; [vm_compute; reflexivity|]. vm_compute. reflexivity.
  - vm_compute. reflexivity.
Defined.

Lemma manual_entry_end (manual_entry_id admin : string) (f : ManualForm) :
  valid_date (entry_date f) = true -> 1000 <= year (entry_date f) ->
  shift_end_dt (manual_entry manual_entry_id admin f)
  = Ok (1440 * toordinal (entry_date f) + 1440).
Proof.
  intros Hv Hy. unfold shift_end_dt, manual_entry.
  cbn [date planned_start planned_end subscript bind get_default strptime_Ymd strptime_HM].
  rewrite (read_back_date _ Hv Hy); cbn [bind].
  change (strptime_HM_str "00:00") with (Ok (mkTime 0 0)). cbn [bind].
  unfold combine, minutes_of; cbn [hour minute].
  rewrite Z.leb_refl. f_equal. lia.
Qed.

(** X6. A manual payroll entry counts as a shift in the downtime check: it
    ends at midnight after its date, so a shift for the same user that is
    proposed to start in the 12 hours after that midnight is a downtime
    violation. *)
Theorem manual_entry_blocks_next_morning (shifts : store) (k manual_entry_id admin : string)
    (f : ManualForm) (proposed : datetime) :
  valid_date (entry_date f) = true -> 1000 <= year (entry_date f) ->
  readable_for (selected_user f) shifts ->
  In (k, manual_entry manual_entry_id admin f) shifts ->
  1440 * (toordinal (entry_date f) + 1) <= proposed
  < 1440 * (toordinal (entry_date f) + 1) + 720 ->
  downtime_violation shifts proposed (selected_user f) = Ok true.
Proof.
  intros Hv Hy Hr Hin Hgap.
  apply (prior_end_blocks shifts (selected_user f) proposed
           (1440 * toordinal (entry_date f) + 1440) Hr); [|lia].
  exists k, (manual_entry manual_entry_id admin f).
  split; [exact Hin|]. split; [|split; [|split]].
  - unfold assigned_to, manual_entry; cbn. rewrite String.eqb_refl. reflexivity.
  - unfold truthy_str, manual_entry; cbn [date].
    unfold strftime_Ymd, four_digits. cbn [append]. reflexivity.
  - apply manual_entry_end; assumption.
  - lia.
Qed.

Lemma manual_entry_blocks_next_morning_witness :
  valid_date (entry_date bonus_form) = true /\
  readable_for "emp1" [("m1", manual_entry "m1" "admin1" bonus_form)] /\
  downtime_violation [("m1", manual_entry "m1" "admin1" bonus_form)]
    (combine march_5 (mkTime 6 0)) "emp1" = Ok true.
Proof.
  assert (Hr : readable_for "emp1" [("m1", manual_entry "m1" "admin1" bonus_form)]).
  { intros k s [H|[]]. injection H as <- <-. split; [discriminate|].
    intros _ _. vm_compute. reflexivity. }
  split; [reflexivity|]. split; [exact Hr|].
  apply (manual_entry_blocks_next_morning _ "m1" "m1" "admin1" bonus_form).
  - reflexivity.
  - cbn; lia.
  - exact Hr.
  - left. reflexivity.
  - split; [apply Z.leb_le|apply Z.ltb_lt]; vm_compute; reflexivity.
Defined.

(** ** The store as a dict *)

Lemma dict_get_set_same {V : Type} (d : list (string * V)) (k : string) (v : V) :
  dict_get (dict_set d k v) k = Ok v.
Proof.
  induction d as [|[k0 v0] d IH]; cbn [dict_set dict_get].
  - rewrite String.eqb_refl. reflexivity.
  - destruct (String.eqb k0 k) eqn:E; cbn [dict_get].
    + rewrite String.eqb_refl. reflexivity.
    + rewrite E. exact IH.
Qed.

Lemma dict_get_set_other {V : Type} (d : list (string * V)) (k k' : string) (v : V) :
  k' <> k -> dict_get (dict_set d k v) k' = dict_get d k'.
Proof.
  intros Hne. induction d as [|[k0 v0] d IH]; cbn [dict_set dict_get].
  - destruct (String.eqb k k') eqn:E; [apply String.eqb_eq in E; congruence|reflexivity].
  - destruct (String.eqb k0 k) eqn:E; cbn [dict_get].
    + apply String.eqb_eq in E. subst k0.
      destruct (String.eqb k k') eqn:E'; [apply String.eqb_eq in E'; congruence|reflexivity].
    + destruct (String.eqb k0 k'); [reflexivity|exact IH].
Qed.

Lemma dict_set_fresh {V : Type} (d : list (string * V)) (k : string) (v : V) :
  dict_mem d k = false -> dict_set d k v = (d ++ [(k, v)])%list.
Proof.
  unfold dict_mem. induction d as [|[k0 v0] d IH]; cbn [existsb dict_set app fst];
    [reflexivity|].
  intros H. apply orb_false_iff in H as [H1 H2]. rewrite H1, (IH H2). reflexivity.
Qed.

Lemma dict_mem_In {V : Type} (d : list (string * V)) (k : string) (v : V) :
  In (k, v) d -> dict_mem d k = true.
Proof.
  intros H. unfold dict_mem. apply existsb_exists. exists (k, v).
  split; [exact H|apply String.eqb_refl].
Qed.

Lemma dict_set_keys {V : Type} (d : list (string * V)) (k : string) (v : V) :
  dict_mem d k = true -> map fst (dict_set d k v) = map fst d.
Proof.
  unfold dict_mem. induction d as [|[k0 v0] d IH]; cbn [existsb dict_set map fst];
    [discriminate|].
  destruct (String.eqb k0 k) eqn:E; cbn [orb map fst].
  - intros _. apply String.eqb_eq in E. congruence.
  - intros H. rewrite (IH H). reflexivity.
Qed.


(** ** What a created shift went through *)

Lemma downtime_violations_nil (shifts : store) (proposed : datetime) :
  forall selected,
    downtime_violations shifts proposed selected = Ok [] ->
    forall emp, In emp selected -> downtime_violation shifts proposed emp = Ok false.
Proof.
  induction selected as [|e rest IH]; intros H emp Hin; [destruct Hin|].
  cbn [downtime_violations] in H.
  destruct (downtime_violation shifts proposed e) as [v|] eqn:Ev; [|discriminate].
  cbn [bind] in H.
  destruct (downtime_violations shifts proposed rest) as [vs|]; [|discriminate].
  cbn [bind] in H. destruct v; [discriminate|]. injection H as ->.
  destruct Hin as [<-|Hin]; [exact Ev|apply IH; auto].
Qed.

Lemma selectbox_In (options : list string) (choice : string) :
  options <> [] -> In (selectbox options choice) options.
Proof.
  intros Hne. unfold selectbox, mem. destruct (existsb _ options) eqn:E.
  - apply existsb_exists in E as [x [Hx Heq]]. apply String.eqb_eq in Heq. congruence.
  - destruct options; [congruence|left; reflexivity].
Qed.

Lemma allowed_shift_sets_In (employees : list (string * User)) :
  forall selected sets,
    allowed_shift_sets employees selected = Ok sets ->
    forall a, In a sets ->
      exists emp user, In emp selected /\ dict_get employees emp = Ok user /\
                       a = allowed_of user.
Proof.
  induction selected as [|e rest IH]; intros sets H a Hin; cbn [allowed_shift_sets] in H.
  - injection H as <-. destruct Hin.
  - destruct (dict_get employees e) as [u|] eqn:Eu; cbn [bind] in H; [|discriminate].
    destruct (allowed_shift_sets employees rest) as [sets'|]; cbn [bind] in H; [|discriminate].
    injection H as <-. destruct Hin as [<-|Hin].
    + exists e, u. auto with datatypes.
    + destruct (IH sets' eq_refl a Hin) as [emp [user [H1 H2]]].
      exists emp, user. auto with datatypes.
Qed.

Lemma allowed_of_In (u : User) (ty : string) :
  In ty (allowed_of u) -> ty = primary_shift u \/ secondary_shift u = Val ty.
Proof.
  unfold allowed_of.
  destruct (truthy_str (secondary_shift u) && _);
    [destruct (secondary_shift u) as [| |sec]|]; intros H.
  1,2,4: apply set_add_iff in H as [H|[]]; left; exact H.
  apply set_add_iff in H as [H|H]; [right; congruence|].
  apply set_add_iff in H as [H|[]]. left. exact H.
Qed.

(** X7. A record is created only when every guard of the form has passed:
    the button was pressed, at least one employee is selected, both planned
    times can be read, and no selected employee is a downtime violation. Its
    key is shift_N with N one more than the number of stored records, it can
    be looked up under that key, every other key keeps its record, and its
    shift type is a catalog type that is the primary or the secondary type
    of at least one selected employee. *)
Theorem creation_only_when_guards_pass (users : user_store) (shifts : store)
    (f : CreateForm) (new_shift_id : string) (after : store) :
  admin_manage_shifts users shifts f = Ok (Created new_shift_id, after) ->
  new_shift_id = "shift_" ++ string_of_nat (List.length shifts + 1) /\
  create_clicked f = true /\ selected_employees f <> [] /\
  (exists pst pet,
     strptime_HM_str (planned_start_time f) = Ok pst /\
     strptime_HM_str (planned_end_time f) = Ok pet /\
     forall emp, In emp (selected_employees f) ->
       downtime_violation shifts (combine (shift_date f) pst) emp = Ok false) /\
  exists ty,
    after = dict_set shifts new_shift_id (new_shift new_shift_id ty f) /\
    dict_get after new_shift_id = Ok (new_shift new_shift_id ty f) /\
    (forall k, k <> new_shift_id -> dict_get after k = dict_get shifts k) /\
    is_ok (dict_get SHIFT_TYPES ty) = true /\
    exists emp user,
      In emp (selected_employees f) /\
      dict_get (employees_of users) emp = Ok user /\
      (ty = primary_shift user \/ secondary_shift user = Val ty).
Proof.
  unfold admin_manage_shifts.
  destruct (available_shift_types _ _) as [[|ty0 tys]|] eqn:Eav; cbn [bind];
    [discriminate| |discriminate].
  set (ty := selectbox (ty0 :: tys) (shift_type_choice f)).
  destruct (dict_get SHIFT_TYPES ty) eqn:Ety; cbn [bind]; [|discriminate].
  destruct (strptime_HM_str (planned_start_time f)) as [pst|] eqn:Eps; cbn [bind];
    [|discriminate].
  destruct (downtime_violations _ _ _) as [vs|] eqn:Evs; cbn [bind]; [|discriminate].
  destruct (create_clicked f) eqn:Ec; cbn [andb is_ok]; [|discriminate].
  destruct (strptime_HM_str (planned_end_time f)) as [pet|] eqn:Epe; cbn [is_ok];
    [|discriminate].
  destruct (selected_employees f) as [|e es] eqn:Esel; [discriminate|].
  destruct vs as [|v vs]; [|discriminate].
  intros [= <- <-].
  split; [reflexivity|]. split; [reflexivity|]. split; [discriminate|]. split.
  - exists pst, pet. split; [reflexivity|]. split; [reflexivity|].
    apply downtime_violations_nil, Evs.
  - exists ty. split; [reflexivity|]. split; [apply dict_get_set_same|].
    split; [intros k Hk; apply dict_get_set_other, Hk|].
    split; [rewrite Ety; reflexivity|].
    unfold available_shift_types in Eav.
    destruct (allowed_shift_sets (employees_of users) (e :: es)) as [sets|] eqn:Esets;
      cbn [bind] in Eav; [|discriminate].
    injection Eav as Eav.
    assert (Hty : In ty (set_union_all sets))
      by (rewrite Eav; apply selectbox_In; discriminate).
    apply set_union_all_In in Hty as [aset [Ha Hin]].
    destruct (allowed_shift_sets_In _ _ _ Esets aset Ha) as [emp [user [H1 [H2 ->]]]].
    exists emp, user. split; [exact H1|]. split; [exact H2|]. apply allowed_of_In, Hin.
Qed.

Lemma creation_only_when_guards_pass_witness :
  admin_manage_shifts sample_users [] approved_form
  = Ok (Created "shift_1", [("shift_1", new_shift "shift_1" "late" approved_form)]) /\
  create_clicked approved_form = true /\
  exists ty, dict_get [("shift_1", new_shift "shift_1" "late" approved_form)] "shift_1"
             = Ok (new_shift "shift_1" ty approved_form).
Proof.
  assert (E : admin_manage_shifts sample_users [] approved_form
              = Ok (Created "shift_1",
                    [("shift_1", new_shift "shift_1" "late" approved_form)]))
    by (vm_compute; reflexivity).
  split; [exact E|].
  destruct (creation_only_when_guards_pass _ _ _ _ _ E)
    as [_ [Hc [_ [_ [ty [_ [Hget _]]]]]]].
  split; [exact Hc|]. exists ty. exact Hget.
Defined.

(** ** Payroll after a write *)

Lemma payroll_loop_app (user : string) (rate : float)
    (start_date end_date : calendar_date) (l1 l2 : store) :
  forall acc,
    payroll_loop user rate start_date end_date (l1 ++ l2)%list acc
    = (let* acc' := payroll_loop user rate start_date end_date l1 acc in
       payroll_loop user rate start_date end_date l2 acc').
Proof.
  induction l1 as [|[k s] l1 IH]; intros acc; cbn [app payroll_loop bind]; [reflexivity|].
  destruct (payroll_step user rate start_date end_date s acc); cbn [bind];
    [apply IH|reflexivity].
Qed.

Lemma created_inversion (users : user_store) (shifts : store) (f : CreateForm)
    (new_shift_id : string) (after : store) :
  admin_manage_shifts users shifts f = Ok (Created new_shift_id, after) ->
  exists ty pst pet,
    after = dict_set shifts new_shift_id (new_shift new_shift_id ty f) /\
    is_ok (dict_get SHIFT_TYPES ty) = true /\
    strptime_HM_str (planned_start_time f) = Ok pst /\
    strptime_HM_str (planned_end_time f) = Ok pet.
Proof.
  unfold admin_manage_shifts.
  destruct (available_shift_types _ _) as [[|ty0 tys]|]; cbn [bind];
    [discriminate| |discriminate].
  set (ty := selectbox (ty0 :: tys) (shift_type_choice f)).
  destruct (dict_get SHIFT_TYPES ty) eqn:Ety; cbn [bind]; [|discriminate].
  destruct (strptime_HM_str (planned_start_time f)) as [pst|]; cbn [bind]; [|discriminate].
  destruct (downtime_violations _ _ _) as [vs|]; cbn [bind]; [|discriminate].
  destruct (create_clicked f); cbn [andb is_ok]; [|discriminate].
  destruct (strptime_HM_str (planned_end_time f)) as [pet|]; cbn [is_ok]; [|discriminate].
  destruct (selected_employees f); [discriminate|].
  destruct vs; [|discriminate].
  intros [= <- <-]. exists ty, pst, pet. rewrite Ety. auto.
Qed.

Lemma catalog_type_is_regular (ty : string) :
  is_ok (dict_get SHIFT_TYPES ty) = true -> String.eqb ty "manual_payroll" = false.
Proof.
  intros H. destruct (String.eqb ty "manual_payroll") eqn:E; [|reflexivity].
  apply String.eqb_eq in E. subst ty. vm_compute in H. discriminate.
Qed.

(** X8. A created shift and the payroll. When the key of the new record is
    not in the store yet, the payroll of a user after the creation is the
    payroll before it if the user is not among the assigned employees, the
    initial status is not approved or the date is outside the range;
    otherwise it is the payroll before plus one line item: the hours
    between the planned times are added to the total hours and the hours
    times the rate to the total pay. *)
Theorem created_shift_in_payroll (users : user_store) (shifts : store)
    (f : CreateForm) (new_shift_id : string) (after : store)
    (user : string) (rate : float) (start_date_str end_date_str : string)
    (start_date end_date : calendar_date) (t : Totals) :
  admin_manage_shifts users shifts f = Ok (Created new_shift_id, after) ->
  dict_mem shifts new_shift_id = false ->
  valid_date (shift_date f) = true -> 1000 <= year (shift_date f) ->
  strptime_Ymd_str start_date_str = Ok start_date ->
  strptime_Ymd_str end_date_str = Ok end_date ->
  calculate_payroll_for_user shifts user rate start_date_str end_date_str = Ok t ->
  (mem user (selected_employees f)
   && String.eqb (initial_shift_status f) "approved"
   && date_leb start_date (shift_date f) && date_leb (shift_date f) end_date = false ->
   calculate_payroll_for_user after user rate start_date_str end_date_str = Ok t) /\
  (mem user (selected_employees f)
   && String.eqb (initial_shift_status f) "approved"
   && date_leb start_date (shift_date f) && date_leb (shift_date f) end_date = true ->
   exists h it,
     get_shift_duration (Some (planned_start_time f)) (Some (planned_end_time f)) = Ok h /\
     calculate_payroll_for_user after user rate start_date_str end_date_str
     = Ok (mkTotals (PrimFloat.add (total_hours t) h)
                    (PrimFloat.add (total_pay t) (PrimFloat.mul h rate))
                    (detailed_shifts t ++ [it])) /\
     li_hours it = Some h /\ li_pay it = PrimFloat.mul h rate).
Proof.
  intros Hc Hfresh Hv Hy Hs He Hpay.
  destruct (created_inversion _ _ _ _ _ Hc) as [ty [pst [pet [-> [Hty [Hps Hpe]]]]]].
  rewrite (dict_set_fresh _ _ _ Hfresh).
  unfold calculate_payroll_for_user in *. rewrite Hs, He in *; cbn [bind] in *.
  rewrite payroll_loop_app, Hpay; cbn [bind payroll_loop].
  set (s := new_shift new_shift_id ty f).
  assert (Hr : readable s).
  { split; [|discriminate]. unfold s, shift_date_of, new_shift; cbn [date].
    rewrite (read_back_date _ Hv Hy). discriminate. }
  assert (Hcnt : counted user start_date end_date s
                 = mem user (selected_employees f)
                   && String.eqb (initial_shift_status f) "approved"
                   && date_leb start_date (shift_date f)
                   && date_leb (shift_date f) end_date).
  { unfold counted, s, shift_date_of, new_shift; cbn [date assigned_employees approved].
    rewrite (read_back_date _ Hv Hy).
    destruct (String.eqb (initial_shift_status f) "approved"); reflexivity. }
  split; intros Hcase; rewrite <- Hcnt in Hcase.
  - rewrite (payroll_step_skip user rate start_date end_date s t Hr Hcase). reflexivity.
  - destruct (get_shift_duration (Some (planned_start_time f)) (Some (planned_end_time f)))
      as [h|] eqn:Eh.
    2:{ unfold get_shift_duration in Eh; cbn [strptime_HM] in Eh.
        rewrite Hps, Hpe in Eh. discriminate. }
    assert (Happ : String.eqb (initial_shift_status f) "approved" = true).
    { rewrite Hcnt in Hcase. repeat (apply andb_true_iff in Hcase as [Hcase ?]).
      assumption. }
    assert (Hen : entry rate s = Some (h, PrimFloat.mul h rate)).
    { unfold entry, is_manual, worked_start, worked_end, s, new_shift;
        cbn [shift_type field_is planned_start planned_end has_key andb
             actual_start actual_end get].
      rewrite (catalog_type_is_regular ty Hty), Happ. cbn [get]. rewrite Eh. reflexivity. }
    destruct (payroll_step_count user rate start_date end_date s t h _ Hr Hcase Hen)
      as [it [Est [Hp [_ Hh]]]].
    exists h, it. rewrite Est; cbn [bind]. split; [reflexivity|]. split; [reflexivity|].
    split; [|exact Hp]. apply Hh.
    unfold is_manual, s, new_shift; cbn [shift_type field_is].
    apply (catalog_type_is_regular ty Hty).
Qed.

Lemma created_shift_in_payroll_witness :
  admin_manage_shifts sample_users [] approved_form
  = Ok (Created "shift_1", [("shift_1", new_shift "shift_1" "late" approved_form)]) /\
  calculate_payroll_for_user [] "emp1" 20%float "2024-03-01" "2024-03-31"
  = Ok (mkTotals 0%float 0%float []) /\
  exists h it,
    get_shift_duration (Some "14:00") (Some "22:00") = Ok h /\
    calculate_payroll_for_user [("shift_1", new_shift "shift_1" "late" approved_form)]
      "emp1" 20%float "2024-03-01" "2024-03-31"
    = Ok (mkTotals (PrimFloat.add 0%float h)
                   (PrimFloat.add 0%float (PrimFloat.mul h 20%float)) [it]).
Proof.
  assert (E : admin_manage_shifts sample_users [] approved_form
              = Ok (Created "shift_1",
                    [("shift_1", new_shift "shift_1" "late" approved_form)]))
    by (vm_compute; reflexivity).
  split; [exact E|]. split; [reflexivity|].
  destruct (created_shift_in_payroll sample_users [] approved_form "shift_1" _
              "emp1" 20%float "2024-03-01" "2024-03-31" (fst march) (snd march)
              (mkTotals 0%float 0%float []) E eq_refl eq_refl
              ltac:(cbn; lia) eq_refl eq_refl eq_refl) as [_ H].
  destruct (H eq_refl) as [h [it [H1 [H2 _]]]].
  exists h, it. split; [exact H1|exact H2].
Defined.

(** X9. A manual payroll entry is stored exactly when the form is submitted
    with a user, a description and an amount other than 0; otherwise the
    store stays as it was. When it is stored under a key that is not in the
    store yet, the payroll of the selected user over a range that holds the
    entry date is the payroll before plus one line item that adds 0 hours
    and the amount; the payroll of any other user, or over another range, is
    unchanged. *)
Theorem manual_entry_in_payroll (shifts : store) (manual_entry_id admin : string)
    (f : ManualForm) (b : bool) (after : store) :
  manual_add_payroll_entry shifts manual_entry_id admin f = (b, after) ->
  (b = true <->
   payroll_submitted f = true /\ selected_user f <> "" /\
   entry_description f <> "" /\ PrimFloat.eqb (amount f) 0%float = false) /\
  (b = false -> after = shifts) /\
  (b = true ->
   dict_mem shifts manual_entry_id = false ->
   valid_date (entry_date f) = true -> 1000 <= year (entry_date f) ->
   forall user rate start_date_str end_date_str start_date end_date t,
     strptime_Ymd_str start_date_str = Ok start_date ->
     strptime_Ymd_str end_date_str = Ok end_date ->
     calculate_payroll_for_user shifts user rate start_date_str end_date_str = Ok t ->
     (String.eqb user (selected_user f)
      && date_leb start_date (entry_date f) && date_leb (entry_date f) end_date = false ->
      calculate_payroll_for_user after user rate start_date_str end_date_str = Ok t) /\
     (String.eqb user (selected_user f)
      && date_leb start_date (entry_date f) && date_leb (entry_date f) end_date = true ->
      exists it,
        calculate_payroll_for_user after user rate start_date_str end_date_str
        = Ok (mkTotals (PrimFloat.add (total_hours t) 0%float)
                       (PrimFloat.add (total_pay t) (amount f))
                       (detailed_shifts t ++ [it])) /\
        manual_item (manual_entry manual_entry_id admin f) it)).
Proof.
  unfold manual_add_payroll_entry. intros H.
  assert (Refused : forall P : Prop,
            (payroll_submitted f = true /\ selected_user f <> "" /\
             entry_description f <> "" /\ PrimFloat.eqb (amount f) 0%float = false ->
             False) ->
            (false = true <->
             payroll_submitted f = true /\ selected_user f <> "" /\
             entry_description f <> "" /\ PrimFloat.eqb (amount f) 0%float = false) /\
            (false = false -> shifts = shifts) /\ (false = true -> P)).
  { intros P HF. split; [split; [discriminate|intros HH; destruct (HF HH)]|].
    split; [reflexivity|discriminate]. }
  destruct (payroll_submitted f) eqn:Es.
  2:{ injection H as <- <-. apply Refused. intros [? _]. discriminate. }
  destruct (String.eqb (selected_user f) "") eqn:Eu; cbn [orb] in H.
  { injection H as <- <-. apply String.eqb_eq in Eu. apply Refused.
    intros [_ [? _]]. congruence. }
  destruct (String.eqb (entry_description f) "") eqn:Ed.
  { injection H as <- <-. apply String.eqb_eq in Ed. apply Refused.
    intros [_ [_ [? _]]]. congruence. }
  apply String.eqb_neq in Eu, Ed.
  destruct (PrimFloat.eqb (amount f) 0%float) eqn:Ea; injection H as <- <-.
  { apply Refused. intros [_ [_ [_ ?]]]. discriminate. }
  clear Refused.
  split; [split; auto|]. split; [discriminate|].
  intros _ Hfresh Hv Hy user rate sds eds sd ed t Hs He Hpay.
  rewrite (dict_set_fresh _ _ _ Hfresh).
  unfold calculate_payroll_for_user in *. rewrite Hs, He in *; cbn [bind] in *.
  rewrite payroll_loop_app, Hpay; cbn [bind payroll_loop].
  set (s := manual_entry manual_entry_id admin f).
  assert (Hr : readable s).
  { split; [|discriminate]. unfold s, shift_date_of, manual_entry; cbn [date].
    rewrite (read_back_date _ Hv Hy). discriminate. }
  assert (Hcnt : counted user sd ed s
                 = String.eqb user (selected_user f)
                   && date_leb sd (entry_date f) && date_leb (entry_date f) ed).
  { unfold counted, s, shift_date_of, manual_entry;
      cbn [date assigned_employees approved truthy_bool mem existsb].
    rewrite (read_back_date _ Hv Hy). rewrite orb_false_r, andb_true_r. reflexivity. }
  split; intros Hcase; rewrite <- Hcnt in Hcase.
  - rewrite (payroll_step_skip user rate sd ed s t Hr Hcase). reflexivity.
  - destruct (payroll_step_count user rate sd ed s t 0%float (amount f) Hr Hcase eq_refl)
      as [it [Est [Hp [Hm _]]]].
    exists it. rewrite Est; cbn [bind]. split; [reflexivity|].
    unfold manual_item. split; [cbn [s manual_entry manual_amount]; congruence|].
    apply Hm. reflexivity.
Qed.

Lemma manual_entry_in_payroll_witness :
  manual_add_payroll_entry [] "m1" "admin1" bonus_form
  = (true, [("m1", manual_entry "m1" "admin1" bonus_form)]) /\
  exists it,
    calculate_payroll_for_user [("m1", manual_entry "m1" "admin1" bonus_form)]
      "emp1" 20%float "2024-03-01" "2024-03-31"
    = Ok (mkTotals (PrimFloat.add 0%float 0%float) (PrimFloat.add 0%float 150%float) [it]).
Proof.
  assert (E : manual_add_payroll_entry [] "m1" "admin1" bonus_form
              = (true, [("m1", manual_entry "m1" "admin1" bonus_form)]))
    by (vm_compute; reflexivity).
  split; [exact E|].
  destruct (manual_entry_in_payroll _ _ _ _ _ _ E) as [_ [_ H]].
  destruct (H eq_refl eq_refl eq_refl ltac:(cbn; lia)
              "emp1" 20%float "2024-03-01" "2024-03-31" (fst march) (snd march)
              (mkTotals 0%float 0%float []) eq_refl eq_refl eq_refl) as [_ H'].
  destruct (H' eq_refl) as [it [Hit _]]. exists it. exact Hit.
Defined.

Lemma payroll_step_unreadable (user : string) (rate : float)
    (start_date end_date : calendar_date) (s : Shift) (acc : Totals) :
  shift_date_of s = None ->
  is_ok (payroll_step user rate start_date end_date s acc) = false.
Proof.
  unfold shift_date_of, payroll_step.
  destruct (date s) as [| |ds]; cbn [subscript bind strptime_Ymd]; try reflexivity.
  destruct (strptime_Ymd_str ds); [discriminate|reflexivity].
Qed.

Lemma payroll_loop_unreadable (user : string) (rate : float)
    (start_date end_date : calendar_date) (k : string) (s : Shift) (shifts : store) :
  In (k, s) shifts -> shift_date_of s = None ->
  forall acc, is_ok (payroll_loop user rate start_date end_date shifts acc) = false.
Proof.
  intros Hin Hd. induction shifts as [|[k' s'] rest IH]; [destruct Hin|].
  intros acc. cbn [payroll_loop].
  destruct Hin as [H|Hin].
  - injection H as -> ->.
    pose proof (payroll_step_unreadable user rate start_date end_date s acc Hd) as E.
    destruct (payroll_step user rate start_date end_date s acc); [discriminate|reflexivity].
  - destruct (payroll_step user rate start_date end_date s' acc); cbn [bind];
      [apply IH, Hin|reflexivity].
Qed.

(** X10. One stored record whose date is missing, null or not a date makes
    the payroll computation fail with an exception for every user and every
    date range, also when the record belongs to somebody else. *)
Theorem unreadable_record_breaks_payroll (shifts : store) (k : string) (s : Shift)
    (user : string) (rate : float) (start_date_str end_date_str : string) :
  In (k, s) shifts -> shift_date_of s = None ->
  is_ok (calculate_payroll_for_user shifts user rate start_date_str end_date_str) = false.
Proof.
  intros Hin Hd. unfold calculate_payroll_for_user.
  destruct (strptime_Ymd_str start_date_str); cbn [bind]; [|reflexivity].
  destruct (strptime_Ymd_str end_date_str); cbn [bind]; [|reflexivity].
  eapply payroll_loop_unreadable; eassumption.
Qed.

Lemma unreadable_record_breaks_payroll_witness :
  In ("shift_9", undated_shift) [("shift_2", approved_night); ("shift_9", undated_shift)] /\
  shift_date_of undated_shift = None /\
  calculate_payroll_for_user [("shift_2", approved_night)]
    "emp1" 20%float "2024-03-01" "2024-03-31"
  = Ok (mkTotals 8%float 160%float
          [mkLineItem (Some "2024-03-04") "Night" (Some "22:00") (Some "06:00")
             (Some "22:00") (Some "06:00") (Some 8%float) 160%float
             (Some "Regular Shift")]) /\
  is_ok (calculate_payroll_for_user
           [("shift_2", approved_night); ("shift_9", undated_shift)]
           "emp1" 20%float "2024-03-01" "2024-03-31") = false.
Proof.
  split; [right; left; reflexivity|]. split; [reflexivity|].
  split; [vm_compute; reflexivity|].
  apply (unreadable_record_breaks_payroll _ "shift_9" undated_shift);
    [right; left; reflexivity|reflexivity].
Defined.

Lemma payroll_loop_nothing_counted (user : string) (rate : float)
    (start_date end_date : calendar_date) (shifts : store) :
  (forall k s, In (k, s) shifts ->
     readable s /\ counted user start_date end_date s = false) ->
  forall acc, payroll_loop user rate start_date end_date shifts acc = Ok acc.
Proof.
  induction shifts as [|[k s] rest IH]; intros H acc; [reflexivity|].
  cbn [payroll_loop]. destruct (H k s (or_introl eq_refl)) as [Hr Hc].
  rewrite (payroll_step_skip user rate start_date end_date s acc Hr Hc); cbn [bind].
  apply IH. intros k' s' Hin. apply (H k' s'). right. exact Hin.
Qed.

(** X11. When every stored record can be read, the payroll over a range
    whose end date lies before its start date, and the payroll of a user who
    is assigned to no shift, is 0 hours, 0 pay and no line item. *)
Theorem empty_selection_pays_nothing (shifts : store) (user : string) (rate : float)
    (start_date_str end_date_str : string) (start_date end_date : calendar_date) :
  strptime_Ymd_str start_date_str = Ok start_date ->
  strptime_Ymd_str end_date_str = Ok end_date ->
  (forall k s, In (k, s) shifts -> readable s) ->
  toordinal end_date < toordinal start_date \/
  (forall k s, In (k, s) shifts -> assigned_to user s = Ok false) ->
  calculate_payroll_for_user shifts user rate start_date_str end_date_str
  = Ok (mkTotals 0%float 0%float []).
Proof.
  intros Hs He Hr Hcase. unfold calculate_payroll_for_user.
  rewrite Hs, He; cbn [bind]. apply payroll_loop_nothing_counted.
  intros k s Hin. split; [apply (Hr k s Hin)|].
  destruct (payroll_guard user start_date end_date s (Hr k s Hin))
    as [ds [d [a [_ [_ [Ea ->]]]]]].
  destruct Hcase as [Hlt|Hna].
  - destruct (date_leb start_date d) eqn:E1; [|rewrite andb_false_r; reflexivity].
    destruct (date_leb d end_date) eqn:E2; [|rewrite andb_false_r; reflexivity].
    unfold date_leb in E1, E2. apply Z.leb_le in E1, E2. lia.
  - rewrite (Hna k s Hin) in Ea. injection Ea as <-. reflexivity.
Qed.

Lemma empty_selection_pays_nothing_witness :
  (forall k s, In (k, s) [("shift_2", approved_night)] -> readable s) /\
  toordinal (fst march) < toordinal (snd march) /\
  calculate_payroll_for_user [("shift_2", approved_night)]
    "emp1" 20%float "2024-03-31" "2024-03-01"
  = Ok (mkTotals 0%float 0%float []).
Proof.
  assert (Hr : forall k s, In (k, s) [("shift_2", approved_night)] -> readable s).
  { intros k s [H|[]]. injection H as <- <-. split; vm_compute; discriminate. }
  split; [exact Hr|]. split; [vm_compute; reflexivity|].
  apply (empty_selection_pays_nothing _ "emp1" 20%float "2024-03-31" "2024-03-01"
           (snd march) (fst march) eq_refl eq_refl Hr).
  left. vm_compute. reflexivity.
Defined.

(** ** The life of a shift: pending, accepted, declined, approved *)

Lemma approve_loop_cases (shifts : store) (clicked : string) (a : approval) :
  forall pending o after,
    approve_loop shifts pending clicked a = Ok (o, after) ->
    (o <> Approved /\ after = shifts) \/
    (o = Approved /\
     exists s ps pe,
       In (clicked, s) pending /\ render_shift s = Ok (ps, pe) /\
       match a with
       | FullApproval =>
           after = dict_set shifts clicked (approve_record s ps pe)
       | PartialApproval x y =>
           is_ok (strptime_HM_str x) = true /\ is_ok (strptime_HM_str y) = true /\
           after = dict_set shifts clicked (approve_record s (Some x) (Some y))
       end).
Proof.
  induction pending as [|[k s] rest IH]; intros o after; cbn [approve_loop].
  - intros [= <- <-]. left. split; [discriminate|reflexivity].
  - destruct (render_shift s) as [[ps pe]|] eqn:Er; cbn [bind]; [|discriminate].
    destruct (String.eqb k clicked) eqn:Ek.
    + apply String.eqb_eq in Ek. subst k.
      destruct a as [|x y]; cbn [fst snd].
      * intros [= <- <-]. right. split; [reflexivity|].
        exists s, ps, pe. auto with datatypes.
      * destruct (is_ok (strptime_HM_str x) && is_ok (strptime_HM_str y)) eqn:Ev;
          intros [= <- <-]; [right|left; split; [discriminate|reflexivity]].
        apply andb_true_iff in Ev as [Ev1 Ev2]. split; [reflexivity|].
        exists s, ps, pe. auto with datatypes.
    + intros H. destruct (IH o after H) as [E|[Eo [s' [ps' [pe' [Hin E]]]]]];
        [left; exact E|].
      right. split; [exact Eo|]. exists s', ps', pe'. split; [right; exact Hin|exact E].
Qed.

Lemma approve_without_button (shifts : store) (clicked : string) (a : approval) :
  (forall s, In (clicked, s) shifts -> awaits_approval s = false) ->
  store_after shifts (admin_approve_shifts shifts clicked a) = shifts /\
  forall after, admin_approve_shifts shifts clicked a <> Ok (Approved, after).
Proof.
  intros Hno. unfold admin_approve_shifts.
  destruct (approve_loop _ _ _ _) as [[o after]|] eqn:E; cbn [store_after];
    [|split; [reflexivity|discriminate]].
  apply approve_loop_cases in E as [[Hne ->]|[_ [s [ps [pe [Hin _]]]]]].
  - split; [reflexivity|]. intros after' [= Ho _]. congruence.
  - apply filter_In in Hin as [Hin Haw]. cbn [snd] in Haw.
    rewrite (Hno s Hin) in Haw. discriminate.
Qed.

(** X12. An approval changes nothing and approves nothing when the clicked
    key holds no record that awaits approval (a declined record, one that is
    approved already, a manual payroll entry, an unknown key), and when a
    partial approval gives an actual time that cannot be read. *)
Theorem approval_refused (shifts : store) (clicked : string) (a : approval) :
  (forall s, In (clicked, s) shifts -> awaits_approval s = false) \/
  (exists x y, a = PartialApproval x y /\
               is_ok (strptime_HM_str x) && is_ok (strptime_HM_str y) = false) ->
  store_after shifts (admin_approve_shifts shifts clicked a) = shifts /\
  forall after, admin_approve_shifts shifts clicked a <> Ok (Approved, after).
Proof.
  intros [Hno|[x [y [-> Hbad]]]]; [apply approve_without_button, Hno|].
  unfold admin_approve_shifts.
  destruct (approve_loop _ _ _ _) as [[o after]|] eqn:E; cbn [store_after];
    [|split; [reflexivity|discriminate]].
  apply approve_loop_cases in E as [[Hne ->]|[_ [s [ps [pe [_ [_ [V1 [V2 _]]]]]]]]].
  - split; [reflexivity|]. intros after' [= Ho _]. congruence.
  - rewrite V1, V2 in Hbad. discriminate.
Qed.

Lemma approval_refused_witness :
  (forall s, In ("shift_1", s) [("shift_1", night_shift "declined")] ->
             awaits_approval s = false) /\
  admin_approve_shifts [("shift_1", night_shift "declined")] "shift_1" FullApproval
  = Ok (NoButton, [("shift_1", night_shift "declined")]) /\
  store_after [("shift_1", night_shift "declined")]
    (admin_approve_shifts [("shift_1", night_shift "declined")] "shift_1" FullApproval)
  = [("shift_1", night_shift "declined")].
Proof.
  assert (H : forall s, In ("shift_1", s) [("shift_1", night_shift "declined")] ->
                        awaits_approval s = false).
  { intros s [E|[]]. injection E as <-. reflexivity. }
  split; [exact H|]. split; [vm_compute; reflexivity|].
  exact (proj1 (approval_refused _ "shift_1" FullApproval (or_introl H))).
Defined.

Lemma user_shifts_of_spec (user : string) (shifts : store) :
  forall l, user_shifts_of user shifts = Ok l ->
    forall k s, In (k, s) l -> In (k, s) shifts /\ assigned_to user s = Ok true.
Proof.
  induction shifts as [|[k0 s0] rest IH]; intros l; cbn [user_shifts_of].
  - intros [= <-] k s [].
  - destruct (assigned_to user s0) as [b|] eqn:Ea; cbn [bind]; [|discriminate].
    destruct (user_shifts_of user rest) as [l'|]; cbn [bind]; [|discriminate].
    specialize (IH l' eq_refl).
    intros [= <-] k s Hin. destruct b.
    + destruct Hin as [H|Hin]; [injection H as <- <-; auto with datatypes|].
      destruct (IH k s Hin). auto with datatypes.
    + destruct (IH k s Hin). auto with datatypes.
Qed.

Lemma respond_without_button (shifts : store) (user clicked : string) (r : response) :
  (forall s, In (clicked, s) shifts ->
             is_pending s = false \/ assigned_to user s <> Ok true) ->
  store_after shifts (employee_shifts shifts user clicked r) = shifts /\
  forall after, employee_shifts shifts user clicked r <> Ok (true, after).
Proof.
  intros Hno. unfold employee_shifts.
  destruct (user_shifts_of user shifts) as [l|] eqn:El; cbn [bind store_after];
    [|split; [reflexivity|discriminate]].
  destruct (respond_loop _ _ _ _) as [[b after]|] eqn:E; cbn [store_after];
    [|split; [reflexivity|discriminate]].
  apply respond_loop_result in E as [[-> ->]|[s [Hin _]]].
  - split; [reflexivity|discriminate].
  - apply filter_In in Hin as [Hin Hp]. cbn [snd] in Hp.
    destruct (user_shifts_of_spec user shifts l El clicked s Hin) as [Hin' Ha].
    destruct (Hno s Hin') as [H|H]; congruence.
Qed.

(** X13. Accept and decline change nothing when the clicked key holds no
    record that is pending and assigned to the user: a shift that was
    accepted, declined or approved before, a shift of somebody else, a
    manual payroll entry, an unknown key. *)
Theorem response_refused (shifts : store) (user clicked : string) (r : response) :
  (forall s, In (clicked, s) shifts ->
             is_pending s = false \/ assigned_to user s <> Ok true) ->
  store_after shifts (employee_shifts shifts user clicked r) = shifts /\
  forall after, employee_shifts shifts user clicked r <> Ok (true, after).
Proof.
  intros Hno. split.
  - apply (respond_without_button shifts user clicked r Hno).
  - intros after. apply (respond_without_button shifts user clicked r Hno).
Qed.

Lemma response_refused_witness :
  (forall s, In ("shift_1", s) [("shift_1", night_shift "pending")] ->
             is_pending s = false \/ assigned_to "emp5" s <> Ok true) /\
  store_after [("shift_1", night_shift "pending")]
    (employee_shifts [("shift_1", night_shift "pending")] "emp5" "shift_1" Accept)
  = [("shift_1", night_shift "pending")].
Proof.
  assert (H : forall s, In ("shift_1", s) [("shift_1", night_shift "pending")] ->
                        is_pending s = false \/ assigned_to "emp5" s <> Ok true).
  { intros s [E|[]]. injection E as <-. right. vm_compute. discriminate. }
  split; [exact H|].
  exact (proj1 (response_refused _ "emp5" "shift_1" Accept H)).
Defined.






(** ** Who can be assigned and which types are offered *)

Lemma dict_get_In {V : Type} (d : list (string * V)) (k : string) (v : V) :
  dict_get d k = Ok v -> In (k, v) d.
Proof.
  induction d as [|[k0 v0] d IH]; cbn [dict_get]; [discriminate|].
  destruct (String.eqb k0 k) eqn:E.
  - apply String.eqb_eq in E. intros [= <-]. left. congruence.
  - intros H. right. apply IH, H.
Qed.

Lemma employees_of_acc (users : user_store) :
  forall acc,
    (forall n u, In (n, u) acc -> role u = "employee" /\ username u = n) ->
    forall n u, In (n, u) (fold_left (fun acc kv =>
                              if String.eqb (role (snd kv)) "employee"
                              then dict_set acc (username (snd kv)) (snd kv) else acc)
                            users acc) ->
      role u = "employee" /\ username u = n /\
      (In (n, u) acc \/ exists k, In (k, u) users).
Proof.
  induction users as [|[k0 u0] users IH]; intros acc Hacc n u; cbn [fold_left snd].
  - intros Hin. destruct (Hacc n u Hin). auto.
  - intros Hin. apply IH in Hin.
    + destruct Hin as [H1 [H2 [Hin|[k Hin]]]].
      * destruct (String.eqb (role u0) "employee"); [|auto].
        apply in_dict_set in Hin as [E|Hin]; [|auto].
        injection E as _ <-. split; [exact H1|]. split; [exact H2|].
        right. exists k0. left. reflexivity.
      * split; [exact H1|]. split; [exact H2|]. right. exists k. right. exact Hin.
    + intros n' u' Hin'. destruct (String.eqb (role u0) "employee") eqn:Er; [|auto].
      apply in_dict_set in Hin' as [E|Hin']; [|auto].
      injection E as -> ->. apply String.eqb_eq in Er. auto.
Qed.

(** X16. Only employees can be assigned in the creation form: a name that is
    found among [employees] belongs to a stored user whose role is employee
    and whose [username] field is that name. *)
Theorem only_employees_are_assignable (users : user_store) (n : string) (u : User) :
  dict_get (employees_of users) n = Ok u ->
  role u = "employee" /\ username u = n /\ exists k, In (k, u) users.
Proof.
  intros H. apply dict_get_In in H. unfold employees_of in H.
  apply employees_of_acc in H; [|intros ? ? []].
  destruct H as [H1 [H2 [[]|H3]]]. auto.
Qed.

Lemma only_employees_are_assignable_witness :
  dict_get (employees_of sample_users) "emp5" = Ok emp5 /\
  role emp5 = "employee" /\ username emp5 = "emp5".
Proof.
  assert (E : dict_get (employees_of sample_users) "emp5" = Ok emp5)
    by (vm_compute; reflexivity).
  split; [exact E|].
  destruct (only_employees_are_assignable sample_users "emp5" emp5 E) as [H1 [H2 _]].
  split; assumption.
Defined.

Lemma allowed_of_iff (u : User) (ty : string) :
  In ty (allowed_of u) <->
  ty = primary_shift u \/
  (secondary_shift u = Val ty /\ ty <> "" /\ ty <> "None").
Proof.
  unfold allowed_of, truthy_str, field_is.
  destruct (secondary_shift u) as [| |sec]; cbn [andb].
  1,2: rewrite set_add_iff; cbn; split;
       [intros [H|[]]; auto|intros [H|[H _]]; [auto|discriminate]].
  destruct (String.eqb sec "") eqn:E1; cbn [negb andb].
  - apply String.eqb_eq in E1. rewrite set_add_iff; cbn. split.
    + intros [H|[]]. auto.
    + intros [H|[H [Hne _]]]; [auto|]. congruence.
  - destruct (String.eqb sec "None") eqn:E2; cbn [negb].
    + apply String.eqb_eq in E2. rewrite set_add_iff; cbn. split.
      * intros [H|[]]. auto.
      * intros [H|[H [_ Hne]]]; [auto|]. congruence.
    + apply String.eqb_neq in E1, E2. rewrite !set_add_iff; cbn. split.
      * intros [H|[H|[]]]; [|auto]. right. subst ty. auto.
      * intros [H|[H _]]; [auto|]. left. congruence.
Qed.

Lemma allowed_shift_sets_all (employees : list (string * User)) :
  forall selected sets,
    allowed_shift_sets employees selected = Ok sets ->
    forall emp, In emp selected ->
      exists user, dict_get employees emp = Ok user /\ In (allowed_of user) sets.
Proof.
  induction selected as [|e rest IH]; intros sets H emp Hin; [destruct Hin|].
  cbn [allowed_shift_sets] in H.
  destruct (dict_get employees e) as [u|] eqn:Eu; cbn [bind] in H; [|discriminate].
  destruct (allowed_shift_sets employees rest) as [sets'|]; cbn [bind] in H; [|discriminate].
  injection H as <-. destruct Hin as [<-|Hin].
  - exists u. auto with datatypes.
  - destruct (IH sets' eq_refl emp Hin) as [user [H1 H2]]. exists user. auto with datatypes.
Qed.

(** X17. The shift types that the creation form offers. With no employee
    selected nothing is offered and the form stops; a selected name that is
    not an employee raises KeyError; otherwise a type is offered exactly
    when it is the primary type of some selected employee or the secondary
    type, set and other than the text None, of some selected employee. *)
Theorem offered_types (employees : list (string * User)) (selected : list string) :
  (selected = [] -> available_shift_types employees selected = Ok []) /\
  (forall emp, In emp selected -> is_ok (dict_get employees emp) = false ->
               is_ok (available_shift_types employees selected) = false) /\
  (forall l, selected <> [] -> available_shift_types employees selected = Ok l ->
     forall ty,
       In ty l <->
       exists emp user,
         In emp selected /\ dict_get employees emp = Ok user /\
         (ty = primary_shift user \/
          (secondary_shift user = Val ty /\ ty <> "" /\ ty <> "None"))).
Proof.
  split; [intros ->; reflexivity|]. split.
  - intros emp Hin Hbad. unfold available_shift_types.
    destruct selected as [|e rest]; [destruct Hin|].
    destruct (allowed_shift_sets employees (e :: rest)) as [sets|] eqn:Es;
      cbn [bind]; [|reflexivity].
    destruct (allowed_shift_sets_all _ _ _ Es emp Hin) as [user [Hu _]].
    rewrite Hu in Hbad. discriminate.
  - intros l Hne H ty. unfold available_shift_types in H.
    destruct selected as [|e rest]; [congruence|].
    destruct (allowed_shift_sets employees (e :: rest)) as [sets|] eqn:Es;
      cbn [bind] in H; [|discriminate].
    injection H as <-. rewrite set_union_all_In. split.
    + intros [a [Ha Hty]].
      destruct (allowed_shift_sets_In _ _ _ Es a Ha) as [emp [user [H1 [H2 ->]]]].
      exists emp, user. split; [exact H1|]. split; [exact H2|].
      apply allowed_of_iff, Hty.
    + intros [emp [user [H1 [H2 H3]]]].
      destruct (allowed_shift_sets_all _ _ _ Es emp H1) as [user' [Hu Hs]].
      rewrite H2 in Hu. injection Hu as <-.
      exists (allowed_of user). split; [exact Hs|]. apply allowed_of_iff, H3.
Qed.

Lemma offered_types_witness :
  ["emp5"] <> [] /\
  available_shift_types (employees_of sample_users) ["emp5"]
  = Ok ["morning"; "weekend_morning"] /\
  (In "night" ["morning"; "weekend_morning"] <->
   exists emp user,
     In emp ["emp5"] /\ dict_get (employees_of sample_users) emp = Ok user /\
     ("night" = primary_shift user \/
      (secondary_shift user = Val "night" /\ "night" <> "" /\ "night" <> "None"))).
Proof.
  assert (E : available_shift_types (employees_of sample_users) ["emp5"]
              = Ok ["morning"; "weekend_morning"]) by (vm_compute; reflexivity).
  split; [discriminate|]. split; [exact E|].
  apply (proj2 (proj2 (offered_types (employees_of sample_users) ["emp5"]))
           _ ltac:(discriminate) E).
Defined.

(** ** Keys of created shifts *)

Lemma string_of_nat_inj (n m : nat) : string_of_nat n = string_of_nat m -> n = m.
Proof.
  intros H.
  assert (R : forall k, option_map Nat.of_uint
                          (NilZero.uint_of_string (string_of_nat k)) = Some k).
  { intros k. unfold string_of_nat.
    destruct (NilZero.usu_gen (Nat.to_uint k)) as [E|E]; rewrite E; cbn [option_map].
    - rewrite DecimalNat.Unsigned.of_to. reflexivity.
    - destruct (Nat.to_uint k) eqn:Ek;
        try (rewrite NilZero.usu in E by discriminate; injection E as E;
             rewrite <- E, <- Ek, DecimalNat.Unsigned.of_to; reflexivity).
      rewrite <- (DecimalNat.Unsigned.of_to k), Ek. reflexivity. }
  pose proof (R n) as Rn. rewrite H, R in Rn. congruence.
Qed.

Lemma dict_mem_app {V : Type} (d : list (string * V)) (k k' : string) (v : V) :
  dict_mem (d ++ [(k, v)])%list k' = dict_mem d k' || String.eqb k k'.
Proof.
  unfold dict_mem. rewrite existsb_app. cbn. rewrite orb_false_r. reflexivity.
Qed.

Lemma dict_mem_keys {V : Type} (d d' : list (string * V)) (k : string) :
  map fst d' = map fst d -> dict_mem d' k = dict_mem d k.
Proof.
  intros H. unfold dict_mem.
  assert (E : forall l : list (string * V),
            existsb (fun kv => String.eqb (fst kv) k) l
            = existsb (fun x => String.eqb x k) (map fst l)).
  { induction l as [|a l IH]; [reflexivity|]. cbn. rewrite IH. reflexivity. }
  rewrite !E, H. reflexivity.
Qed.

(** X18. The key of a created shift is new. When every stored key of the
    form shift_N has N at most the number of stored records (as in the
    empty store), a creation overwrites nothing: its key is not in the
    store, the record is put at the end, and the property holds again
    afterwards; approvals, accepts and declines keep the property too. *)
Theorem creation_key_is_fresh (users : user_store) (shifts : store) (f : CreateForm)
    (new_shift_id : string) (after : store) :
  shift_keys_bounded shifts ->
  admin_manage_shifts users shifts f = Ok (Created new_shift_id, after) ->
  dict_mem shifts new_shift_id = false /\
  (exists ty, after = (shifts ++ [(new_shift_id, new_shift new_shift_id ty f)])%list) /\
  shift_keys_bounded after /\
  shift_keys_bounded [] /\
  (forall clicked a o after',
     admin_approve_shifts after clicked a = Ok (o, after') ->
     shift_keys_bounded after') /\
  (forall user clicked r b after',
     employee_shifts after user clicked r = Ok (b, after') ->
     shift_keys_bounded after').
Proof.
  intros Hb Hc.
  destruct (created_inversion _ _ _ _ _ Hc) as [ty [_ [_ [Ea _]]]].
  assert (Eid : new_shift_id = "shift_" ++ string_of_nat (List.length shifts + 1)).
  { unfold admin_manage_shifts in Hc.
    destruct (available_shift_types _ _) as [[|ty0 tys]|]; cbn [bind] in Hc;
      try discriminate.
    destruct (dict_get SHIFT_TYPES _); cbn [bind] in Hc; [|discriminate].
    destruct (strptime_HM_str _); cbn [bind] in Hc; [|discriminate].
    destruct (downtime_violations _ _ _) as [vs|]; cbn [bind] in Hc; [|discriminate].
    destruct (create_clicked f && _); [|discriminate].
    destruct (selected_employees f); [discriminate|].
    destruct vs; [|discriminate].
    injection Hc as <- _. reflexivity. }
  assert (Hfresh : dict_mem shifts new_shift_id = false).
  { destruct (dict_mem shifts new_shift_id) eqn:M; [|reflexivity].
    rewrite Eid in M. apply Hb in M. lia. }
  assert (Happ : after = (shifts ++ [(new_shift_id, new_shift new_shift_id ty f)])%list)
    by (rewrite Ea; apply dict_set_fresh, Hfresh).
  assert (Hafter : shift_keys_bounded after).
  { intros n Hn. rewrite Happ, dict_mem_app in Hn. rewrite Happ, length_app. cbn.
    apply orb_true_iff in Hn as [Hn|Hn]; [apply Hb in Hn; lia|].
    apply String.eqb_eq in Hn. rewrite Eid in Hn. cbn in Hn.
    injection Hn as Hn. apply string_of_nat_inj in Hn. lia. }
  split; [exact Hfresh|]. split; [exists ty; exact Happ|]. split; [exact Hafter|].
  split; [intros n Hn; discriminate|]. split.
  - intros clicked a o after' H. unfold admin_approve_shifts in H.
    apply approve_loop_cases in H as [[_ ->]|[_ [s [ps [pe [Hin [_ Hres]]]]]]];
      [exact Hafter|].
    apply filter_In in Hin as [Hin _].
    assert (K : map fst after' = map fst after).
    { destruct a; [|destruct Hres as [_ [_ Hres]]]; rewrite Hres;
        apply dict_set_keys; eapply dict_mem_In, Hin. }
    intros n Hn. rewrite (dict_mem_keys _ _ _ K) in Hn.
    rewrite <- (length_map fst after'), K, length_map. apply Hafter, Hn.
  - intros user clicked r b after' H.
    apply employee_shifts_result in H as [[_ ->]|[s [Hin [_ Hres]]]]; [exact Hafter|].
    assert (K : map fst after' = map fst after).
    { rewrite Hres. apply dict_set_keys. eapply dict_mem_In, Hin. }
    intros n Hn. rewrite (dict_mem_keys _ _ _ K) in Hn.
    rewrite <- (length_map fst after'), K, length_map. apply Hafter, Hn.
Qed.

Lemma creation_key_is_fresh_witness :
  shift_keys_bounded [("shift_1", late_shift)] /\
  admin_manage_shifts sample_users [("shift_1", late_shift)] late_form
  = Ok (Created "shift_2",
        [("shift_1", late_shift); ("shift_2", new_shift "shift_2" "late" late_form)]) /\
  dict_mem [("shift_1", late_shift)] "shift_2" = false.
Proof.
  assert (B : shift_keys_bounded [("shift_1", late_shift)]).
  { intros n Hn. unfold dict_mem in Hn. cbn [existsb fst] in Hn.
    rewrite orb_false_r in Hn. apply String.eqb_eq in Hn.
    change "shift_1" with ("shift_" ++ string_of_nat 1) in Hn.
    cbn [append] in Hn. injection Hn as Hn. apply string_of_nat_inj in Hn.
    subst n. cbn. lia. }
  assert (E : admin_manage_shifts sample_users [("shift_1", late_shift)] late_form
              = Ok (Created "shift_2",
                    [("shift_1", late_shift);
                     ("shift_2", new_shift "shift_2" "late" late_form)]))
    by (vm_compute; reflexivity).
  split; [exact B|]. split; [exact E|].
  exact (proj1 (creation_key_is_fresh _ _ _ _ _ B E)).
Defined.

(** ** User accounts *)

Lemma mem_In (x : string) (l : list string) : mem x l = true <-> In x l.
Proof.
  unfold mem. rewrite existsb_exists. split.
  - intros [y [Hy E]]. apply String.eqb_eq in E. congruence.
  - intros H. exists x. split; [exact H|apply String.eqb_refl].
Qed.

Lemma selectbox_default_cases (options : list string) (default choice : string) :
  selectbox_default options default choice = default \/
  In (selectbox_default options default choice) options.
Proof.
  unfold selectbox_default. destruct (mem choice options) eqn:E; [|auto].
  right. apply mem_In, E.
Qed.

Lemma dict_mem_set {V : Type} (d : list (string * V)) (k k' : string) (v : V) :
  dict_mem (dict_set d k v) k' = dict_mem d k' || String.eqb k k'.
Proof.
  unfold dict_mem. induction d as [|[k0 v0] d IH]; cbn [dict_set existsb fst].
  - rewrite orb_false_r. reflexivity.
  - destruct (String.eqb k0 k) eqn:E; cbn [existsb fst].
    + apply String.eqb_eq in E. subst k0.
      destruct (String.eqb k k'); cbn [orb]; [reflexivity|].
      rewrite orb_false_r. reflexivity.
    + rewrite IH. rewrite orb_assoc. reflexivity.
Qed.

Lemma dict_mem_get {V : Type} (d : list (string * V)) (k : string) :
  dict_mem d k = is_ok (dict_get d k).
Proof.
  unfold dict_mem. induction d as [|[k0 v0] d IH]; cbn [existsb dict_get fst];
    [reflexivity|].
  destruct (String.eqb k0 k); [reflexivity|exact IH].
Qed.

Lemma dict_del_In {V : Type} (d : list (string * V)) (k0 k : string) (v : V) :
  In (k, v) (dict_del d k0) <-> In (k, v) d /\ k <> k0.
Proof.
  unfold dict_del. rewrite filter_In. cbn [fst].
  rewrite negb_true_iff, String.eqb_neq. reflexivity.
Qed.

Lemma dict_get_del_other {V : Type} (d : list (string * V)) (k0 k : string) :
  k <> k0 -> dict_get (dict_del d k0) k = dict_get d k.
Proof.
  intros Hne. unfold dict_del.
  induction d as [|[k1 v1] d IH]; cbn [filter dict_get fst]; [reflexivity|].
  destruct (String.eqb k1 k0) eqn:E; cbn [negb dict_get].
  - apply String.eqb_eq in E. subst k1.
    destruct (String.eqb k0 k) eqn:E'; [apply String.eqb_eq in E'; congruence|exact IH].
  - destruct (String.eqb k1 k); [reflexivity|exact IH].
Qed.

Lemma dict_get_del_same {V : Type} (d : list (string * V)) (k : string) :
  dict_get (dict_del d k) k = Raise KeyError.
Proof.
  unfold dict_del.
  induction d as [|[k1 v1] d IH]; cbn [filter dict_get fst]; [reflexivity|].
  destruct (String.eqb k1 k) eqn:E; cbn [negb dict_get]; [exact IH|].
  rewrite E. exact IH.
Qed.

Lemma editable_users_spec (users : account_store) (n : string) :
  In n (editable_users users) ->
  exists a, dict_get users n = Ok a /\ account_role a <> "head_admin".
Proof.
  unfold editable_users. rewrite filter_In. intros [_ H].
  destruct (dict_get users n) as [a|]; [|discriminate].
  exists a. split; [reflexivity|]. apply negb_true_iff, String.eqb_neq in H. exact H.
Qed.

Lemma chosen_user_spec (users : account_store) (choice : string) :
  selectbox_default ("" :: editable_users users) "" choice <> "" ->
  exists a, dict_get users (selectbox_default ("" :: editable_users users) "" choice) = Ok a /\
            account_role a <> "head_admin".
Proof.
  intros Hne.
  destruct (selectbox_default_cases ("" :: editable_users users) "" choice) as [E|[E|E]];
    [congruence|congruence|].
  apply editable_users_spec, E.
Qed.

Lemma secondary_selectbox_ok (primary default choice : string) :
  default = "None" \/ In default (compatible_with primary) ->
  secondary_selectbox primary default choice = "None" \/
  In (secondary_selectbox primary default choice) (compatible_with primary).
Proof.
  intros Hd. unfold secondary_selectbox.
  destruct (compatible_with primary) as [|c l] eqn:E; [auto|].
  destruct (selectbox_default_cases ("None" :: c :: l) default choice) as [H|[H|H]].
  - rewrite H. exact Hd.
  - auto.
  - auto.
Qed.

Lemma compatible_secondary (primary secondary : string) :
  In primary shift_type_keys ->
  secondary = "None" \/ In secondary (compatible_with primary) ->
  forall u, primary_shift u = primary -> secondary_shift u = secondary_field secondary ->
            compatible_types u = true.
Proof.
  intros Hp Hs u E1 E2. unfold compatible_types. rewrite E1, E2.
  apply andb_true_iff. split; [apply mem_In, Hp|].
  unfold secondary_field. destruct (String.eqb secondary "None") eqn:E; [reflexivity|].
  apply String.eqb_neq in E. destruct Hs as [Hs|Hs]; [congruence|apply mem_In, Hs].
Qed.

Lemma selectbox_keys (choice : string) : In (selectbox shift_type_keys choice) shift_type_keys.
Proof.
  apply selectbox_In. discriminate.
Qed.

Lemma new_account_ok (hash : string -> string) (new_role : string) (f : UserForm) :
  new_role = "admin" \/ new_role = "employee" ->
  new_username f <> "head_admin" ->
  account_ok (new_username f) (new_account hash new_role f) = true.
Proof.
  intros Hrole Hname. unfold account_ok, account_role, new_account;
    cbn [account_user username role].
  rewrite String.eqb_refl. cbn [andb].
  apply String.eqb_neq in Hname. rewrite Hname.
  assert (C : compatible_types
                {| username := new_username f; role := new_role; name := new_name f;
                   primary_shift := selectbox shift_type_keys (primary_choice f);
                   secondary_shift :=
                     secondary_field
                       (secondary_selectbox (selectbox shift_type_keys (primary_choice f))
                          "None" (secondary_choice f));
                   hourly_rate := new_hourly_rate f |} = true).
  { eapply compatible_secondary;
      [apply selectbox_keys|apply secondary_selectbox_ok; auto|reflexivity|reflexivity]. }
  rewrite C. destruct Hrole as [-> | ->]; reflexivity.
Qed.

Lemma add_account_cases (hash : string -> string) (users : account_store)
    (new_role : string) (f : UserForm) (b : bool) (after : account_store) :
  add_account hash users new_role f = (b, after) ->
  (b = false /\ after = users /\
   (submitted f = false \/ new_username f = "" \/ new_password f = "" \/
    new_name f = "" \/ new_email f = "" \/ dict_mem users (new_username f) = true)) \/
  (b = true /\ submitted f = true /\ new_username f <> "" /\ new_password f <> "" /\
   new_name f <> "" /\ new_email f <> "" /\ dict_mem users (new_username f) = false /\
   after = dict_set users (new_username f) (new_account hash new_role f)).
Proof.
  unfold add_account. destruct (submitted f); [|intros [= <- <-]; left; auto].
  destruct (String.eqb (new_username f) "") eqn:E1; cbn [orb].
  { intros [= <- <-]. apply String.eqb_eq in E1. left. auto. }
  destruct (String.eqb (new_password f) "") eqn:E2; cbn [orb].
  { intros [= <- <-]. apply String.eqb_eq in E2. left. auto 6. }
  destruct (String.eqb (new_name f) "") eqn:E3; cbn [orb].
  { intros [= <- <-]. apply String.eqb_eq in E3. left. auto 7. }
  destruct (String.eqb (new_email f) "") eqn:E4.
  { intros [= <- <-]. apply String.eqb_eq in E4. left. auto 8. }
  apply String.eqb_neq in E1, E2, E3, E4.
  destruct (dict_mem users (new_username f)) eqn:E5; intros [= <- <-].
  - left. auto 9.
  - right. repeat split; assumption.
Qed.

(** X19. A new account is stored exactly when the form is submitted with
    user name, password, full name and e-mail filled in and the user name
    is not taken; otherwise the user file stays as it was. After it is
    stored, logging in with the user name and the password returns the new
    account, whose role is employee (form of the admin) or the chosen one of
    admin and employee (form of the head admin), and every other user name
    logs in as before. *)
Theorem added_user_can_log_in (hash : string -> string) (users : account_store)
    (new_role : string) (f : UserForm) (b : bool) (after : account_store) :
  add_account hash users new_role f = (b, after) ->
  (b = true <->
   submitted f = true /\ new_username f <> "" /\ new_password f <> "" /\
   new_name f <> "" /\ new_email f <> "" /\ dict_mem users (new_username f) = false) /\
  (b = false -> after = users) /\
  (b = true ->
   authenticate hash after (new_username f) (new_password f)
   = Some (new_account hash new_role f) /\
   account_role (new_account hash new_role f) = new_role /\
   (forall user pass, user <> new_username f ->
      authenticate hash after user pass = authenticate hash users user pass)) /\
  admin_create_employee hash users f = add_account hash users "employee" f /\
  (exists r, (r = "admin" \/ r = "employee") /\
             head_admin_add_user hash users f = add_account hash users r f).
Proof.
  intros H. apply add_account_cases in H.
  split; [|split; [|split; [|split]]].
  - destruct H as [[-> [_ Hc]]|[-> [H1 [H2 [H3 [H4 [H5 [H6 _]]]]]]]].
    + split; [discriminate|]. intros [G1 [G2 [G3 [G4 [G5 G6]]]]].
      destruct Hc as [Hc|[Hc|[Hc|[Hc|[Hc|Hc]]]]]; congruence.
    + split; auto 7.
  - intros ->. destruct H as [[_ [-> _]]|[Hb _]]; [reflexivity|discriminate].
  - intros ->. destruct H as [[Hb _]|[_ [_ [_ [_ [_ [_ [_ ->]]]]]]]]; [discriminate|].
    split; [|split].
    + unfold authenticate. rewrite dict_get_set_same.
      unfold new_account; cbn [password]. rewrite String.eqb_refl. reflexivity.
    + reflexivity.
    + intros user pass Hne. unfold authenticate.
      rewrite dict_get_set_other by exact Hne. reflexivity.
  - reflexivity.
  - exists (selectbox ["admin"; "employee"] (role_choice f)). split; [|reflexivity].
    destruct (selectbox_In ["admin"; "employee"] (role_choice f) ltac:(discriminate))
      as [E|[E|[]]]; auto.
Qed.

Lemma added_user_can_log_in_witness :
  admin_create_employee sample_hash [] carol_form
  = (true, [("carol", new_account sample_hash "employee" carol_form)]) /\
  authenticate sample_hash [("carol", new_account sample_hash "employee" carol_form)]
    "carol" "s3cret"
  = Some (new_account sample_hash "employee" carol_form).
Proof.
  assert (E : add_account sample_hash [] "employee" carol_form
              = (true, [("carol", new_account sample_hash "employee" carol_form)]))
    by reflexivity.
  split; [exact E|].
  exact (proj1 (proj1 (proj2 (proj2 (added_user_can_log_in sample_hash [] "employee"
                                       carol_form true _ E))) eq_refl)).
Defined.

Lemma default_accounts_inv (hash : string -> string) :
  accounts_inv (initialize_default_users hash []).
Proof.
  assert (A : forallb (fun kv => account_ok (fst kv) (snd kv))
                (initialize_default_users hash []) = true) by (vm_compute; reflexivity).
  split; [vm_compute; reflexivity|].
  intros k a Hin. rewrite forallb_forall in A. apply (A (k, a) Hin).
Qed.

Lemma add_account_inv (hash : string -> string) (users : account_store)
    (new_role : string) (f : UserForm) (b : bool) (after : account_store) :
  new_role = "admin" \/ new_role = "employee" ->
  accounts_inv users ->
  add_account hash users new_role f = (b, after) ->
  accounts_inv after.
Proof.
  intros Hrole [Hhead Hall] H.
  apply add_account_cases in H as [[_ [-> _]]|[_ [_ [_ [_ [_ [_ [Hfresh ->]]]]]]]];
    [split; assumption|].
  split.
  - rewrite dict_mem_set, Hhead. reflexivity.
  - intros k a Hin. apply in_dict_set in Hin as [E|Hin]; [|apply Hall, Hin].
    injection E as -> ->. apply new_account_ok; [exact Hrole|].
    intros E. rewrite E in Hfresh. congruence.
Qed.

Lemma chosen_is_not_head (users : account_store) (n : string) (a : Account) :
  accounts_inv users -> dict_get users n = Ok a -> account_role a <> "head_admin" ->
  n <> "head_admin" /\ username (account_user a) = n.
Proof.
  intros [_ Hall] Hget Hrole.
  pose proof (Hall n a (dict_get_In _ _ _ Hget)) as Hok.
  unfold account_ok in Hok. repeat (apply andb_true_iff in Hok as [Hok ?]).
  apply String.eqb_eq in Hok. split; [|exact Hok].
  apply String.eqb_neq in Hrole.
  match goal with H : Bool.eqb _ _ = true |- _ => apply Bool.eqb_prop in H; rename H into Hiff end.
  rewrite Hrole in Hiff. intros E. rewrite E in Hiff. cbn in Hiff. discriminate.
Qed.

Lemma delete_user_cases (users : account_store) (delete_choice : string)
    (confirmed : bool) (b : bool) (after : account_store) :
  head_admin_delete_user users delete_choice confirmed = Ok (b, after) ->
  (b = false /\ after = users) \/
  (b = true /\ confirmed = true /\
   exists n a, n <> "" /\ dict_get users n = Ok a /\ account_role a <> "head_admin" /\
               after = dict_del users n).
Proof.
  unfold head_admin_delete_user.
  set (n := selectbox_default ("" :: editable_users users) "" delete_choice).
  destruct (String.eqb n "") eqn:E; [intros [= <- <-]; left; auto|].
  apply String.eqb_neq in E.
  destruct (chosen_user_spec users delete_choice E) as [a [Ha Hr]]. fold n in Ha.
  rewrite Ha; cbn [bind].
  destruct confirmed; intros [= <- <-]; [|left; auto].
  right. split; [reflexivity|]. split; [reflexivity|]. exists n, a. auto.
Qed.

Lemma update_user_cases (users : account_store) (f : UpdateForm)
    (b : bool) (after : account_store) :
  head_admin_update_user users f = Ok (b, after) ->
  (b = false /\ after = users) \/
  (b = true /\ update_submitted f = true /\
   exists n a a',
     n <> "" /\ dict_get users n = Ok a /\ account_role a <> "head_admin" /\
     after = dict_set users n a' /\
     password a' = password a /\
     username (account_user a') = username (account_user a) /\
     name (account_user a') = updated_name f /\ email a' = updated_email f /\
     hourly_rate (account_user a') = updated_hourly_rate f /\
     (account_role a' = "admin" \/ account_role a' = "employee") /\
     compatible_types (account_user a') = true).
Proof.
  unfold head_admin_update_user.
  set (n := selectbox_default ("" :: editable_users users) "" (update_choice f)).
  destruct (String.eqb n "") eqn:E; [intros [= <- <-]; left; auto|].
  apply String.eqb_neq in E.
  destruct (chosen_user_spec users (update_choice f) E) as [a [Ha Hr]]. fold n in Ha.
  rewrite Ha; cbn [bind]. unfold index_check.
  destruct (mem (role (account_user a)) ["admin"; "employee"]) eqn:Er; cbn [bind];
    [|discriminate].
  destruct (mem (primary_shift (account_user a)) shift_type_keys) eqn:Ep; cbn [bind];
    [|discriminate].
  destruct (update_submitted f); intros [= <- <-]; [|left; auto].
  right. split; [reflexivity|]. split; [reflexivity|].
  eexists n, a, _. split; [exact E|]. split; [exact Ha|]. split; [exact Hr|].
  split; [reflexivity|]. cbn [password account_user username name email hourly_rate].
  repeat (split; [reflexivity|]).
  apply mem_In in Er, Ep. split.
  - unfold account_role; cbn [account_user role].
    destruct (selectbox_default_cases ["admin"; "employee"] (role (account_user a))
                (updated_role_choice f)) as [H|H].
    + rewrite H. destruct Er as [Er|[Er|[]]]; rewrite <- Er; auto.
    + destruct H as [H|[H|[]]]; rewrite <- H; auto.
  - set (p := selectbox_default shift_type_keys (primary_shift (account_user a))
                (updated_primary_choice f)).
    assert (Hp : In p shift_type_keys).
    { destruct (selectbox_default_cases shift_type_keys (primary_shift (account_user a))
                  (updated_primary_choice f)) as [H|H]; [|exact H].
      unfold p. rewrite H. exact Ep. }
    eapply compatible_secondary; [exact Hp| |reflexivity|reflexivity].
    apply secondary_selectbox_ok.
    destruct (secondary_shift (account_user a)) as [| |c]; auto.
    destruct (mem c (compatible_with p)) eqn:Ec; [right; apply mem_In, Ec|auto].
Qed.

Lemma account_step_inv (hash : string -> string) (users after : account_store) :
  account_step hash users after -> accounts_inv users -> accounts_inv after.
Proof.
  intros H Hi. destruct H as [users f b after H|users f b after H
                             |users f b after H|users c cf b after H].
  - eapply add_account_inv; [| exact Hi | exact H]. auto.
  - unfold head_admin_add_user in H. eapply add_account_inv; [| exact Hi | exact H].
    destruct (selectbox_In ["admin"; "employee"] (role_choice f) ltac:(discriminate))
      as [E|[E|[]]]; auto.
  - apply update_user_cases in H as [[_ ->]|[_ [_ [n [a [a' H]]]]]]; [exact Hi|].
    destruct H as [_ [Ha [Hr [-> [_ [Hu [_ [_ [_ [Hrole Hc]]]]]]]]]].
    destruct (chosen_is_not_head users n a Hi Ha Hr) as [Hn Hun].
    destruct Hi as [Hhead Hall]. split.
    + rewrite dict_mem_set, Hhead. reflexivity.
    + intros k x Hin. apply in_dict_set in Hin as [E|Hin]; [|apply Hall, Hin].
      injection E as -> ->. unfold account_ok. rewrite Hu, Hun, String.eqb_refl, Hc.
      apply String.eqb_neq in Hn. rewrite Hn.
      destruct Hrole as [-> | ->]; reflexivity.
  - apply delete_user_cases in H as [[_ ->]|[_ [_ [n [a [_ [Ha [Hr ->]]]]]]]]; [exact Hi|].
    destruct (chosen_is_not_head users n a Hi Ha Hr) as [Hn _].
    destruct Hi as [Hhead Hall]. split.
    + rewrite dict_mem_get, dict_get_del_other, <- dict_mem_get by congruence. exact Hhead.
    + intros k x Hin. apply dict_del_In in Hin as [Hin _]. apply Hall, Hin.
Qed.

Lemma reachable_accounts_inv (hash : string -> string) (users : account_store) :
  reachable_accounts hash users -> accounts_inv users.
Proof.
  induction 1 as [|users after _ IH Hs]; [apply default_accounts_inv|].
  eapply account_step_inv; eassumption.
Qed.

(** X20. In every user file that arises from the default users through the
    forms (create employee, add user, update user, delete user): the key
    head_admin is there and holds a head administrator; every account is
    stored under its own user name; its role is head_admin, admin or
    employee, and it is head_admin only under the key head_admin; its
    primary shift is a catalog type and its secondary shift is null or one
    of the types compatible with the primary one. *)
Theorem accounts_stay_well_formed (hash : string -> string) (users : account_store) :
  reachable_accounts hash users ->
  (exists a, dict_get users "head_admin" = Ok a /\ account_role a = "head_admin") /\
  forall k a, In (k, a) users ->
    username (account_user a) = k /\
    In (account_role a) ["head_admin"; "admin"; "employee"] /\
    (account_role a = "head_admin" <-> k = "head_admin") /\
    In (primary_shift (account_user a)) shift_type_keys /\
    (secondary_shift (account_user a) = Null \/
     exists c, secondary_shift (account_user a) = Val c /\
               In c (compatible_with (primary_shift (account_user a)))).
Proof.
  intros Hr. destruct (reachable_accounts_inv hash users Hr) as [Hhead Hall].
  assert (Hexp : forall k a, In (k, a) users ->
            username (account_user a) = k /\
            In (account_role a) ["head_admin"; "admin"; "employee"] /\
            (account_role a = "head_admin" <-> k = "head_admin") /\
            In (primary_shift (account_user a)) shift_type_keys /\
            (secondary_shift (account_user a) = Null \/
             exists c, secondary_shift (account_user a) = Val c /\
                       In c (compatible_with (primary_shift (account_user a))))).
  { intros k a Hin. pose proof (Hall k a Hin) as Hok. unfold account_ok in Hok.
    apply andb_true_iff in Hok as [Hok Hc]. apply andb_true_iff in Hok as [Hok Hiff].
    apply andb_true_iff in Hok as [Hu Hrole].
    apply String.eqb_eq in Hu. apply mem_In in Hrole. apply Bool.eqb_prop in Hiff.
    unfold compatible_types in Hc. apply andb_true_iff in Hc as [Hp Hs].
    apply mem_In in Hp.
    split; [exact Hu|]. split; [exact Hrole|]. split; [|split; [exact Hp|]].
    - rewrite <- !String.eqb_eq, Hiff. reflexivity.
    - destruct (secondary_shift (account_user a)) as [| |c]; [discriminate|auto|].
      right. exists c. split; [reflexivity|apply mem_In, Hs]. }
  split; [|exact Hexp].
  rewrite dict_mem_get in Hhead.
  destruct (dict_get users "head_admin") as [a|] eqn:E; [|discriminate].
  exists a. split; [reflexivity|].
  apply (Hexp "head_admin" a (dict_get_In _ _ _ E)). reflexivity.
Qed.

Lemma accounts_stay_well_formed_witness :
  reachable_accounts sample_hash
    (snd (admin_create_employee sample_hash (initialize_default_users sample_hash [])
            carol_form)) /\
  exists a,
    dict_get (snd (admin_create_employee sample_hash
                     (initialize_default_users sample_hash []) carol_form))
      "head_admin" = Ok a /\
    account_role a = "head_admin".
Proof.
  assert (R : reachable_accounts sample_hash
                (snd (admin_create_employee sample_hash
                        (initialize_default_users sample_hash []) carol_form))).
  { eapply reachable_account_step; [apply reachable_default|].
    eapply (step_create_employee sample_hash _ carol_form).
    apply surjective_pairing. }
  split; [exact R|].
  exact (proj1 (accounts_stay_well_formed sample_hash _ R)).
Defined.

Lemma head_admin_elsewhere (users : account_store) (n k : string) (a h : Account) :
  dict_get users n = Ok a -> account_role a <> "head_admin" ->
  dict_get users k = Ok h -> account_role h = "head_admin" -> k <> n.
Proof.
  intros Ha Hr Hh Hrole E. subst k. rewrite Ha in Hh. injection Hh as <-. congruence.
Qed.

(** X21. Deleting a user: only an account whose role is not head_admin can
    be chosen, and nothing is removed without the confirmation. After a
    deletion the user name is not a key any more and cannot log in with any
    password; every other user name keeps its account, and an account of
    role head_admin is never removed. *)
Theorem deleted_user_cannot_log_in (users : account_store) (delete_choice : string)
    (confirmed b : bool) (after : account_store) :
  head_admin_delete_user users delete_choice confirmed = Ok (b, after) ->
  (b = true -> confirmed = true) /\
  (b = false -> after = users) /\
  (b = true ->
   exists n a,
     dict_get users n = Ok a /\ account_role a <> "head_admin" /\
     dict_get after n = Raise KeyError /\
     (forall hash pass, authenticate hash after n pass = None) /\
     (forall k, k <> n -> dict_get after k = dict_get users k)) /\
  (forall k h, dict_get users k = Ok h -> account_role h = "head_admin" ->
               dict_get after k = Ok h).
Proof.
  intros H.
  apply delete_user_cases in H as [[-> ->]|[-> [-> [n [a [_ [Ha [Hr ->]]]]]]]].
  - split; [discriminate|]. split; [reflexivity|]. split; [discriminate|]. auto.
  - split; [reflexivity|]. split; [discriminate|]. split.
    + intros _. exists n, a. split; [exact Ha|]. split; [exact Hr|].
      split; [apply dict_get_del_same|]. split.
      * intros hash pass. unfold authenticate. rewrite dict_get_del_same. reflexivity.
      * intros k Hk. apply dict_get_del_other, Hk.
    + intros k h Hh Hrole. rewrite dict_get_del_other; [exact Hh|].
      eapply head_admin_elsewhere; eassumption.
Qed.

Lemma deleted_user_cannot_log_in_witness :
  head_admin_delete_user [("carol", new_account sample_hash "employee" carol_form)]
    "carol" true = Ok (true, []) /\
  authenticate sample_hash [("carol", new_account sample_hash "employee" carol_form)]
    "carol" "s3cret" = Some (new_account sample_hash "employee" carol_form) /\
  authenticate sample_hash [] "carol" "s3cret" = None.
Proof.
  assert (E : head_admin_delete_user
                [("carol", new_account sample_hash "employee" carol_form)] "carol" true
              = Ok (true, [])) by (vm_compute; reflexivity).
  split; [exact E|]. split; [vm_compute; reflexivity|].
  destruct (proj1 (proj2 (proj2 (deleted_user_cannot_log_in _ _ _ _ _ E))) eq_refl)
    as [n [a [Ha [_ [_ [Hauth _]]]]]].
  reflexivity.
Defined.

(** X22. Updating a user: only an account whose role is not head_admin can
    be chosen, and nothing is written before the form is submitted. The
    update keeps the user name and the password, so the user logs in with
    the same passwords as before; name, e-mail and rate are the entered
    ones, the role becomes admin or employee, the shift types stay
    compatible; every other user name keeps its account, and an account of
    role head_admin is never changed. *)
Theorem updated_user_keeps_login (users : account_store) (f : UpdateForm)
    (b : bool) (after : account_store) :
  head_admin_update_user users f = Ok (b, after) ->
  (b = true -> update_submitted f = true) /\
  (b = false -> after = users) /\
  (b = true ->
   exists n a a',
     dict_get users n = Ok a /\ account_role a <> "head_admin" /\
     dict_get after n = Ok a' /\
     (forall hash pass,
        authenticate hash after n pass = Some a' <->
        authenticate hash users n pass = Some a) /\
     username (account_user a') = username (account_user a) /\
     name (account_user a') = updated_name f /\ email a' = updated_email f /\
     hourly_rate (account_user a') = updated_hourly_rate f /\
     (account_role a' = "admin" \/ account_role a' = "employee") /\
     compatible_types (account_user a') = true /\
     (forall k, k <> n -> dict_get after k = dict_get users k)) /\
  (forall k h, dict_get users k = Ok h -> account_role h = "head_admin" ->
               dict_get after k = Ok h).
Proof.
  intros H.
  apply update_user_cases in H as [[-> ->]|[-> [Hsub [n [a [a' H]]]]]].
  - split; [discriminate|]. split; [reflexivity|]. split; [discriminate|]. auto.
  - destruct H as [_ [Ha [Hr [-> [Hpw [Hu [Hn [He [Hrate [Hrole Hc]]]]]]]]]].
    split; [auto|]. split; [discriminate|]. split.
    + intros _. exists n, a, a'. split; [exact Ha|]. split; [exact Hr|].
      split; [apply dict_get_set_same|]. split.
      * intros hash pass. unfold authenticate. rewrite dict_get_set_same, Ha, Hpw.
        destruct (String.eqb (password a) (hash pass)); split; intros; congruence.
      * repeat (split; [assumption|]). intros k Hk. apply dict_get_set_other, Hk.
    + intros k h Hh Hrole'. rewrite dict_get_set_other; [exact Hh|].
      eapply head_admin_elsewhere; eassumption.
Qed.

Lemma updated_user_keeps_login_witness :
  exists after a',
    head_admin_update_user [("carol", new_account sample_hash "employee" carol_form)]
      (mkUpdateForm "carol" "Carol B" "cb@company.com" "admin" "morning" "" 30%float true)
    = Ok (true, after) /\
    dict_get after "carol" = Ok a' /\
    account_role a' = "admin" /\
    authenticate sample_hash after "carol" "s3cret" = Some a'.
Proof.
  destruct (head_admin_update_user
              [("carol", new_account sample_hash "employee" carol_form)]
              (mkUpdateForm "carol" "Carol B" "cb@company.com" "admin" "morning" ""
                 30%float true)) as [[b after]|] eqn:E;
    [|vm_compute in E; discriminate E].
  assert (Hb : b = true) by (vm_compute in E; congruence).
  subst b.
  destruct (proj1 (proj2 (proj2 (updated_user_keeps_login _ _ _ _ E))) eq_refl)
    as [n [a [a' [Ha [_ [Hget [Hauth _]]]]]]].
  vm_compute in E. injection E as <-.
  eexists _, _. split; [reflexivity|]. split; [vm_compute; reflexivity|].
  split; vm_compute; reflexivity.
Defined.
